(** * AWS Secure Network Builder: deployment and teardown orchestration

    A shallow embedding of [builder.py] and of the three managers under
    [modules/] ([vpc.py], [gateways.py], [security.py], [utils.py]).

    The managers talk to EC2 through boto3.  Here every boto3 operation is a
    [Call]; the cloud is an oracle that answers a call from the history of
    the calls made so far, and every call is recorded, with its outcome, in
    the trace of the world (a recording fake provider).  The orchestrator's
    [self.state], the log and the files under [output/] are the other
    components of the world.  Python exceptions are the [Raise] results of a
    state-and-error monad. *)

From Stdlib Require Import List String Ascii Bool ZArith Lia DecimalString.
Import ListNotations.
Local Open Scope string_scope.
Local Open Scope list_scope.

(** ** Python values *)

(** Truth value of a Python [str]: only the empty string is falsy. *)
Definition truthy (s : string) : bool :=
  match s with EmptyString => false | String _ _ => true end.

(** Truth value of a value that is either [None] or a [str]. *)
Definition truthy_opt (o : option string) : bool :=
  match o with Some s => truthy s | None => false end.

(** [needle in haystack] on Python strings. *)
Fixpoint contains (needle haystack : string) : bool :=
  if prefix needle haystack then true
  else match haystack with
       | EmptyString => false
       | String _ rest => contains needle rest
       end.

(** [str(n)] for a Python [int]. *)
Definition str_of_int (n : Z) : string := NilZero.string_of_int (Z.to_int n).

(** A Python [dict] with string keys.  It keeps insertion order; assigning
    to a key that is present replaces the value where the key stands. *)
Definition dict (V : Type) : Type := list (string * V).

Fixpoint dict_get {V} (k : string) (d : dict V) : option V :=
  match d with
  | [] => None
  | (k', v) :: rest => if String.eqb k k' then Some v else dict_get k rest
  end.

Fixpoint dict_set {V} (k : string) (v : V) (d : dict V) : dict V :=
  match d with
  | [] => [(k, v)]
  | (k', v') :: rest =>
      if String.eqb k k' then (k, v) :: rest else (k', v') :: dict_set k v rest
  end.

Definition keys {V} (d : dict V) : list string := map fst d.

(** ** Configuration (the YAML document returned by [load_config]) *)

Record SubnetSpec := mkSubnetSpec {
  sub_name : string;
  sub_cidr : string;
  sub_az   : string;
  sub_type : string
}.

Record IngressRule := mkIngressRule {
  rule_protocol  : string;
  rule_from_port : Z;
  rule_to_port   : Z;
  rule_cidr      : string
}.

Record NatConfig := mkNatConfig { nat_enabled : option bool }.

(** Required keys are plain fields, optional keys are options: [None] is an
    absent key, and the code reads them with [config.get(key, default)]. *)
Record Config := mkConfig {
  vpc_name             : string;
  cidr                 : string;
  region               : string;
  subnets              : list SubnetSpec;
  enable_dns_hostnames : option bool;
  enable_dns_support   : option bool;
  tags                 : option (dict string);
  nat_gateway          : option NatConfig;
  security_groups      : option (dict (list IngressRule))
}.

Definition get_default {A} (o : option A) (d : A) : A :=
  match o with Some a => a | None => d end.

(** ** Deployment state ([self.state]) *)

Record SubnetData := mkSubnetData {
  sd_id   : string;
  sd_cidr : string;
  sd_az   : string;
  sd_type : string
}.

Record NatData := mkNatData { nat_id : string; elastic_ip : string }.

Record Gateways := mkGateways {
  internet_gateway : option string;
  nat_gateway_data : option NatData
}.

Record DeployState := mkState {
  vpc_id             : option string;
  state_subnets      : dict SubnetData;
  state_security_groups : dict string;
  route_tables       : dict string;
  gateways           : Gateways;
  timestamp          : string
}.

(** The state built by [AWSNetworkBuilder.__init__]. *)
Definition init_state (ts : string) : DeployState :=
  mkState None [] [] [] (mkGateways None None) ts.

Definition set_vpc_id (v : string) (s : DeployState) : DeployState :=
  mkState (Some v) (state_subnets s) (state_security_groups s) (route_tables s)
          (gateways s) (timestamp s).

Definition set_subnet (n : string) (d : SubnetData) (s : DeployState) : DeployState :=
  mkState (vpc_id s) (dict_set n d (state_subnets s)) (state_security_groups s)
          (route_tables s) (gateways s) (timestamp s).

Definition set_security_group (n i : string) (s : DeployState) : DeployState :=
  mkState (vpc_id s) (state_subnets s) (dict_set n i (state_security_groups s))
          (route_tables s) (gateways s) (timestamp s).

Definition set_route_table (tier i : string) (s : DeployState) : DeployState :=
  mkState (vpc_id s) (state_subnets s) (state_security_groups s)
          (dict_set tier i (route_tables s)) (gateways s) (timestamp s).

Definition set_internet_gateway (i : string) (s : DeployState) : DeployState :=
  mkState (vpc_id s) (state_subnets s) (state_security_groups s) (route_tables s)
          (mkGateways (Some i) (nat_gateway_data (gateways s))) (timestamp s).

Definition set_nat_gateway (d : NatData) (s : DeployState) : DeployState :=
  mkState (vpc_id s) (state_subnets s) (state_security_groups s) (route_tables s)
          (mkGateways (internet_gateway (gateways s)) (Some d)) (timestamp s).

(** ** Exceptions *)

(** [ClientError] is what the managers catch; a waiter failure or a
    parameter-validation failure of botocore is not a [ClientError]. *)
Inductive Exn :=
| ClientError (msg : string)
| BotoCoreError (msg : string)
| KeyError (key : string)
| OSError (msg : string).

(** [str(e)]. *)
Definition exn_str (e : Exn) : string :=
  match e with
  | ClientError m | BotoCoreError m | OSError m => m
  | KeyError k => "'" ++ k ++ "'"
  end.

(** ** Calls to the outside: EC2 operations and the two file operations *)

Inductive VpcAttribute := EnableDnsHostnames | EnableDnsSupport.

Inductive Call :=
| CreateVpc (cidr_block : string)
| WaitVpcAvailable (vpc : string)
| ModifyVpcAttribute (vpc : string) (attr : VpcAttribute)
| CreateTags (resource : string) (tag_list : list (string * string))
| CreateSubnet (vpc : option string) (cidr_block az : string)
| ModifySubnetAttribute (subnet : string)
| CreateRouteTable (vpc : option string)
| CreateRoute (route_table destination : string)
              (gateway_id nat_gateway_id : option string)
| AssociateRouteTable (subnet route_table : string)
| CreateInternetGateway
| AttachInternetGateway (igw : string) (vpc : option string)
| AllocateAddress
| CreateNatGateway (subnet allocation : string)
| WaitNatGatewayAvailable (nat : string)
| CreateSecurityGroup (group_name description : string) (vpc : option string)
| AuthorizeSecurityGroupIngress (group protocol : string) (from_port to_port : Z)
                                (cidr_ip : string)
| AuthorizeSecurityGroupEgress (group protocol : string) (from_port to_port : Z)
                               (cidr_ip : string)
| DescribeNatGateways (nat : string)
| DeleteNatGateway (nat : string)
| ReleaseAddress (allocation : string)
| DetachInternetGateway (igw : string) (vpc : option string)
| DeleteInternetGateway (igw : string)
| DeleteSubnet (subnet : string)
| DeleteRouteTable (route_table : string)
| DeleteSecurityGroup (group : string)
| DeleteVpc (vpc : string)
| MakeDir (path : string)
| OpenForWriting (path : string).

(** What [describe_nat_gateways] tells about one NAT gateway: the
    [AllocationId] (or none) of each entry of [NatGatewayAddresses]. *)
Definition NatDescription : Type := list (option string).

(** The part of a response the code reads. *)
Definition ret_type (c : Call) : Type :=
  match c with
  | CreateVpc _ | CreateSubnet _ _ _ | CreateRouteTable _
  | CreateInternetGateway | CreateNatGateway _ _
  | CreateSecurityGroup _ _ _ => string
  | AllocateAddress => (string * string)%type
  | DescribeNatGateways _ => list NatDescription
  | _ => unit
  end.

Inductive Value :=
| VUnit
| VId (i : string)
| VAddress (allocation public_ip : string)
| VNatGateways (l : list NatDescription).

Definition val_of (c : Call) : ret_type c -> Value :=
  match c return ret_type c -> Value with
  | CreateVpc _ | CreateSubnet _ _ _ | CreateRouteTable _
  | CreateInternetGateway | CreateNatGateway _ _
  | CreateSecurityGroup _ _ _ => VId
  | AllocateAddress => fun p => VAddress (fst p) (snd p)
  | DescribeNatGateways _ => VNatGateways
  | _ => fun _ => VUnit
  end.

Inductive Outcome :=
| Returned (v : Value)
| Failed (e : Exn).

Definition Event : Type := (Call * Outcome)%type.

(** The outside world: it answers a call, given the events so far. *)
Definition Provider : Type := list Event -> forall c : Call, Exn + ret_type c.

(** ** The world and the monad of effects *)

Inductive Level := DEBUG | INFO | WARNING | ERROR.

(** The world of a builder: its state ([self.state]); the events so far;
    the records that the logger has emitted, each of which its two handlers
    write to the standard output and append to [logs/builder.log]; and the
    state files, by their path, each with the state that it holds. *)
Record World := mkWorld {
  st    : DeployState;
  trace : list Event;
  log   : list (Level * string);
  files : dict DeployState
}.

Inductive Result (A : Type) :=
| Ok (a : A)
| Raise (e : Exn).
Arguments Ok {A} a.
Arguments Raise {A} e.

Definition M (A : Type) : Type := World -> Result A * World.

Definition ret {A} (a : A) : M A := fun w => (Ok a, w).

Definition raise {A} (e : Exn) : M A := fun w => (Raise e, w).

Definition bind {A B} (m : M A) (f : A -> M B) : M B :=
  fun w => match m w with
           | (Ok a, w') => f a w'
           | (Raise e, w') => (Raise e, w')
           end.

Notation "x <- m ;; k" := (bind m (fun x => k))
  (at level 61, m at next level, right associativity).
Notation "m ;; k" := (bind m (fun _ => k))
  (at level 61, right associativity).

Definition when (b : bool) (m : M unit) : M unit := if b then m else ret tt.

(** [for x in xs: body(x)] *)
Fixpoint for_each {A} (body : A -> M unit) (xs : list A) : M unit :=
  match xs with
  | [] => ret tt
  | x :: rest => body x ;; for_each body rest
  end.

Definition get_state : M DeployState := fun w => (Ok (st w), w).

Definition modify_state (f : DeployState -> DeployState) : M unit :=
  fun w => (Ok tt, mkWorld (f (st w)) (trace w) (log w) (files w)).

(** [self.logger.info(msg)] and the like: one more record for the
    handlers. *)
Definition logger (lvl : Level) (msg : string) : M unit :=
  fun w => (Ok tt, mkWorld (st w) (trace w) (log w ++ [(lvl, msg)]) (files w)).

Definition record (ev : Event) (w : World) : World :=
  mkWorld (st w) (trace w ++ [ev]) (log w) (files w).

(** [try: body except ClientError as e: handler(e)] *)
Definition except_client_error {A} (body : M A) (handler : string -> M A) : M A :=
  fun w => match body w with
           | (Raise (ClientError msg), w') => handler msg w'
           | other => other
           end.

(** [try: body except Exception as e: handler(e)] *)
Definition except_exception {A} (body : M A) (handler : Exn -> M A) : M A :=
  fun w => match body w with
           | (Raise e, w') => handler e w'
           | other => other
           end.

Section Provider.

Variable aws : Provider.

(** One request: it is answered from the history and recorded. *)
Definition perform (c : Call) : M (ret_type c) :=
  fun w => match aws (trace w) c with
           | inr v => (Ok v, record (c, Returned (val_of c v)) w)
           | inl e => (Raise e, record (c, Failed e) w)
           end.

End Provider.

(** ** modules/utils.py *)

Module utils.
Section Validation.

(** [ipaddress.IPv4Network(s)] of the Python standard library builds a
    network or raises [ValueError]; [ipv4_network] says whether it builds. *)
Variable ipv4_network : string -> bool.

Definition validate_cidr (cidr_block : string) : bool :=
  if ipv4_network cidr_block then true else false.

End Validation.

(** A YAML document as [yaml.safe_load] builds it from null, booleans,
    integers, strings, sequences and mappings.  (The floats, timestamps
    and binaries of YAML are, like the integers, no containers of strings;
    they are left out.) *)
#[warnings="-register-all"] Inductive Yaml :=
| YNull
| YBool (b : bool)
| YInt (n : Z)
| YStr (s : string)
| YSeq (items : list Yaml)
| YMap (entries : list (Yaml * Yaml)).

(** What [load_config] raises: its own [FileNotFoundError] and
    [ValueError], the [YAMLError] of the parser, and the [TypeError] of
    [field not in config] on a document that is no container. *)
Inductive LoadError :=
| FileNotFoundError (msg : string)
| YAMLError (msg : string)
| TypeError
| ValueError (msg : string).

(** [x == field] for a YAML value [x] and a [str] [field]. *)
Definition is_str (field : string) (x : Yaml) : bool :=
  match x with YStr s => String.eqb field s | _ => false end.

(** [field in config]: a key of a [dict], an item of a [list], a substring
    of a [str]; on [None], a [bool] or an [int] Python raises [TypeError],
    which is the [None] here. *)
Definition field_in (field : string) (config : Yaml) : option bool :=
  match config with
  | YMap entries => Some (existsb (is_str field) (map fst entries))
  | YSeq items => Some (existsb (is_str field) items)
  | YStr s => Some (contains field s)
  | YNull | YBool _ | YInt _ => None
  end.

Definition required_fields : list string :=
  ["vpc_name"; "cidr"; "region"; "subnets"].

(** [for field in fields: if field not in config: raise ValueError(...)];
    the result is the exception raised, if any. *)
Fixpoint check_fields (fields : list string) (config : Yaml) : option LoadError :=
  match fields with
  | [] => None
  | field :: rest =>
      match field_in field config with
      | None => Some TypeError
      | Some false =>
          Some (ValueError ("Missing required field in config: " ++ field))
      | Some true => check_fields rest config
      end
  end.

Section Loading.

(** The text of every file that exists, by its path; and
    [yaml.safe_load]: the document of a text, or the message of the
    [YAMLError] it raises. *)
Variable config_files : dict string.
Variable safe_load : string -> string + Yaml.

Definition load_config (config_path : string) : LoadError + Yaml :=
  match dict_get config_path config_files with
  | None =>
      inl (FileNotFoundError ("Configuration file not found: " ++ config_path))
  | Some text =>
      match safe_load text with
      | inl msg => inl (YAMLError msg)
      | inr config =>
          match check_fields required_fields config with
          | Some e => inl e
          | None => inr config
          end
      end
  end.

End Loading.
End utils.

(** ** modules/vpc.py *)

Module VPCManager.
Section WithProvider.

Variable aws : Provider.

Definition create_vpc (cidr_block vpc_name : string)
    (enable_dns_hostnames enable_dns_support : bool) (tags : dict string)
    : M string :=
  except_client_error
    (vpc <- perform aws (CreateVpc cidr_block) ;;
     perform aws (WaitVpcAvailable vpc) ;;
     when enable_dns_hostnames
          (perform aws (ModifyVpcAttribute vpc EnableDnsHostnames)) ;;
     when enable_dns_support
          (perform aws (ModifyVpcAttribute vpc EnableDnsSupport)) ;;
     perform aws (CreateTags vpc ([("Name", vpc_name)] ++ tags)) ;;
     logger INFO ("VPC created with ID: " ++ vpc) ;;
     ret vpc)
    (fun msg => logger ERROR ("Failed to create VPC: " ++ msg) ;;
                raise (ClientError msg)).

Definition create_subnet (vpc_id : option string)
    (cidr_block availability_zone name subnet_type : string) : M string :=
  except_client_error
    (subnet <- perform aws (CreateSubnet vpc_id cidr_block availability_zone) ;;
     when (String.eqb subnet_type "public")
          (perform aws (ModifySubnetAttribute subnet)) ;;
     perform aws (CreateTags subnet [("Name", name); ("Type", subnet_type)]) ;;
     ret subnet)
    (fun msg => logger ERROR ("Failed to create subnet: " ++ msg) ;;
                raise (ClientError msg)).

Definition create_route_table (vpc_id : option string) (name : string)
    : M string :=
  except_client_error
    (route_table <- perform aws (CreateRouteTable vpc_id) ;;
     perform aws (CreateTags route_table [("Name", name)]) ;;
     ret route_table)
    (fun msg => logger ERROR ("Failed to create route table: " ++ msg) ;;
                raise (ClientError msg)).

(** The [GatewayId] and [NatGatewayId] entries of the [route_params] that
    [add_route] builds: [GatewayId] when [gateway_id] is truthy, else
    [NatGatewayId] when [nat_gateway_id] is truthy, else neither. *)
Definition route_params (gateway_id nat_gateway_id : option string)
    : option string * option string :=
  if truthy_opt gateway_id then (gateway_id, None)
  else if truthy_opt nat_gateway_id then (None, nat_gateway_id)
       else (None, None).

Definition add_route (route_table_id destination_cidr : string)
    (gateway_id nat_gateway_id : option string) : M unit :=
  except_client_error
    (let p := route_params gateway_id nat_gateway_id in
     perform aws (CreateRoute route_table_id destination_cidr (fst p) (snd p)))
    (fun msg => logger ERROR ("Failed to add route: " ++ msg) ;;
                raise (ClientError msg)).

Definition associate_route_table (subnet_id route_table_id : string) : M unit :=
  except_client_error
    (perform aws (AssociateRouteTable subnet_id route_table_id))
    (fun msg => logger ERROR ("Failed to associate route table: " ++ msg) ;;
                raise (ClientError msg)).

Definition delete_vpc (vpc_id : string) : M unit :=
  except_client_error
    (perform aws (DeleteVpc vpc_id) ;;
     logger INFO ("VPC " ++ vpc_id ++ " deleted"))
    (fun msg => logger ERROR ("Failed to delete VPC: " ++ msg) ;;
                raise (ClientError msg)).

Definition delete_subnet (subnet_id : string) : M unit :=
  except_client_error
    (perform aws (DeleteSubnet subnet_id) ;;
     logger INFO ("Subnet " ++ subnet_id ++ " deleted"))
    (fun msg => logger ERROR ("Failed to delete subnet: " ++ msg) ;;
                raise (ClientError msg)).

Definition delete_route_table (route_table_id : string) : M unit :=
  except_client_error
    (perform aws (DeleteRouteTable route_table_id) ;;
     logger INFO ("Route table " ++ route_table_id ++ " deleted"))
    (fun msg => logger ERROR ("Failed to delete route table: " ++ msg) ;;
                raise (ClientError msg)).

End WithProvider.
End VPCManager.

(** ** modules/gateways.py *)

Module GatewayManager.
Section WithProvider.

Variable aws : Provider.

Definition create_internet_gateway (vpc_id : option string) (name : string)
    : M string :=
  except_client_error
    (igw_id <- perform aws CreateInternetGateway ;;
     perform aws (CreateTags igw_id [("Name", name)]) ;;
     perform aws (AttachInternetGateway igw_id vpc_id) ;;
     logger INFO ("Internet Gateway created and attached: " ++ igw_id) ;;
     ret igw_id)
    (fun msg => logger ERROR ("Failed to create Internet Gateway: " ++ msg) ;;
                raise (ClientError msg)).

Definition create_nat_gateway (subnet_id name : string) : M (string * string) :=
  except_client_error
    (eip_response <- (perform aws AllocateAddress : M (string * string)) ;;
     let allocation_id := fst eip_response in
     let elastic_ip := snd eip_response in
     nat_gateway_id <- (perform aws (CreateNatGateway subnet_id allocation_id)
                        : M string) ;;
     perform aws (CreateTags nat_gateway_id [("Name", name)]) ;;
     logger INFO "Waiting for NAT Gateway to become available..." ;;
     perform aws (WaitNatGatewayAvailable nat_gateway_id) ;;
     logger INFO ("NAT Gateway created: " ++ nat_gateway_id ++ " with IP "
                  ++ elastic_ip) ;;
     ret (nat_gateway_id, elastic_ip))
    (fun msg => logger ERROR ("Failed to create NAT Gateway: " ++ msg) ;;
                raise (ClientError msg)).

Definition delete_internet_gateway (igw_id : string) (vpc_id : option string)
    : M unit :=
  except_client_error
    (perform aws (DetachInternetGateway igw_id vpc_id) ;;
     perform aws (DeleteInternetGateway igw_id) ;;
     logger INFO ("Internet Gateway " ++ igw_id ++ " deleted"))
    (fun msg => logger ERROR ("Failed to delete Internet Gateway: " ++ msg) ;;
                raise (ClientError msg)).

(** The [AllocationId] of the first address of the first NAT gateway of a
    [describe_nat_gateways] response, when there is one. *)
Definition allocation_of (response : list NatDescription) : option string :=
  match response with
  | [] => None
  | nat :: _ => match nat with
                | [] => None
                | address :: _ => address
                end
  end.

(** [time.sleep(10)] between the deletion and the release of the address
    has no effect on the world of this model. *)
Definition delete_nat_gateway (nat_gateway_id : string) : M unit :=
  except_client_error
    (response <- perform aws (DescribeNatGateways nat_gateway_id) ;;
     let allocation_id := allocation_of response in
     perform aws (DeleteNatGateway nat_gateway_id) ;;
     logger INFO ("NAT Gateway " ++ nat_gateway_id ++ " deletion initiated") ;;
     match allocation_id with
     | Some a =>
         when (truthy a)
           (except_client_error
              (perform aws (ReleaseAddress a) ;;
               logger INFO ("Elastic IP " ++ a ++ " released"))
              (fun msg => logger WARNING ("Could not release EIP: " ++ msg)))
     | None => ret tt
     end)
    (fun msg => logger ERROR ("Failed to delete NAT Gateway: " ++ msg) ;;
                raise (ClientError msg)).

End WithProvider.
End GatewayManager.

(** ** modules/security.py *)

Module SecurityManager.
Section WithProvider.

Variable aws : Provider.

Definition create_security_group (vpc_id : option string)
    (name description : string) : M string :=
  except_client_error
    (sg_id <- perform aws (CreateSecurityGroup name description vpc_id) ;;
     perform aws (CreateTags sg_id [("Name", name)]) ;;
     logger INFO ("Security group created: " ++ sg_id) ;;
     ret sg_id)
    (fun msg => logger ERROR ("Failed to create security group: " ++ msg) ;;
                raise (ClientError msg)).

Definition add_ingress_rule (security_group_id protocol : string)
    (from_port to_port : Z) (cidr : string) : M unit :=
  except_client_error
    (perform aws (AuthorizeSecurityGroupIngress security_group_id protocol
                    from_port to_port cidr) ;;
     logger INFO ("Added ingress rule: " ++ protocol ++ " "
                  ++ str_of_int from_port ++ "-" ++ str_of_int to_port
                  ++ " from " ++ cidr))
    (fun msg =>
       if contains "InvalidPermission.Duplicate" msg
       then logger WARNING "Rule already exists, skipping..."
       else (logger ERROR ("Failed to add ingress rule: " ++ msg) ;;
             raise (ClientError msg))).

Definition add_egress_rule (security_group_id protocol : string)
    (from_port to_port : Z) (cidr : string) : M unit :=
  except_client_error
    (perform aws (AuthorizeSecurityGroupEgress security_group_id protocol
                    from_port to_port cidr) ;;
     logger INFO ("Added egress rule: " ++ protocol ++ " "
                  ++ str_of_int from_port ++ "-" ++ str_of_int to_port
                  ++ " to " ++ cidr))
    (fun msg =>
       if contains "InvalidPermission.Duplicate" msg
       then logger WARNING "Rule already exists, skipping..."
       else (logger ERROR ("Failed to add egress rule: " ++ msg) ;;
             raise (ClientError msg))).

Definition delete_security_group (security_group_id : string) : M unit :=
  except_client_error
    (perform aws (DeleteSecurityGroup security_group_id) ;;
     logger INFO ("Security group " ++ security_group_id ++ " deleted"))
    (fun msg => logger ERROR ("Failed to delete security group: " ++ msg) ;;
                raise (ClientError msg)).

End WithProvider.
End SecurityManager.

(** ** builder.py *)

(** [for x in xs:] with a body that may [return]: the body yields [Some r]
    to return [r] from the enclosing function, [None] to go on. *)
Fixpoint for_each_return {A R} (body : A -> M (option R)) (xs : list A)
    : M (option R) :=
  match xs with
  | [] => ret None
  | x :: rest =>
      r <- body x ;;
      match r with
      | Some v => ret (Some v)
      | None => for_each_return body rest
      end
  end.

(** [json.dump(self.state, f)] into the file just opened. *)
Definition json_dump (path : string) : M unit :=
  fun w => (Ok tt, mkWorld (st w) (trace w) (log w)
                           (dict_set path (st w) (files w))).

(** [json.load(open(path))] on the state files, which hold the states that
    [json_dump] wrote; a missing file raises. *)
Definition json_load (path : string) : M DeployState :=
  fun w => match dict_get path (files w) with
           | Some s => (Ok s, w)
           | None =>
               (Raise (OSError ("[Errno 2] No such file or directory: '" ++ path ++ "'")),
                w)
           end.

Module AWSNetworkBuilder.
Section Builder.

Variable ipv4_network : string -> bool.
Variable aws : Provider.
Variable config : Config.
Variable dry_run : bool.

Definition _create_vpc : M unit :=
  logger INFO ("Creating VPC: " ++ vpc_name config) ;;
  vpc_id <- VPCManager.create_vpc aws (cidr config) (vpc_name config)
              (get_default (enable_dns_hostnames config) true)
              (get_default (enable_dns_support config) true)
              (get_default (tags config) []) ;;
  modify_state (set_vpc_id vpc_id) ;;
  logger INFO ("✅ VPC created: " ++ vpc_id).

Definition _create_internet_gateway : M unit :=
  logger INFO "Creating Internet Gateway..." ;;
  s <- get_state ;;
  igw_id <- GatewayManager.create_internet_gateway aws (vpc_id s)
              (vpc_name config ++ "-igw") ;;
  modify_state (set_internet_gateway igw_id) ;;
  logger INFO ("✅ Internet Gateway created: " ++ igw_id).

(** [d[k]] on a dict of the state: a missing key raises [KeyError]. *)
Definition subscript {V} (d : option V) (k : string) : M V :=
  match d with
  | Some v => ret v
  | None => raise (KeyError k)
  end.

Definition _create_route_tables : M unit :=
  logger INFO "Creating route tables..." ;;
  s <- get_state ;;
  public_rt <- VPCManager.create_route_table aws (vpc_id s)
                 (vpc_name config ++ "-public-rt") ;;
  s <- get_state ;;
  igw <- subscript (internet_gateway (gateways s)) "internet_gateway" ;;
  VPCManager.add_route aws public_rt "0.0.0.0/0" (Some igw) None ;;
  modify_state (set_route_table "public" public_rt) ;;
  s <- get_state ;;
  private_rt <- VPCManager.create_route_table aws (vpc_id s)
                  (vpc_name config ++ "-private-rt") ;;
  modify_state (set_route_table "private" private_rt) ;;
  logger INFO "✅ Route tables created".

(** The body of the loop of [_create_subnets]. *)
Definition _create_subnet (subnet_config : SubnetSpec) : M unit :=
  s <- get_state ;;
  subnet_id <- VPCManager.create_subnet aws (vpc_id s)
                 (sub_cidr subnet_config) (sub_az subnet_config)
                 (sub_name subnet_config) (sub_type subnet_config) ;;
  s <- get_state ;;
  let rt_id := dict_get (sub_type subnet_config) (route_tables s) in
  match rt_id with
  | Some rt => when (truthy rt)
                    (VPCManager.associate_route_table aws subnet_id rt)
  | None => ret tt
  end ;;
  modify_state (set_subnet (sub_name subnet_config)
                  (mkSubnetData subnet_id (sub_cidr subnet_config)
                     (sub_az subnet_config) (sub_type subnet_config))) ;;
  logger INFO ("✅ Subnet created: " ++ sub_name subnet_config
               ++ " (" ++ subnet_id ++ ")").

Definition _create_subnets : M unit :=
  logger INFO "Creating subnets..." ;;
  for_each _create_subnet (subnets config).

(** The search loop of [_create_nat_gateway]: the [id] of the first item
    of [self.state['subnets'].items()] whose type is [public]. *)
Fixpoint find_public_subnet (items : dict SubnetData) : option string :=
  match items with
  | [] => None
  | (_, subnet_data) :: rest =>
      if String.eqb (sd_type subnet_data) "public"
      then Some (sd_id subnet_data)
      else find_public_subnet rest
  end.

Definition _create_nat_gateway : M unit :=
  let nat_config := get_default (nat_gateway config) (mkNatConfig None) in
  if negb (get_default (nat_enabled nat_config) false)
  then logger INFO "⏭️ NAT Gateway disabled in config"
  else
    logger INFO "Creating NAT Gateway..." ;;
    s <- get_state ;;
    let public_subnet := find_public_subnet (state_subnets s) in
    match public_subnet with
    | Some subnet =>
        if truthy subnet
        then
          created <- GatewayManager.create_nat_gateway aws subnet
                       (vpc_name config ++ "-nat") ;;
          let nat_id := fst created in
          let eip := snd created in
          s <- get_state ;;
          private_rt <- subscript (dict_get "private" (route_tables s)) "private" ;;
          VPCManager.add_route aws private_rt "0.0.0.0/0" None (Some nat_id) ;;
          modify_state (set_nat_gateway (mkNatData nat_id eip)) ;;
          logger INFO ("✅ NAT Gateway created: " ++ nat_id)
        else logger WARNING "⚠️ No public subnet found for NAT Gateway"
    | None => logger WARNING "⚠️ No public subnet found for NAT Gateway"
    end.

(** The body of the outer loop of [_apply_security_groups]. *)
Definition _apply_security_group (item : string * list IngressRule) : M unit :=
  let sg_name := fst item in
  let rules := snd item in
  s <- get_state ;;
  sg_id <- SecurityManager.create_security_group aws (vpc_id s) sg_name
             ("Security group for " ++ sg_name) ;;
  for_each (fun rule =>
              SecurityManager.add_ingress_rule aws sg_id (rule_protocol rule)
                (rule_from_port rule) (rule_to_port rule) (rule_cidr rule))
           rules ;;
  modify_state (set_security_group sg_name sg_id) ;;
  logger INFO ("✅ Security group created: " ++ sg_name ++ " (" ++ sg_id ++ ")").

Definition _apply_security_groups : M unit :=
  let sg_config := get_default (security_groups config) [] in
  match sg_config with
  | [] => logger INFO "⏭️ No security groups defined in config"
  | _ =>
      logger INFO "Creating security groups..." ;;
      for_each _apply_security_group sg_config
  end.

Definition state_file_of (name : string) : string :=
  "output/" ++ name ++ "-state.json".

Definition _export_state : M unit :=
  perform aws (MakeDir "output") ;;
  let state_file := state_file_of (vpc_name config) in
  perform aws (OpenForWriting state_file) ;;
  json_dump state_file ;;
  logger INFO ("💾 State exported to: " ++ state_file).

Definition _dry_run_validation : M bool :=
  logger INFO "Validating configuration..." ;;
  if negb (utils.validate_cidr ipv4_network (cidr config))
  then
    logger ERROR ("❌ Invalid VPC CIDR: " ++ cidr config) ;;
    ret false
  else
    returned <- for_each_return
      (fun subnet =>
         if negb (utils.validate_cidr ipv4_network (sub_cidr subnet))
         then
           logger ERROR ("❌ Invalid subnet CIDR: " ++ sub_cidr subnet) ;;
           ret (Some false)
         else ret None)
      (subnets config) ;;
    match returned with
    | Some result => ret result
    | None =>
        logger INFO "✅ Configuration is valid" ;;
        ret true
    end.


Definition deploy : M bool :=
  logger INFO "🚀 Starting AWS Secure Network Builder deployment..." ;;
  if dry_run
  then
    logger INFO "🔍 Running in DRY-RUN mode - no resources will be created" ;;
    _dry_run_validation
  else
    except_exception
      (_create_vpc ;;
       _create_internet_gateway ;;
       _create_route_tables ;;
       _create_subnets ;;
       _create_nat_gateway ;;
       _apply_security_groups ;;
       _export_state ;;
       logger INFO "✅ Deployment completed successfully!" ;;
       ret true)
      (fun e =>
         logger ERROR ("❌ Deployment failed: " ++ exn_str e) ;;
         logger ERROR "Full traceback:" ;;
         ret false).

Definition _delete_nat_gateways (state : DeployState) : M unit :=
  match nat_gateway_data (gateways state) with
  | Some nat =>
      logger INFO ("Deleting NAT Gateway: " ++ nat_id nat) ;;
      GatewayManager.delete_nat_gateway aws (nat_id nat)
  | None => ret tt
  end.

Definition _delete_internet_gateways (state : DeployState) : M unit :=
  match internet_gateway (gateways state) with
  | Some igw_id =>
      logger INFO ("Deleting Internet Gateway: " ++ igw_id) ;;
      GatewayManager.delete_internet_gateway aws igw_id (vpc_id state)
  | None => ret tt
  end.

Definition _delete_subnets (state : DeployState) : M unit :=
  for_each (fun item =>
              logger INFO ("Deleting subnet: " ++ fst item) ;;
              VPCManager.delete_subnet aws (sd_id (snd item)))
           (state_subnets state).

Definition _delete_route_tables (state : DeployState) : M unit :=
  for_each (fun item =>
              logger INFO ("Deleting route table: " ++ fst item) ;;
              VPCManager.delete_route_table aws (snd item))
           (route_tables state).

Definition _delete_security_groups (state : DeployState) : M unit :=
  for_each (fun item =>
              logger INFO ("Deleting security group: " ++ fst item) ;;
              SecurityManager.delete_security_group aws (snd item))
           (state_security_groups state).

Definition _delete_vpc (state : DeployState) : M unit :=
  match vpc_id state with
  | Some vpc_id =>
      when (truthy vpc_id)
        (logger INFO ("Deleting VPC: " ++ vpc_id) ;;
         VPCManager.delete_vpc aws vpc_id)
  | None => ret tt
  end.

(** The six steps of the [try] block of [teardown], in their order. *)
Definition teardown_steps (state : DeployState) : list (M unit) :=
  [ _delete_nat_gateways state; _delete_internet_gateways state;
    _delete_subnets state; _delete_route_tables state;
    _delete_security_groups state; _delete_vpc state ].

Definition teardown (state_file : string) : M bool :=
  logger INFO "🗑️ Starting infrastructure teardown..." ;;
  state <- json_load state_file ;;
  except_exception
    (_delete_nat_gateways state ;;
     _delete_internet_gateways state ;;
     _delete_subnets state ;;
     _delete_route_tables state ;;
     _delete_security_groups state ;;
     _delete_vpc state ;;
     logger INFO "✅ Teardown completed successfully" ;;
     ret true)
    (fun e =>
       logger ERROR ("❌ Teardown failed: " ++ exn_str e) ;;
       ret false).

End Builder.
End AWSNetworkBuilder.

(** * Specification: the events of a run

    What follows describes, as plain lists of events, what the operations
    above are expected to do; the theorems compare the traces of the code
    with these lists. *)

Definition ok (c : Call) : Event := (c, Returned VUnit).
Definition got (c : Call) (i : string) : Event := (c, Returned (VId i)).

Definition calls (evs : list Event) : list Call := map fst evs.

(** A run that followed [plan] up to some call, which failed with [e]:
    nothing of [plan] after that call was done. *)
Definition interrupted (e : Exn) (new plan : list Event) : Prop :=
  exists done c o rest,
    plan = done ++ (c, o) :: rest /\ new = done ++ [(c, Failed e)].

Definition vpc_events (cidr_block name : string) (hostnames support : bool)
    (tags : dict string) (vpc : string) : list Event :=
  [got (CreateVpc cidr_block) vpc; ok (WaitVpcAvailable vpc)]
  ++ (if hostnames then [ok (ModifyVpcAttribute vpc EnableDnsHostnames)] else [])
  ++ (if support then [ok (ModifyVpcAttribute vpc EnableDnsSupport)] else [])
  ++ [ok (CreateTags vpc (("Name", name) :: tags))].

Definition igw_events (vpc : option string) (name igw : string) : list Event :=
  [got CreateInternetGateway igw;
   ok (CreateTags igw [("Name", name)]);
   ok (AttachInternetGateway igw vpc)].

Definition route_table_events (vpc : option string) (name rt : string)
    : list Event :=
  [got (CreateRouteTable vpc) rt; ok (CreateTags rt [("Name", name)])].

(** The default route of a route table to an internet gateway. *)
Definition gateway_route (rt igw : string) : Event :=
  ok (CreateRoute rt "0.0.0.0/0" (if truthy igw then Some igw else None) None).

(** The public route table with its default route to the internet gateway,
    then the private route table, which gets no route here. *)
Definition route_tables_events (vpc : option string)
    (name igw public_rt private_rt : string) : list Event :=
  route_table_events vpc (name ++ "-public-rt") public_rt
  ++ [gateway_route public_rt igw]
  ++ route_table_events vpc (name ++ "-private-rt") private_rt.

(** The default route of a route table to a NAT gateway. *)
Definition nat_route (rt nat : string) : Event :=
  ok (CreateRoute rt "0.0.0.0/0" None (if truthy nat then Some nat else None)).

Definition association_events (rts : dict string) (tier subnet : string)
    : list Event :=
  match dict_get tier rts with
  | Some rt => if truthy rt then [ok (AssociateRouteTable subnet rt)] else []
  | None => []
  end.

Definition subnet_creation_events (vpc : option string)
    (cidr_block az name tier subnet : string) : list Event :=
  [got (CreateSubnet vpc cidr_block az) subnet]
  ++ (if String.eqb tier "public" then [ok (ModifySubnetAttribute subnet)] else [])
  ++ [ok (CreateTags subnet [("Name", name); ("Type", tier)])].

Definition subnet_events (vpc : option string) (rts : dict string)
    (spec : SubnetSpec) (subnet : string) : list Event :=
  subnet_creation_events vpc (sub_cidr spec) (sub_az spec) (sub_name spec)
                         (sub_type spec) subnet
  ++ association_events rts (sub_type spec) subnet.

Definition subnets_events (vpc : option string) (rts : dict string)
    (created : list (SubnetSpec * string)) : list Event :=
  flat_map (fun p => subnet_events vpc rts (fst p) (snd p)) created.

Definition subnet_data (p : SubnetSpec * string) : SubnetData :=
  mkSubnetData (snd p) (sub_cidr (fst p)) (sub_az (fst p)) (sub_type (fst p)).

(** The [subnets] mapping after the subnets of [created] have been
    recorded, in order, into the mapping [d]. *)
Definition subnets_after (created : list (SubnetSpec * string))
    (d : dict SubnetData) : dict SubnetData :=
  fold_left (fun d p => dict_set (sub_name (fst p)) (subnet_data p) d) created d.

Definition record_subnets (created : list (SubnetSpec * string))
    (s : DeployState) : DeployState :=
  mkState (vpc_id s) (subnets_after created (state_subnets s))
          (state_security_groups s) (route_tables s) (gateways s) (timestamp s).

Definition nat_creation_events (subnet name allocation eip nat : string)
    : list Event :=
  [(AllocateAddress, Returned (VAddress allocation eip));
   got (CreateNatGateway subnet allocation) nat;
   ok (CreateTags nat [("Name", name)]);
   ok (WaitNatGatewayAvailable nat)].

Definition nat_events (subnet name private_rt allocation eip nat : string)
    : list Event :=
  nat_creation_events subnet name allocation eip nat
  ++ [nat_route private_rt nat].

Definition ingress_call (sg : string) (rule : IngressRule) : Call :=
  AuthorizeSecurityGroupIngress sg (rule_protocol rule) (rule_from_port rule)
    (rule_to_port rule) (rule_cidr rule).

Definition group_creation_events (vpc : option string)
    (name description sg : string) : list Event :=
  [got (CreateSecurityGroup name description vpc) sg;
   ok (CreateTags sg [("Name", name)])].

Definition rules_events (sg : string) (applied : list (IngressRule * Outcome))
    : list Event :=
  map (fun ro => (ingress_call sg (fst ro), snd ro)) applied.

(** The events of one security group: [item] is its entry in the
    configuration, [created] its identifier and the outcomes of the
    authorizations of its rules. *)
Definition group_events (vpc : option string)
    (item : string * list IngressRule) (created : string * list Outcome)
    : list Event :=
  group_creation_events vpc (fst item) ("Security group for " ++ fst item)
                        (fst created)
  ++ rules_events (fst created) (combine (snd item) (snd created)).

Definition groups_events (vpc : option string)
    (created : list ((string * list IngressRule) * (string * list Outcome)))
    : list Event :=
  flat_map (fun p => group_events vpc (fst p) (snd p)) created.

Definition groups_after
    (created : list ((string * list IngressRule) * (string * list Outcome)))
    (d : dict string) : dict string :=
  fold_left (fun d p => dict_set (fst (fst p)) (fst (snd p)) d) created d.

Definition record_groups
    (created : list ((string * list IngressRule) * (string * list Outcome)))
    (s : DeployState) : DeployState :=
  mkState (vpc_id s) (state_subnets s)
          (groups_after created (state_security_groups s))
          (route_tables s) (gateways s) (timestamp s).

Definition export_events (name : string) : list Event :=
  [ok (MakeDir "output");
   ok (OpenForWriting (AWSNetworkBuilder.state_file_of name))].

(** The outcome of an ingress authorization that lets the run go on: it
    returned, or it failed with a [ClientError] reporting a duplicate. *)
Definition tolerated (o : Outcome) : bool :=
  match o with
  | Returned _ => true
  | Failed (ClientError msg) => contains "InvalidPermission.Duplicate" msg
  | Failed _ => false
  end.

(** The identifiers the provider hands out during one deployment. *)
Record Ids := mkIds {
  id_vpc        : string;
  id_igw        : string;
  id_public_rt  : string;
  id_private_rt : string;
  id_subnets    : list string;
  id_allocation : string;
  id_eip        : string;
  id_nat        : string;
  id_groups     : list (string * list Outcome)
}.

Definition nat_is_enabled (config : Config) : bool :=
  get_default (nat_enabled (get_default (nat_gateway config) (mkNatConfig None)))
              false.

(** The public subnet that receives the NAT gateway when the NAT step runs
    on the [subnets] mapping [d]: NAT is enabled and the first public subnet
    of [d] has an identifier (a truthy one). *)
Definition nat_subnet_of (config : Config) (d : dict SubnetData) : option string :=
  if nat_is_enabled config
  then match AWSNetworkBuilder.find_public_subnet d with
       | Some subnet => if truthy subnet then Some subnet else None
       | None => None
       end
  else None.

(** One tolerated outcome for each ingress rule of a security group. *)
Definition rules_tolerated (item : string * list IngressRule)
    (created : string * list Outcome) : Prop :=
  Forall2 (fun (_ : IngressRule) o => tolerated o = true) (snd item) (snd created).

(** The identifiers fit the configuration: one per subnet, one per
    security group, and one tolerated outcome per ingress rule. *)
Definition fits (config : Config) (ids : Ids) : Prop :=
  List.length (id_subnets ids) = List.length (subnets config)
  /\ Forall2 rules_tolerated (get_default (security_groups config) [])
             (id_groups ids).

Section DeploymentPlan.

Variable config : Config.
Variable ids : Ids.

Definition planned_route_tables : dict string :=
  [("public", id_public_rt ids); ("private", id_private_rt ids)].

Definition created_subnets : list (SubnetSpec * string) :=
  combine (subnets config) (id_subnets ids).

Definition created_groups
    : list ((string * list IngressRule) * (string * list Outcome)) :=
  combine (get_default (security_groups config) []) (id_groups ids).

(** The [subnets] mapping of the state once all subnets are created. *)
Definition planned_subnets : dict SubnetData :=
  subnets_after created_subnets [].

(** The public subnet that receives the NAT gateway, if the NAT step runs. *)
Definition nat_subnet : option string := nat_subnet_of config planned_subnets.

Definition nat_step_events : list Event :=
  match nat_subnet with
  | Some subnet =>
      nat_events subnet (vpc_name config ++ "-nat") (id_private_rt ids)
                 (id_allocation ids) (id_eip ids) (id_nat ids)
  | None => []
  end.

Definition planned_gateways : Gateways :=
  mkGateways (Some (id_igw ids))
    (match nat_subnet with
     | Some _ => Some (mkNatData (id_nat ids) (id_eip ids))
     | None => None
     end).

(** The state a complete deployment ends with, and persists. *)
Definition deployed_state (ts : string) : DeployState :=
  mkState (Some (id_vpc ids)) planned_subnets (groups_after created_groups [])
          planned_route_tables planned_gateways ts.

(** The events of a complete deployment, step after step. *)
Definition deploy_events : list Event :=
  (* 1. network *)
  vpc_events (cidr config) (vpc_name config)
             (get_default (enable_dns_hostnames config) true)
             (get_default (enable_dns_support config) true)
             (get_default (tags config) []) (id_vpc ids)
  (* 2. internet gateway, created and attached *)
  ++ igw_events (Some (id_vpc ids)) (vpc_name config ++ "-igw") (id_igw ids)
  (* 3. public route table and its default route, then private route table *)
  ++ route_tables_events (Some (id_vpc ids)) (vpc_name config) (id_igw ids)
                         (id_public_rt ids) (id_private_rt ids)
  (* 4. subnets, in configuration order *)
  ++ subnets_events (Some (id_vpc ids)) planned_route_tables created_subnets
  (* 5. NAT gateway and the default route of the private route table *)
  ++ nat_step_events
  (* 6. security groups and their ingress rules *)
  ++ groups_events (Some (id_vpc ids)) created_groups
  (* 7. state file *)
  ++ export_events (vpc_name config).

End DeploymentPlan.

(** ** What the state says about the trace *)

(** [evs] occurs in [tr] as one uninterrupted run of events. *)
Definition segment (evs tr : list Event) : Prop :=
  exists before after, tr = before ++ evs ++ after.

(** Every identifier of the state comes from a creation that ran to its
    end: the events of the complete manager call that returned it are in
    the trace.  Every subnet of the state is, but for its identifier, a
    copy of a subnet of the configuration. *)
Definition tracked (config : Config) (w : World) : Prop :=
  (forall vpc, vpc_id (st w) = Some vpc ->
     segment (vpc_events (cidr config) (vpc_name config)
                (get_default (enable_dns_hostnames config) true)
                (get_default (enable_dns_support config) true)
                (get_default (tags config) []) vpc) (trace w))
  /\ (forall igw, internet_gateway (gateways (st w)) = Some igw ->
        exists vpc, segment (igw_events vpc (vpc_name config ++ "-igw") igw) (trace w))
  /\ (forall tier rt, In (tier, rt) (route_tables (st w)) ->
        exists vpc, segment (route_table_events vpc
                               (vpc_name config ++ "-" ++ tier ++ "-rt") rt)
                            (trace w))
  /\ (forall name data, In (name, data) (state_subnets (st w)) ->
        exists vpc spec,
          In spec (subnets config)
          /\ name = sub_name spec
          /\ data = subnet_data (spec, sd_id data)
          /\ segment (subnet_creation_events vpc (sub_cidr spec) (sub_az spec)
                        (sub_name spec) (sub_type spec) (sd_id data)) (trace w))
  /\ (forall nat, nat_gateway_data (gateways (st w)) = Some nat ->
        exists subnet allocation,
          segment (nat_creation_events subnet (vpc_name config ++ "-nat") allocation
                     (elastic_ip nat) (nat_id nat)) (trace w))
  /\ (forall name sg, In (name, sg) (state_security_groups (st w)) ->
        exists vpc, segment (group_creation_events vpc name
                               ("Security group for " ++ name) sg) (trace w)).

(** The six creation calls whose identifiers the state keeps. *)
Definition is_creation (c : Call) : bool :=
  match c with
  | CreateVpc _ | CreateSubnet _ _ _ | CreateRouteTable _
  | CreateInternetGateway | CreateNatGateway _ _
  | CreateSecurityGroup _ _ _ => true
  | _ => false
  end.

(** The identifier [i], returned by the creation call [c], is in the state
    at the place of its kind of resource. *)
Definition recorded (s : DeployState) (c : Call) (i : string) : Prop :=
  match c with
  | CreateVpc _ => vpc_id s = Some i
  | CreateInternetGateway => internet_gateway (gateways s) = Some i
  | CreateRouteTable _ => exists tier, In (tier, i) (route_tables s)
  | CreateSubnet _ cidr_block az =>
      exists name data, In (name, data) (state_subnets s)
                        /\ sd_id data = i /\ sd_cidr data = cidr_block
                        /\ sd_az data = az
  | CreateNatGateway _ _ =>
      exists nat, nat_gateway_data (gateways s) = Some nat /\ nat_id nat = i
  | CreateSecurityGroup name _ _ => In (name, i) (state_security_groups s)
  | _ => False
  end.

(** ** The events of a teardown *)

(** The outcome of the release of the address that lets the deletion of the
    NAT gateway go on: it returned, or it failed with a [ClientError]. *)
Definition release_tolerated (o : Outcome) : bool :=
  match o with
  | Returned _ => true
  | Failed (ClientError _) => true
  | Failed _ => false
  end.

(** The deletion of one NAT gateway: [response] is what the provider tells
    about it, [release] the outcome of the release of its address. *)
Definition nat_gateway_deletion_events (nat : string)
    (response : list NatDescription) (release : Outcome) : list Event :=
  [(DescribeNatGateways nat, Returned (VNatGateways response));
   ok (DeleteNatGateway nat)]
  ++ match GatewayManager.allocation_of response with
     | Some allocation =>
         if truthy allocation then [(ReleaseAddress allocation, release)] else []
     | None => []
     end.

Definition igw_detach_delete_events (igw : string) (vpc : option string)
    : list Event :=
  [ok (DetachInternetGateway igw vpc); ok (DeleteInternetGateway igw)].

Section TeardownPlan.

Variable state : DeployState.

Definition nat_deletion_events (response : list NatDescription)
    (release : Outcome) : list Event :=
  match nat_gateway_data (gateways state) with
  | Some nat => nat_gateway_deletion_events (nat_id nat) response release
  | None => []
  end.

Definition igw_deletion_events : list Event :=
  match internet_gateway (gateways state) with
  | Some igw => igw_detach_delete_events igw (vpc_id state)
  | None => []
  end.

Definition subnet_deletion_events : list Event :=
  map (fun item => ok (DeleteSubnet (sd_id (snd item)))) (state_subnets state).

Definition route_table_deletion_events : list Event :=
  map (fun item => ok (DeleteRouteTable (snd item))) (route_tables state).

Definition group_deletion_events : list Event :=
  map (fun item => ok (DeleteSecurityGroup (snd item)))
      (state_security_groups state).

Definition vpc_deletion_events : list Event :=
  match vpc_id state with
  | Some vpc => if truthy vpc then [ok (DeleteVpc vpc)] else []
  | None => []
  end.

(** The events of a complete teardown, category after category. *)
Definition teardown_events (response : list NatDescription) (release : Outcome)
    : list Event :=
  nat_deletion_events response release
  ++ igw_deletion_events
  ++ subnet_deletion_events
  ++ route_table_deletion_events
  ++ group_deletion_events
  ++ vpc_deletion_events.

End TeardownPlan.

(** The categories of resources, in the order of their deletion. *)
Inductive Category :=
| NatGatewayCategory
| InternetGatewayCategory
| SubnetCategory
| RouteTableCategory
| SecurityGroupCategory
| NetworkCategory.

Definition deletion_order : list Category :=
  [NatGatewayCategory; InternetGatewayCategory; SubnetCategory;
   RouteTableCategory; SecurityGroupCategory; NetworkCategory].

(** The category a call of a teardown works on. *)
Definition category_of (c : Call) : option Category :=
  match c with
  | DescribeNatGateways _ | DeleteNatGateway _ | ReleaseAddress _ =>
      Some NatGatewayCategory
  | DetachInternetGateway _ _ | DeleteInternetGateway _ =>
      Some InternetGatewayCategory
  | DeleteSubnet _ => Some SubnetCategory
  | DeleteRouteTable _ => Some RouteTableCategory
  | DeleteSecurityGroup _ => Some SecurityGroupCategory
  | DeleteVpc _ => Some NetworkCategory
  | _ => None
  end.

(** The place of a category in [deletion_order]. *)
Definition rank (k : Category) : nat :=
  match k with
  | NatGatewayCategory => 0
  | InternetGatewayCategory => 1
  | SubnetCategory => 2
  | RouteTableCategory => 3
  | SecurityGroupCategory => 4
  | NetworkCategory => 5
  end.

(** Every call of [l] works on a category, and the categories come in the
    order of [deletion_order]: never an earlier one after a later one. *)
Fixpoint in_deletion_order_from (least : nat) (l : list Call) : bool :=
  match l with
  | [] => true
  | c :: rest =>
      match category_of c with
      | Some k => Nat.leb least (rank k) && in_deletion_order_from (rank k) rest
      | None => false
      end
  end.

Definition in_deletion_order (l : list Call) : bool :=
  in_deletion_order_from 0 l.

(** * Specification: predicates on runs

    The notions the theorems are stated with. *)

(** [m] issues the events of [plan i] for some [i] and returns [result i],
    or is interrupted by the failure of one of these calls; it leaves the
    state and the files alone. *)
Definition performs {A I} (m : M A) (plan : I -> list Event) (result : I -> A)
    : Prop :=
  forall w,
    match m w with
    | (Ok a, w') =>
        st w' = st w /\ files w' = files w /\
        exists i, a = result i /\ trace w' = trace w ++ plan i
    | (Raise e, w') =>
        st w' = st w /\ files w' = files w /\
        exists new i, trace w' = trace w ++ new /\ interrupted e new (plan i)
    end.

(** The body of a loop, run on [a] in a state that satisfies [pre], issues
    the events of [plan a i] for some [i] that is [good] for [a] and updates
    the state with [update a i], or is interrupted in these events. *)
Definition body_runs {A I} (body : A -> M unit) (plan : A -> I -> list Event)
    (update : A -> I -> DeployState -> DeployState) (pre : DeployState -> Prop)
    (good : A -> I -> Prop) (a : A) : Prop :=
  forall w, pre (st w) ->
    match body a w with
    | (Ok _, w') =>
        files w' = files w /\
        exists i, good a i /\ trace w' = trace w ++ plan a i
                  /\ st w' = update a i (st w)
    | (Raise e, w') =>
        files w' = files w /\
        exists new i, good a i /\ trace w' = trace w ++ new
                      /\ interrupted e new (plan a i)
    end.



(** The world of a new builder: the state of [__init__], and whatever
    trace, log and files there are. *)
Definition new_builder (ts : string) (tr : list Event) (lg : list (Level * string))
    (fs : dict DeployState) : World :=
  mkWorld (init_state ts) tr lg fs.

(** All calls of [l] work on the category of rank [r]. *)
Definition all_of_rank (r : nat) (l : list Call) : Prop :=
  Forall (fun c => exists k, category_of c = Some k /\ rank k = r) l.

(** Some subnet of the [subnets] mapping has tier [public]. *)
Definition has_public_subnet (items : dict SubnetData) : Prop :=
  exists name data, In (name, data) items /\ sd_type data = "public".

(** [subnet] is the identifier of the first entry of tier [public], in the
    insertion order of the mapping. *)
Definition first_public_subnet (items : dict SubnetData) (subnet : string) : Prop :=
  exists before name data after,
    items = before ++ (name, data) :: after
    /\ sd_type data = "public"
    /\ sd_id data = subnet
    /\ forall n d, In (n, d) before -> sd_type d <> "public".

(** The error is a [ClientError] that reports a duplicate rule. *)
Definition duplicate_rule_error (e : Exn) : bool :=
  match e with
  | ClientError msg => contains "InvalidPermission.Duplicate" msg
  | _ => false
  end.

Definition count_warnings (l : list (Level * string)) : nat :=
  List.length (filter (fun entry => match fst entry with WARNING => true | _ => false end) l).

(** The CIDR of a subnet of the configuration is a valid IPv4 network. *)
Definition cidr_ok (ipv4_network : string -> bool) (s : SubnetSpec) : Prop :=
  ipv4_network (sub_cidr s) = true.

(** The body of the loop of [_dry_run_validation]. *)
Definition check_subnet (ipv4_network : string -> bool) (subnet : SubnetSpec)
    : M (option bool) :=
  if negb (utils.validate_cidr ipv4_network (sub_cidr subnet))
  then
    logger ERROR ("❌ Invalid subnet CIDR: " ++ sub_cidr subnet) ;;
    ret (Some false)
  else ret None.

(** The log of a dry run when it starts to validate. *)
Definition dry_run_log (w : World) : list (Level * string) :=
  log w
  ++ [(INFO, "🚀 Starting AWS Secure Network Builder deployment...");
      (INFO, "🔍 Running in DRY-RUN mode - no resources will be created");
      (INFO, "Validating configuration...")].

(** When [step] returns from [w], every identifier returned by a creation
    call among its events is in the state it leaves. *)
Definition records_its_creations (step : M unit) (w : World) : Prop :=
  fst (step w) = Ok tt ->
  forall new c i,
    trace (snd (step w)) = trace w ++ new ->
    is_creation c = true ->
    In (got c i) new ->
    recorded (st (snd (step w))) c i.

(** The entry of a subnet in the [subnets] mapping of the state. *)
Definition subnet_item (p : SubnetSpec * string) : string * SubnetData :=
  (sub_name (fst p), subnet_data p).

(** The entry of a security group in the mapping of the state. *)
Definition group_item (p : (string * list IngressRule) * (string * list Outcome))
    : string * string :=
  (fst (fst p), fst (snd p)).

(** ** What a step keeps of the state *)







(** ** Fake providers and sample inputs *)

(** A provider on which every call succeeds. *)
Definition obliging : Provider :=
  fun history c =>
    match c return Exn + ret_type c with
    | CreateVpc _ => inr "vpc-1"
    | CreateSubnet _ cidr_block _ => inr ("subnet-" ++ cidr_block)%string
    | CreateRouteTable _ =>
        inr ("rtb-" ++ NilZero.string_of_uint (Nat.to_uint (List.length history)))%string
    | CreateInternetGateway => inr "igw-1"
    | AllocateAddress => inr ("eipalloc-1", "203.0.113.10")
    | CreateNatGateway _ _ => inr "nat-1"
    | CreateSecurityGroup name _ _ => inr ("sg-" ++ name)%string
    | DescribeNatGateways _ => inr [[Some "eipalloc-1"]]
    | _ => inr tt
    end.

(** A provider on which the calls chosen by [bad] fail with [e]. *)
Definition failing_on (bad : Call -> bool) (e : Exn) : Provider :=
  fun history c => if bad c then inl e else obliging history c.

Definition is_association (c : Call) : bool :=
  match c with AssociateRouteTable _ _ => true | _ => false end.

Definition is_subnet_creation (c : Call) : bool :=
  match c with CreateSubnet _ _ _ => true | _ => false end.

Definition is_subnet_deletion (c : Call) : bool :=
  match c with DeleteSubnet _ => true | _ => false end.

Definition is_ingress (c : Call) : bool :=
  match c with AuthorizeSecurityGroupIngress _ _ _ _ _ => true | _ => false end.

(** A provider that reports a duplicate for an ingress rule once an ingress
    rule has been authorized. *)
Definition duplicate_reporting : Provider :=
  fun history c =>
    if is_ingress c && existsb (fun ev => is_ingress (fst ev)) history
    then inl (ClientError
                "An error occurred (InvalidPermission.Duplicate) when calling the AuthorizeSecurityGroupIngress operation: the specified rule already exists")
    else obliging history c.

(** A validity test of CIDR blocks for the samples: the first character is
    a digit. *)
Definition starts_with_digit (s : string) : bool :=
  match s with
  | String c _ => (48 <=? nat_of_ascii c)%nat && (nat_of_ascii c <=? 57)%nat
  | EmptyString => false
  end.

(** The configuration of the end-to-end scenario. *)
Definition sample_config : Config :=
  mkConfig "test" "10.0.0.0/16" "us-east-1"
    [mkSubnetSpec "pub-a" "10.0.1.0/24" "us-east-1a" "public";
     mkSubnetSpec "priv-a" "10.0.2.0/24" "us-east-1a" "private"]
    None None None (Some (mkNatConfig (Some true)))
    (Some [("web", [mkIngressRule "tcp" 443 443 "0.0.0.0/0"])]).

(** A configuration with a subnet of a third tier. *)
Definition dmz_config : Config :=
  mkConfig "test" "10.0.0.0/16" "us-east-1"
    [mkSubnetSpec "dmz-a" "10.0.3.0/24" "us-east-1a" "dmz"]
    None None None None None.

(** A configuration with the same subnet name twice. *)
Definition twin_config : Config :=
  mkConfig "test" "10.0.0.0/16" "us-east-1"
    [mkSubnetSpec "a" "10.0.1.0/24" "us-east-1a" "private";
     mkSubnetSpec "a" "10.0.2.0/24" "us-east-1b" "private"]
    None None None None None.

(** A configuration whose second subnet has an invalid CIDR. *)
Definition invalid_config : Config :=
  mkConfig "test" "10.0.0.0/16" "us-east-1"
    [mkSubnetSpec "a" "10.0.1.0/24" "us-east-1a" "private";
     mkSubnetSpec "b" "not-a-cidr" "us-east-1a" "private";
     mkSubnetSpec "c" "also-bad" "us-east-1a" "private"]
    None None None None None.

Definition sample_ids : Ids :=
  mkIds "vpc-1" "igw-1" "rtb-8" "rtb-11"
        ["subnet-10.0.1.0/24"; "subnet-10.0.2.0/24"]
        "eipalloc-1" "203.0.113.10" "nat-1"
        [("sg-web", [Returned VUnit])].

(** The state of the end-to-end scenario. *)
Definition sample_state : DeployState := deployed_state sample_config sample_ids "t0".

Definition sample_run : Result bool * World :=
  AWSNetworkBuilder.deploy starts_with_digit obliging sample_config false
    (new_builder "t0" [] [] []).

Definition subnets_fail : Provider :=
  failing_on is_subnet_creation (ClientError "An error occurred (SubnetLimitExceeded) when calling the CreateSubnet operation").

Definition associations_fail : Provider :=
  failing_on is_association (ClientError "An error occurred (InvalidRouteTableID.NotFound) when calling the AssociateRouteTable operation").

Definition subnet_deletions_fail : Provider :=
  failing_on is_subnet_deletion (ClientError "An error occurred (DependencyViolation) when calling the DeleteSubnet operation").

(** ** The construction of a builder and the command line

    [setup_logging] of modules/utils.py, and [AWSNetworkBuilder.__init__]
    and [main] of builder.py. *)

(** The directory [logs] is made and the handler of [logs/builder.log]
    opens its file.  The level, [DEBUG] when [verbose] and [INFO]
    otherwise, filters nothing: the program logs no message below
    [INFO]. *)
Definition setup_logging (aws : Provider) (verbose : bool) : M unit :=
  perform aws (MakeDir "logs") ;;
  perform aws (OpenForWriting "logs/builder.log").

(** The command line as [parse_args] returns it. *)
Record Args := mkArgs {
  args_config     : option string;
  args_dry_run    : bool;
  args_verbose    : bool;
  args_teardown   : bool;
  args_state_file : option string
}.

(** What the construction of the [boto3] session, client and resource
    raises. *)
Inductive SessionError :=
| NoCredentialsError
| SessionFailure (e : Exn).

(** An exception that nothing catches. *)
Inductive Uncaught :=
| LoadFailure (e : utils.LoadError)
| SubscriptFailure
| Failure (e : Exn).

(** How the program ends: by [sys.exit(status)], or with the traceback of
    an exception that nothing caught. *)
Inductive Ending :=
| Exit (status : Z)
| Traceback (e : Uncaught).

(** The exit status of the process. *)
Definition status_of (e : Ending) : Z :=
  match e with Exit status => status | Traceback _ => 1 end.

(** [config[key]] on a document: the value of the key in a mapping; on a
    mapping without the key and on any other document Python raises
    ([KeyError], [TypeError]), which is the [None] here. *)
Definition yaml_subscript (key : string) (config : utils.Yaml)
    : option utils.Yaml :=
  match config with
  | utils.YMap entries =>
      match find (fun entry => utils.is_str key (fst entry)) entries with
      | Some entry => Some (snd entry)
      | None => None
      end
  | _ => None
  end.

(** A run of the program: how it ends, what it printed, and the world it
    leaves. *)
Record Run := mkRun {
  ending  : Ending;
  printed : list string;
  world   : World
}.

(** [sys.exit(0 if success else 1)] after [success = builder.deploy()] or
    [success = builder.teardown(...)]. *)
Definition exit_with (r : Result bool * World) : Run :=
  match r with
  | (Ok success, w) => mkRun (Exit (if success then 0 else 1)) [] w
  | (Raise e, w) => mkRun (Traceback (Failure e)) [] w
  end.

Section CommandLine.

Variable aws : Provider.
Variable config_files : dict string.
Variable safe_load : string -> string + utils.Yaml.

(** [datetime.utcnow().isoformat()] *)
Variable now : string.

(** [str(value)], as an f-string formats a value of the configuration. *)
Variable str : utils.Yaml -> string.

(** [boto3.Session(region_name=region)] with its client and its resource:
    [None] when they are built. *)
Variable session : utils.Yaml -> option SessionError.

(** [builder.deploy()] of a builder that holds the document as its
    configuration, with its [dry_run]. *)
Variable deploy : utils.Yaml -> bool -> M bool.

(** The result is the configuration the builder holds, or how the program
    ends when the construction does not return. *)
Definition __init__ (config_path : string) (verbose : bool) (w0 : World)
    : (Ending + utils.Yaml) * World :=
  let w := new_builder now (trace w0) (log w0) (files w0) in
  match setup_logging aws verbose w with
  | (Raise e, w) => (inl (Traceback (Failure e)), w)
  | (Ok _, w) =>
      match utils.load_config config_files safe_load config_path with
      | inl e => (inl (Traceback (LoadFailure e)), w)
      | inr config =>
          let w := snd (logger INFO ("Loaded configuration from " ++ config_path) w) in
          match yaml_subscript "region" config with
          | None => (inl (Traceback SubscriptFailure), w)
          | Some region =>
              match session region with
              | Some NoCredentialsError =>
                  (inl (Exit 1),
                   snd (logger ERROR
                          "❌ AWS credentials not found. Run 'aws configure' first."
                          w))
              | Some (SessionFailure e) => (inl (Traceback (Failure e)), w)
              | None =>
                  (inr config,
                   snd (logger INFO
                          ("✅ AWS credentials validated for region " ++ str region)
                          w))
              end
          end
      end
  end.

Definition main (args : Args) (w0 : World) : Run :=
  if args_teardown args
  then
    if negb (truthy_opt (args_state_file args))
    then
      mkRun (Exit 1)
            ["Error: --state-file required for teardown";
             "Example: python3 builder.py --teardown --state-file output/vpc-state.json"]
            w0
    else
      let config_path :=
        if truthy_opt (args_config args)
        then get_default (args_config args) ""
        else "configs/prod-vpc.yaml" in
      match __init__ config_path (args_verbose args) w0 with
      | (inl e, w) => mkRun e [] w
      | (inr _, w) =>
          exit_with (AWSNetworkBuilder.teardown aws
                       (get_default (args_state_file args) "") w)
      end
  else
    if negb (truthy_opt (args_config args))
    then
      mkRun (Exit 1)
            ["Error: --config required for deployment";
             "Example: python3 builder.py --config configs/prod-vpc.yaml"]
            w0
    else
      match __init__ (get_default (args_config args) "") (args_verbose args) w0 with
      | (inl e, w) => mkRun e [] w
      | (inr config, w) => exit_with (deploy config (args_dry_run args) w)
      end.

End CommandLine.

(** ** What a deployment calls and what a teardown deletes *)

Definition is_egress (c : Call) : bool :=
  match c with AuthorizeSecurityGroupEgress _ _ _ _ _ => true | _ => false end.

Definition is_release (c : Call) : bool :=
  match c with ReleaseAddress _ => true | _ => false end.

(** The call that deletes the resource of identifier [i] that the creation
    call [c] returned. *)
Definition deletion_of (c : Call) (i : string) : option Call :=
  match c with
  | CreateVpc _ => Some (DeleteVpc i)
  | CreateSubnet _ _ _ => Some (DeleteSubnet i)
  | CreateRouteTable _ => Some (DeleteRouteTable i)
  | CreateInternetGateway => Some (DeleteInternetGateway i)
  | CreateNatGateway _ _ => Some (DeleteNatGateway i)
  | CreateSecurityGroup _ _ _ => Some (DeleteSecurityGroup i)
  | _ => None
  end.

(** Every call of [evs], made after the events [ctx], finds among the
    events before it what [needs] asks of it. *)
Definition each_call_after (ctx : list Event)
    (needs : Call -> list Event -> Prop) (evs : list Event) : Prop :=
  forall before ev after,
    evs = before ++ ev :: after -> needs (fst ev) (ctx ++ before).

(** A call of a deployment that builds: it is no call of a teardown and
    no egress authorization. *)
Definition builds (c : Call) (_ : list Event) : Prop :=
  category_of c = None /\ is_egress c = false.

(** An ingress rule is authorized only as a rule that the configuration
    lists for a security group, on the group created before for that
    entry of the configuration. *)
Definition ingress_from_configuration (config : Config) (c : Call)
    (before : list Event) : Prop :=
  match c with
  | AuthorizeSecurityGroupIngress sg protocol from_port to_port cidr_ip =>
      exists name rules vpc,
        In (name, rules) (get_default (security_groups config) [])
        /\ In (mkIngressRule protocol from_port to_port cidr_ip) rules
        /\ In (got (CreateSecurityGroup name ("Security group for " ++ name) vpc)
                   sg) before
  | _ => True
  end.

(** The network a call works in, for the calls that name one. *)
Definition vpc_argument (c : Call) : option (option string) :=
  match c with
  | CreateSubnet vpc _ _ | CreateRouteTable vpc | AttachInternetGateway _ vpc
  | CreateSecurityGroup _ _ vpc | DetachInternetGateway _ vpc => Some vpc
  | _ => None
  end.

(** A call that names a network names one that [CreateVpc] returned
    before, for the CIDR block of the configuration. *)
Definition in_created_vpc (config : Config) (c : Call) (before : list Event)
    : Prop :=
  forall vpc, vpc_argument c = Some vpc ->
    exists i, vpc = Some i /\ In (got (CreateVpc (cidr config)) i) before.

(** A subnet is given public addresses on launch only once it has been
    created for a subnet of the configuration whose type is [public]. *)
Definition public_subnet_created (config : Config) (c : Call)
    (before : list Event) : Prop :=
  match c with
  | ModifySubnetAttribute subnet =>
      exists spec vpc,
        In spec (subnets config)
        /\ sub_type spec = "public"
        /\ In (got (CreateSubnet vpc (sub_cidr spec) (sub_az spec)) subnet) before
  | _ => True
  end.

(** The route table [rt] was created before and named [name]. *)
Definition table_named (name rt : string) (before : list Event) : Prop :=
  (exists vpc, In (got (CreateRouteTable vpc) rt) before)
  /\ In (ok (CreateTags rt [("Name", name)])) before.

(** A route is a default route; one to an internet gateway goes from the
    route table named public to a gateway created before, one to a NAT
    gateway from the route table named private to a NAT gateway created
    before; a route has no target only when the gateway it was meant for
    was created with the empty identifier, and no route has both
    targets. *)
Definition default_route_to_created (config : Config) (c : Call)
    (before : list Event) : Prop :=
  match c with
  | CreateRoute rt destination gateway nat =>
      destination = "0.0.0.0/0"
      /\ match gateway, nat with
         | Some igw, None =>
             In (got CreateInternetGateway igw) before
             /\ table_named (vpc_name config ++ "-public-rt") rt before
         | None, Some n =>
             (exists subnet allocation,
                In (got (CreateNatGateway subnet allocation) n) before)
             /\ table_named (vpc_name config ++ "-private-rt") rt before
         | None, None =>
             In (got CreateInternetGateway "") before
             \/ exists subnet allocation,
                  In (got (CreateNatGateway subnet allocation) "") before
         | Some _, Some _ => False
         end
  | _ => True
  end.

(** A call of a teardown works on what the state records: a deletion or a
    detachment names an identifier of the state, at the place of its kind
    of resource, and an address is released only when the description of
    the NAT gateway, made before, gave it as the allocation of its first
    address. *)
Definition works_on_state (state : DeployState) (c : Call) (before : list Event)
    : Prop :=
  match c with
  | DescribeNatGateways nat | DeleteNatGateway nat =>
      exists data, nat_gateway_data (gateways state) = Some data
                   /\ nat_id data = nat
  | ReleaseAddress allocation =>
      exists nat response,
        In (DescribeNatGateways nat, Returned (VNatGateways response)) before
        /\ GatewayManager.allocation_of response = Some allocation
  | DetachInternetGateway igw vpc =>
      internet_gateway (gateways state) = Some igw /\ vpc = vpc_id state
  | DeleteInternetGateway igw => internet_gateway (gateways state) = Some igw
  | DeleteSubnet subnet =>
      exists name data, In (name, data) (state_subnets state)
                        /\ sd_id data = subnet
  | DeleteRouteTable rt => exists tier, In (tier, rt) (route_tables state)
  | DeleteSecurityGroup sg =>
      exists name, In (name, sg) (state_security_groups state)
  | DeleteVpc vpc => vpc_id state = Some vpc
  | _ => False
  end.

(** A provider on which the release of an address is refused. *)
Definition releases_fail : Provider :=
  failing_on is_release (ClientError "An error occurred (AuthFailure) when calling the ReleaseAddress operation").

(** A provider that reports a duplicate for an egress rule once an egress
    rule has been authorized. *)
Definition duplicate_egress_reporting : Provider :=
  fun history c =>
    if is_egress c && existsb (fun ev => is_egress (fst ev)) history
    then inl (ClientError
                "An error occurred (InvalidPermission.Duplicate) when calling the AuthorizeSecurityGroupEgress operation: the specified rule already exists")
    else obliging history c.

(** A small complete configuration, as a YAML text and as its document. *)
Definition demo_text : string :=
  "{vpc_name: demo, cidr: 10.0.0.0/16, region: us-east-1, subnets: []}".

Definition demo_document : utils.Yaml :=
  utils.YMap [(utils.YStr "vpc_name", utils.YStr "demo");
              (utils.YStr "cidr", utils.YStr "10.0.0.0/16");
              (utils.YStr "region", utils.YStr "us-east-1");
              (utils.YStr "subnets", utils.YSeq [])].

(** A parser for the samples: the empty text is the null document, and
    two more texts are known. *)
Definition sample_safe_load (text : string) : string + utils.Yaml :=
  if String.eqb text "" then inr utils.YNull
  else if String.eqb text "vpc_name: demo"
       then inr (utils.YMap [(utils.YStr "vpc_name", utils.YStr "demo")])
       else if String.eqb text demo_text then inr demo_document
            else inl "could not parse the text".

Definition sample_config_files : dict string :=
  [("configs/empty.yaml", "");
   ("configs/name-only.yaml", "vpc_name: demo");
   ("configs/demo.yaml", demo_text)].

(** A configuration file that lists the names of the required fields: a
    sequence, not a mapping. *)
Definition listing_text : string := "[vpc_name, cidr, region, subnets]".

Definition listing_document : utils.Yaml :=
  utils.YSeq [utils.YStr "vpc_name"; utils.YStr "cidr"; utils.YStr "region";
              utils.YStr "subnets"].

Definition listing_safe_load (text : string) : string + utils.Yaml :=
  if String.eqb text listing_text then inr listing_document
  else inl "could not parse the text".

Definition listing_files : dict string := [("configs/listing.yaml", listing_text)].

(** [str] on the strings of a document. *)
Definition sample_str (value : utils.Yaml) : string :=
  match value with utils.YStr s => s | _ => "" end.

(** A machine with credentials. *)
Definition with_credentials (region : utils.Yaml) : option SessionError := None.

(** The deployment of the end-to-end scenario, whatever the document. *)
Definition sample_deploy (document : utils.Yaml) (dry_run : bool) : M bool :=
  AWSNetworkBuilder.deploy starts_with_digit obliging sample_config dry_run.

(** * Proofs *)

Arguments vpc_events : simpl never.
Arguments igw_events : simpl never.
Arguments route_table_events : simpl never.
Arguments subnet_creation_events : simpl never.
Arguments subnet_events : simpl never.
Arguments association_events : simpl never.
Arguments nat_creation_events : simpl never.
Arguments nat_events : simpl never.
Arguments group_creation_events : simpl never.
Arguments group_events : simpl never.
Arguments rules_events : simpl never.
Arguments export_events : simpl never.
Arguments VPCManager.route_params : simpl never.

Lemma interrupted_here e c o rest : interrupted e [(c, Failed e)] ((c, o) :: rest).
Proof. exists [], c, o, rest. split; reflexivity. Qed.

Lemma interrupted_later e ev new plan :
  interrupted e new plan -> interrupted e (ev :: new) (ev :: plan).
Proof.
  intros (done & c & o & rest & -> & ->).
  exists (ev :: done), c, o, rest. split; reflexivity.
Qed.

Lemma interrupted_app_l e new plan more :
  interrupted e new plan -> interrupted e new (plan ++ more).
Proof.
  intros (done & c & o & rest & -> & ->).
  exists done, c, o, (rest ++ more). split; [|reflexivity].
  rewrite <- app_assoc. reflexivity.
Qed.

Lemma interrupted_app_r e before new plan :
  interrupted e new plan -> interrupted e (before ++ new) (before ++ plan).
Proof.
  induction before as [|ev before IH]; intros H; simpl; [exact H|].
  apply interrupted_later, IH, H.
Qed.

(** *** Loops *)

Section Loop.

Context {A I : Type}.
Variable body : A -> M unit.
Variable plan : A -> I -> list Event.
Variable update : A -> I -> DeployState -> DeployState.
Variable pre : DeployState -> Prop.
Variable good : A -> I -> Prop.

Hypothesis pre_update : forall a i s, pre s -> pre (update a i s).
Hypothesis good_default : forall a, exists i, good a i.

Lemma good_defaults xs : exists l, Forall2 good xs l.
Proof.
  induction xs as [|x xs [l IH]]; [exists []; constructor|].
  destruct (good_default x) as [i Hi]. exists (i :: l). constructor; assumption.
Qed.

Lemma for_each_runs xs :
  (forall a, In a xs -> body_runs body plan update pre good a) ->
  forall w, pre (st w) ->
    match for_each body xs w with
    | (Ok _, w') =>
        files w' = files w /\
        exists l, Forall2 good xs l
                  /\ trace w' = trace w
                       ++ flat_map (fun p => plan (fst p) (snd p)) (combine xs l)
                  /\ st w' = fold_left (fun s p => update (fst p) (snd p) s)
                                       (combine xs l) (st w)
    | (Raise e, w') =>
        files w' = files w /\
        exists new l, Forall2 good xs l /\ trace w' = trace w ++ new
                      /\ interrupted e new
                           (flat_map (fun p => plan (fst p) (snd p)) (combine xs l))
    end.
Proof.
  induction xs as [|x xs IH]; intros Hbody w Hpre; simpl.
  - split; [reflexivity|]. exists []. repeat split; [constructor|].
    simpl. rewrite app_nil_r. reflexivity.
  - unfold bind.
    pose proof (Hbody x (or_introl eq_refl) w Hpre) as Hx.
    destruct (body x w) as [[[]|e] w1].
    + destruct Hx as (Hf & i & Hi & Ht & Hs).
      assert (Hpre1 : pre (st w1)) by (rewrite Hs; apply pre_update, Hpre).
      specialize (IH (fun a Ha => Hbody a (or_intror Ha)) w1 Hpre1).
      destruct (for_each body xs w1) as [[[]|e] w2].
      * destruct IH as (Hf2 & l & Hl & Ht2 & Hs2).
        split; [congruence|]. exists (i :: l). split; [constructor; assumption|].
        simpl. rewrite Ht2, Ht, Hs2, Hs, <- app_assoc. split; reflexivity.
      * destruct IH as (Hf2 & new & l & Hl & Ht2 & Hint).
        split; [congruence|]. exists (plan x i ++ new), (i :: l).
        split; [constructor; assumption|].
        simpl. rewrite Ht2, Ht, <- app_assoc. split; [reflexivity|].
        apply interrupted_app_r, Hint.
    + destruct Hx as (Hf & new & i & Hi & Ht & Hint).
      split; [exact Hf|].
      destruct (good_defaults xs) as [l Hl].
      exists new, (i :: l). split; [constructor; assumption|].
      split; [exact Ht|]. simpl. apply interrupted_app_l, Hint.
Qed.

End Loop.

(** An invariant of the body, whatever its outcome, is one of the loop. *)
Lemma for_each_invariant {A} (body : A -> M unit) (Inv : World -> Prop) xs :
  (forall a w, In a xs -> Inv w -> Inv (snd (body a w))) ->
  forall w, Inv w -> Inv (snd (for_each body xs w)).
Proof.
  induction xs as [|x xs IH]; intros Hbody w Hw; simpl; [exact Hw|].
  unfold bind. pose proof (Hbody x w (or_introl eq_refl) Hw) as Hx.
  destruct (body x w) as [[[]|e] w1]; simpl in *; [|exact Hx].
  apply IH; [|exact Hx]. intros a w0 Ha. apply Hbody. right. exact Ha.
Qed.

Lemma Forall2_length_eq {A B} (R : A -> B -> Prop) l1 l2 :
  Forall2 R l1 l2 -> List.length l1 = List.length l2.
Proof. induction 1; simpl; congruence. Qed.

Lemma flat_map_singleton {A B} (f : A -> B) l :
  flat_map (fun x => [f x]) l = map f l.
Proof. induction l; simpl; congruence. Qed.

Ltac unfold_monad :=
  unfold except_client_error, except_exception, bind, perform, when, logger,
    ret, raise, record, get_state, modify_state; cbn.

(** Case analysis on the next manager call of the goal, with the lemma of
    that manager. *)
Tactic Notation "call" uconstr(L) "as" simple_intropattern(pat) :=
  match goal with
  | |- context [match ?m ?w0 with _ => _ end] =>
      let H := fresh "H" in
      epose proof (L w0) as H;
      match type of H with
      | match ?x with _ => _ end => unify x (m w0)
      end;
      destruct (m w0) as [[?|?] ?]; cbn in H |- *;
      destruct H as pat
  end.

Section Managers.
Variable aws : Provider.

(** Case analysis on the answer of the provider to the next call. *)
Ltac ask :=
  match goal with
  | |- context [aws ?h ?c] =>
      let E := fresh "E" in
      destruct (aws h c) as [[]|] eqn:E; simpl
  end.

Ltac trace_eq := rewrite <- ?app_assoc; simpl; reflexivity.

Ltac stopped :=
  repeat first [ apply interrupted_here | apply interrupted_later ].

Ltac performed :=
  repeat split; try reflexivity;
  first [ eexists; split; [reflexivity | trace_eq]
        | eexists; eexists; split; [trace_eq | solve [stopped]] ].

Lemma create_vpc_performs cidr_block name hostnames support tags :
  performs (VPCManager.create_vpc aws cidr_block name hostnames support tags)
           (vpc_events cidr_block name hostnames support tags) id.
Proof.
  intro w. unfold VPCManager.create_vpc, vpc_events, got, ok.
  destruct hostnames, support; unfold_monad; repeat ask; performed.
  Unshelve. all: exact "".
Qed.

Lemma create_subnet_performs vpc cidr_block az name tier :
  performs (VPCManager.create_subnet aws vpc cidr_block az name tier)
           (subnet_creation_events vpc cidr_block az name tier) id.
Proof.
  intro w. unfold VPCManager.create_subnet, subnet_creation_events, got, ok.
  destruct (String.eqb tier "public"); unfold_monad; repeat ask; performed.
  Unshelve. all: exact "".
Qed.

Lemma create_route_table_performs vpc name :
  performs (VPCManager.create_route_table aws vpc name)
           (route_table_events vpc name) id.
Proof.
  intro w. unfold VPCManager.create_route_table, route_table_events, got, ok.
  unfold_monad; repeat ask; performed.
  Unshelve. all: exact "".
Qed.

Lemma add_route_performs rt dest gw nat :
  performs (VPCManager.add_route aws rt dest gw nat)
           (fun _ : unit =>
              [ok (CreateRoute rt dest (fst (VPCManager.route_params gw nat))
                               (snd (VPCManager.route_params gw nat)))])
           id.
Proof.
  intro w. unfold VPCManager.add_route, ok.
  unfold_monad; repeat ask; performed.
  Unshelve. all: exact tt.
Qed.

Lemma associate_route_table_performs subnet rt :
  performs (VPCManager.associate_route_table aws subnet rt)
           (fun _ : unit => [ok (AssociateRouteTable subnet rt)]) id.
Proof.
  intro w. unfold VPCManager.associate_route_table, ok.
  unfold_monad; repeat ask; performed.
  Unshelve. all: exact tt.
Qed.

Lemma create_internet_gateway_performs vpc name :
  performs (GatewayManager.create_internet_gateway aws vpc name)
           (igw_events vpc name) id.
Proof.
  intro w. unfold GatewayManager.create_internet_gateway, igw_events, got, ok.
  unfold_monad; repeat ask; performed.
  Unshelve. all: exact "".
Qed.

Lemma create_nat_gateway_runs subnet name w :
  match GatewayManager.create_nat_gateway aws subnet name w with
  | (Ok created, w') =>
      st w' = st w /\ files w' = files w /\
      exists allocation,
        trace w' = trace w ++ nat_creation_events subnet name allocation
                                (snd created) (fst created)
  | (Raise e, w') =>
      st w' = st w /\ files w' = files w /\
      exists new allocation eip nat,
        trace w' = trace w ++ new
        /\ interrupted e new (nat_creation_events subnet name allocation eip nat)
  end.
Proof.
  unfold GatewayManager.create_nat_gateway, nat_creation_events, got, ok.
  unfold_monad.
  destruct (aws (trace w) AllocateAddress) as [[]|[allocation eip]] eqn:E; simpl.
  5: repeat ask.
  all: repeat split; try reflexivity.
  all: first [ eexists; trace_eq
             | do 4 eexists; split; [trace_eq | solve [stopped]] ].
  Unshelve. all: exact "".
Qed.

Lemma create_security_group_performs vpc name description :
  performs (SecurityManager.create_security_group aws vpc name description)
           (group_creation_events vpc name description) id.
Proof.
  intro w. unfold SecurityManager.create_security_group, group_creation_events, got, ok.
  unfold_monad; repeat ask; performed.
  Unshelve. all: exact "".
Qed.

(** [add_ingress_rule] issues one call; it returns when the outcome of the
    call is tolerated and raises the error of the call otherwise. *)
Lemma add_ingress_rule_runs sg rule w :
  match SecurityManager.add_ingress_rule aws sg (rule_protocol rule)
          (rule_from_port rule) (rule_to_port rule) (rule_cidr rule) w with
  | (Ok _, w') =>
      st w' = st w /\ files w' = files w /\
      exists o, tolerated o = true /\ trace w' = trace w ++ [(ingress_call sg rule, o)]
  | (Raise e, w') =>
      st w' = st w /\ files w' = files w /\
      tolerated (Failed e) = false /\
      trace w' = trace w ++ [(ingress_call sg rule, Failed e)]
  end.
Proof.
  unfold SecurityManager.add_ingress_rule, ingress_call.
  unfold_monad.
  destruct (aws _ _) as [[msg| | |]|[]] eqn:E; simpl.
  1: destruct (contains "InvalidPermission.Duplicate" msg) eqn:D; simpl.
  all: repeat split; try reflexivity; try assumption.
  all: eexists; split; [|reflexivity]; simpl; auto.
Qed.

(** *** The steps of the deployment *)

Variable config : Config.

Lemma route_to_gateway igw :
  VPCManager.route_params (Some igw) None
  = (if truthy igw then Some igw else None, None).
Proof. unfold VPCManager.route_params. simpl. destruct (truthy igw); reflexivity. Qed.

Lemma route_to_nat nat :
  VPCManager.route_params None (Some nat)
  = (None, if truthy nat then Some nat else None).
Proof. unfold VPCManager.route_params. simpl. destruct (truthy nat); reflexivity. Qed.

Lemma _create_vpc_runs w :
  match AWSNetworkBuilder._create_vpc aws config w with
  | (Ok _, w') =>
      files w' = files w /\
      exists vpc,
        trace w' = trace w ++ vpc_events (cidr config) (vpc_name config)
                     (get_default (enable_dns_hostnames config) true)
                     (get_default (enable_dns_support config) true)
                     (get_default (tags config) []) vpc
        /\ st w' = set_vpc_id vpc (st w)
  | (Raise e, w') =>
      files w' = files w /\ st w' = st w /\
      exists new vpc,
        trace w' = trace w ++ new
        /\ interrupted e new (vpc_events (cidr config) (vpc_name config)
                     (get_default (enable_dns_hostnames config) true)
                     (get_default (enable_dns_support config) true)
                     (get_default (tags config) []) vpc)
  end.
Proof.
  unfold AWSNetworkBuilder._create_vpc. unfold_monad.
  call (create_vpc_performs _ _ _ _ _) as (Hs & Hf & H).
  - destruct H as (i & -> & Ht). unfold id.
    split; [exact Hf|]. exists i. rewrite Ht, Hs. split; reflexivity.
  - destruct H as (new & i & Ht & Hi).
    repeat split; auto. exists new, i. auto.
Qed.

Lemma _create_internet_gateway_runs w :
  match AWSNetworkBuilder._create_internet_gateway aws config w with
  | (Ok _, w') =>
      files w' = files w /\
      exists igw,
        trace w' = trace w ++ igw_events (vpc_id (st w)) (vpc_name config ++ "-igw") igw
        /\ st w' = set_internet_gateway igw (st w)
  | (Raise e, w') =>
      files w' = files w /\ st w' = st w /\
      exists new igw,
        trace w' = trace w ++ new
        /\ interrupted e new
             (igw_events (vpc_id (st w)) (vpc_name config ++ "-igw") igw)
  end.
Proof.
  unfold AWSNetworkBuilder._create_internet_gateway. unfold_monad.
  call (create_internet_gateway_performs _ _) as (Hs & Hf & H).
  - destruct H as (i & -> & Ht). unfold id.
    split; [exact Hf|]. exists i. rewrite Ht, Hs. split; reflexivity.
  - destruct H as (new & i & Ht & Hi).
    repeat split; auto. exists new, i. auto.
Qed.

Lemma _create_route_tables_runs w igw :
  internet_gateway (gateways (st w)) = Some igw ->
  match AWSNetworkBuilder._create_route_tables aws config w with
  | (Ok _, w') =>
      files w' = files w /\
      exists public_rt private_rt,
        trace w' = trace w ++ route_tables_events (vpc_id (st w)) (vpc_name config)
                                igw public_rt private_rt
        /\ st w' = set_route_table "private" private_rt
                     (set_route_table "public" public_rt (st w))
  | (Raise e, w') =>
      files w' = files w /\
      exists new public_rt private_rt,
        trace w' = trace w ++ new
        /\ interrupted e new
             (route_tables_events (vpc_id (st w)) (vpc_name config) igw
                                  public_rt private_rt)
  end.
Proof.
  intros Higw.
  unfold AWSNetworkBuilder._create_route_tables, route_tables_events. unfold_monad.
  call (create_route_table_performs _ _) as (Hs & Hf & H).
  - destruct H as (pub & -> & Ht). unfold id.
    rewrite Hs, Higw. cbn.
    call (add_route_performs _ _ _ _) as (Hs2 & Hf2 & H2).
    + destruct H2 as (_ & _ & Ht2).
      call (create_route_table_performs _ _) as (Hs3 & Hf3 & H3).
      * destruct H3 as (priv & -> & Ht3). unfold id.
        split; [congruence|]. exists pub, priv.
        rewrite Ht3, Ht2, Ht, Hs3, Hs2, Hs, route_to_gateway, <- !app_assoc.
        split; reflexivity.
      * destruct H3 as (new & priv & Ht3 & Hint).
        split; [congruence|].
        eexists _, pub, priv. rewrite Ht3, Ht2, Ht, <- !app_assoc.
        rewrite Hs2, Hs in Hint.
        split; [reflexivity|]. rewrite route_to_gateway. cbn [fst snd].
        apply interrupted_app_r, (interrupted_app_r _ [_]), Hint.
    + destruct H2 as (new & _ & Ht2 & Hint).
      split; [congruence|].
      eexists _, pub, "". rewrite Ht2, Ht, <- !app_assoc.
      split; [reflexivity|]. rewrite route_to_gateway in Hint.
      apply interrupted_app_r, (interrupted_app_l _ _ [_]), Hint.
  - destruct H as (new & pub & Ht & Hint).
    split; [congruence|]. exists new, pub, "". split; [exact Ht|].
    apply interrupted_app_l, Hint.
Qed.

Lemma _create_subnet_runs spec w :
  match AWSNetworkBuilder._create_subnet aws spec w with
  | (Ok _, w') =>
      files w' = files w /\
      exists subnet,
        trace w' = trace w ++ subnet_events (vpc_id (st w)) (route_tables (st w))
                                            spec subnet
        /\ st w' = set_subnet (sub_name spec) (subnet_data (spec, subnet)) (st w)
  | (Raise e, w') =>
      files w' = files w /\ st w' = st w /\
      exists new subnet,
        trace w' = trace w ++ new
        /\ interrupted e new (subnet_events (vpc_id (st w)) (route_tables (st w))
                                            spec subnet)
  end.
Proof.
  unfold AWSNetworkBuilder._create_subnet, subnet_events, association_events.
  unfold_monad.
  call (create_subnet_performs _ _ _ _ _) as (Hs & Hf & H).
  - destruct H as (subnet & -> & Ht). unfold id. rewrite Hs.
    destruct (dict_get (sub_type spec) (route_tables (st w))) as [rt|]; cbn.
    + destruct (truthy rt); cbn.
      * call (associate_route_table_performs _ _) as (Hs2 & Hf2 & H2).
        -- destruct H2 as (_ & _ & Ht2).
           split; [congruence|]. exists subnet.
           rewrite Ht2, Ht, Hs2, Hs, <- app_assoc. split; reflexivity.
        -- destruct H2 as (new & _ & Ht2 & Hint).
           split; [congruence|]. split; [congruence|].
           eexists _, subnet. rewrite Ht2, Ht, <- app_assoc.
           split; [reflexivity|]. apply interrupted_app_r, Hint.
      * split; [exact Hf|]. exists subnet. rewrite Ht, Hs, app_nil_r.
        split; reflexivity.
    + split; [exact Hf|]. exists subnet. rewrite Ht, Hs, app_nil_r.
      split; reflexivity.
  - destruct H as (new & subnet & Ht & Hint).
    repeat split; auto. exists new, subnet. split; [exact Ht|].
    apply interrupted_app_l, Hint.
Qed.

Lemma fold_record_subnets created s :
  fold_left (fun s p => set_subnet (sub_name (fst p)) (subnet_data (fst p, snd p)) s)
            created s
  = record_subnets created s.
Proof.
  revert s. induction created as [|p created IH]; intros s; simpl.
  - destruct s; reflexivity.
  - rewrite IH. reflexivity.
Qed.

Lemma _create_subnets_runs w :
  match AWSNetworkBuilder._create_subnets aws config w with
  | (Ok _, w') =>
      files w' = files w /\
      exists ids,
        List.length ids = List.length (subnets config)
        /\ trace w' = trace w ++ subnets_events (vpc_id (st w)) (route_tables (st w))
                                   (combine (subnets config) ids)
        /\ st w' = record_subnets (combine (subnets config) ids) (st w)
  | (Raise e, w') =>
      files w' = files w /\
      exists new ids,
        List.length ids = List.length (subnets config)
        /\ trace w' = trace w ++ new
        /\ interrupted e new
             (subnets_events (vpc_id (st w)) (route_tables (st w))
                             (combine (subnets config) ids))
  end.
Proof.
  unfold AWSNetworkBuilder._create_subnets, subnets_events. unfold_monad.
  match goal with |- context [for_each _ _ ?w0] =>
    pose proof (for_each_runs (AWSNetworkBuilder._create_subnet aws)
                  (subnet_events (vpc_id (st w)) (route_tables (st w)))
                  (fun a i => set_subnet (sub_name a) (subnet_data (a, i)))
                  (fun s => vpc_id s = vpc_id (st w)
                            /\ route_tables s = route_tables (st w))
                  (fun _ _ => True)
                  (fun a i s H => H)
                  (fun _ => ex_intro _ "" I)
                  (subnets config)) as H;
    assert (Hbody : forall a, In a (subnets config) ->
              body_runs (AWSNetworkBuilder._create_subnet aws)
                (subnet_events (vpc_id (st w)) (route_tables (st w)))
                (fun a i => set_subnet (sub_name a) (subnet_data (a, i)))
                (fun s => vpc_id s = vpc_id (st w)
                          /\ route_tables s = route_tables (st w))
                (fun _ _ => True) a);
    [ | specialize (H Hbody w0 (conj eq_refl eq_refl));
        destruct (for_each (AWSNetworkBuilder._create_subnet aws)
                           (subnets config) w0) as [[[]|e] w1] ]
  end.
  - intros a _ w0 [Hv Hr].
    pose proof (_create_subnet_runs a w0) as Ha. rewrite Hv, Hr in Ha.
    destruct (AWSNetworkBuilder._create_subnet aws a w0) as [[[]|e] w1].
    + destruct Ha as (Hf & i & Ht & Hs). split; [exact Hf|]. exists i. auto.
    + destruct Ha as (Hf & _ & new & i & Ht & Hint). split; [exact Hf|].
      exists new, i. auto.
  - cbn in H. destruct H as (Hf & l & Hl & Ht & Hs).
    split; [exact Hf|]. exists l.
    split; [symmetry; eapply Forall2_length_eq, Hl|].
    split; [exact Ht|]. rewrite Hs. apply fold_record_subnets.
  - cbn in H. destruct H as (Hf & new & l & Hl & Ht & Hint).
    split; [exact Hf|]. exists new, l.
    split; [symmetry; eapply Forall2_length_eq, Hl|]. auto.
Qed.

Lemma _create_nat_gateway_runs w private_rt :
  dict_get "private" (route_tables (st w)) = Some private_rt ->
  match AWSNetworkBuilder._create_nat_gateway aws config w with
  | (Ok _, w') =>
      files w' = files w /\
      match nat_subnet_of config (state_subnets (st w)) with
      | Some subnet =>
          exists allocation eip nat,
            trace w' = trace w ++ nat_events subnet (vpc_name config ++ "-nat")
                                    private_rt allocation eip nat
            /\ st w' = set_nat_gateway (mkNatData nat eip) (st w)
      | None => trace w' = trace w /\ st w' = st w
      end
  | (Raise e, w') =>
      files w' = files w /\ st w' = st w /\
      exists subnet new allocation eip nat,
        nat_subnet_of config (state_subnets (st w)) = Some subnet
        /\ trace w' = trace w ++ new
        /\ interrupted e new (nat_events subnet (vpc_name config ++ "-nat")
                                private_rt allocation eip nat)
  end.
Proof.
  intros Hrt.
  unfold AWSNetworkBuilder._create_nat_gateway, nat_subnet_of, nat_is_enabled, nat_events.
  destruct (get_default (nat_enabled (get_default (nat_gateway config) (mkNatConfig None)))
                        false); unfold_monad.
  2: { repeat split; reflexivity. }
  destruct (AWSNetworkBuilder.find_public_subnet (state_subnets (st w)))
    as [subnet|]; cbn.
  2: { repeat split; reflexivity. }
  destruct (truthy subnet); cbn.
  2: { repeat split; reflexivity. }
  match goal with |- context [GatewayManager.create_nat_gateway aws ?a ?b ?w0] =>
    pose proof (create_nat_gateway_runs a b w0) as H;
    destruct (GatewayManager.create_nat_gateway aws a b w0) as [[[nat eip]|e] w1]
  end; cbn in H |- *; destruct H as (Hs & Hf & H).
  - destruct H as (allocation & Ht). rewrite Hs, Hrt. cbn.
    call (add_route_performs _ _ _ _) as (Hs2 & Hf2 & H2).
    + destruct H2 as (_ & _ & Ht2).
      split; [congruence|]. exists allocation, eip, nat.
      rewrite Ht2, Ht, Hs2, Hs, route_to_nat, <- app_assoc. split; reflexivity.
    + destruct H2 as (new & _ & Ht2 & Hint).
      split; [congruence|]. split; [congruence|].
      eexists subnet, _, allocation, eip, nat. split; [reflexivity|].
      rewrite Ht2, Ht, <- app_assoc. split; [reflexivity|].
      rewrite route_to_nat in Hint. apply interrupted_app_r, Hint.
  - destruct H as (new & allocation & eip & nat & Ht & Hint).
    repeat split; auto. exists subnet, new, allocation, eip, nat.
    repeat split; auto. apply interrupted_app_l, Hint.
Qed.

Lemma fold_left_same {A B} (l : list B) (a : A) : fold_left (fun s _ => s) l a = a.
Proof. induction l; simpl; auto. Qed.

Lemma apply_rules_runs sg rules w :
  match for_each (fun rule =>
                    SecurityManager.add_ingress_rule aws sg (rule_protocol rule)
                      (rule_from_port rule) (rule_to_port rule) (rule_cidr rule))
                 rules w with
  | (Ok _, w') =>
      files w' = files w /\ st w' = st w /\
      exists outs,
        Forall2 (fun (_ : IngressRule) o => tolerated o = true) rules outs
        /\ trace w' = trace w ++ rules_events sg (combine rules outs)
  | (Raise e, w') =>
      files w' = files w /\ st w' = st w /\
      exists new outs,
        Forall2 (fun (_ : IngressRule) o => tolerated o = true) rules outs
        /\ trace w' = trace w ++ new
        /\ interrupted e new (rules_events sg (combine rules outs))
  end.
Proof.
  pose proof (for_each_runs
                (fun rule =>
                   SecurityManager.add_ingress_rule aws sg (rule_protocol rule)
                     (rule_from_port rule) (rule_to_port rule) (rule_cidr rule))
                (fun rule o => [(ingress_call sg rule, o)])
                (fun _ _ s => s) (fun _ => True)
                (fun (_ : IngressRule) o => tolerated o = true)
                (fun _ _ _ H => H)
                (fun _ => ex_intro _ (Returned VUnit) eq_refl)
                rules) as H.
  unfold rules_events.
  assert (Hbody : forall a, In a rules ->
            body_runs (fun rule =>
                   SecurityManager.add_ingress_rule aws sg (rule_protocol rule)
                     (rule_from_port rule) (rule_to_port rule) (rule_cidr rule))
                (fun rule o => [(ingress_call sg rule, o)])
                (fun _ _ s => s) (fun _ => True)
                (fun (_ : IngressRule) o => tolerated o = true) a).
  { intros a _ w0 _. pose proof (add_ingress_rule_runs sg a w0) as Ha.
    destruct (SecurityManager.add_ingress_rule aws sg _ _ _ _ w0) as [[[]|e] w1].
    - destruct Ha as (Hs & Hf & o & Ho & Ht). split; [exact Hf|]. exists o. auto.
    - destruct Ha as (Hs & Hf & Ho & Ht). split; [exact Hf|].
      exists [(ingress_call sg a, Failed e)], (Returned VUnit).
      repeat split; auto. apply interrupted_here. }
  specialize (H Hbody w I).
  pose proof (for_each_invariant
                (fun rule =>
                   SecurityManager.add_ingress_rule aws sg (rule_protocol rule)
                     (rule_from_port rule) (rule_to_port rule) (rule_cidr rule))
                (fun w0 => st w0 = st w) rules) as Hst.
  lapply Hst; [clear Hst; intros Hst; specialize (Hst w eq_refl)|].
  2: { intros a w0 _ Hw0. pose proof (add_ingress_rule_runs sg a w0) as Ha.
       destruct (SecurityManager.add_ingress_rule aws sg _ _ _ _ w0) as [[[]|e] w1];
         cbn; destruct Ha as (Hs & _); congruence. }
  destruct (for_each _ rules w) as [[[]|e] w1]; cbn in Hst.
  - destruct H as (Hf & l & Hl & Ht & Hs).
    rewrite flat_map_singleton in Ht. repeat split; auto. exists l. auto.
  - destruct H as (Hf & new & l & Hl & Ht & Hint).
    rewrite flat_map_singleton in Hint.
    repeat split; auto. exists new, l. auto.
Qed.

Lemma _apply_security_group_runs item w :
  match AWSNetworkBuilder._apply_security_group aws item w with
  | (Ok _, w') =>
      files w' = files w /\
      exists created,
        rules_tolerated item created
        /\ trace w' = trace w ++ group_events (vpc_id (st w)) item created
        /\ st w' = set_security_group (fst item) (fst created) (st w)
  | (Raise e, w') =>
      files w' = files w /\ st w' = st w /\
      exists new created,
        rules_tolerated item created
        /\ trace w' = trace w ++ new
        /\ interrupted e new (group_events (vpc_id (st w)) item created)
  end.
Proof.
  unfold AWSNetworkBuilder._apply_security_group, group_events, rules_tolerated.
  unfold_monad.
  call (create_security_group_performs _ _ _) as (Hs & Hf & H).
  - destruct H as (sg & -> & Ht). unfold id.
    match goal with |- context [for_each ?b ?l ?w0] =>
      pose proof (apply_rules_runs sg l w0) as H2;
      destruct (for_each b l w0) as [[[]|e] w1]
    end; cbn in H2 |- *.
    + destruct H2 as (Hf2 & Hs2 & outs & Ho & Ht2).
      split; [congruence|]. exists (sg, outs). cbn.
      rewrite Ht2, Ht, Hs2, Hs, <- app_assoc. auto.
    + destruct H2 as (Hf2 & Hs2 & new & outs & Ho & Ht2 & Hint).
      split; [congruence|]. split; [congruence|]. eexists _, (sg, outs). cbn.
      rewrite Ht2, Ht, <- app_assoc. repeat split; auto.
      apply interrupted_app_r, Hint.
  - destruct H as (new & sg & Ht & Hint).
    split; [congruence|]. split; [congruence|].
    exists new, (sg, map (fun _ => Returned VUnit) (snd item)). cbn.
    split; [|split; [exact Ht|apply interrupted_app_l, Hint]].
    induction (snd item); constructor; auto.
Qed.

Lemma fold_record_groups created s :
  fold_left (fun s (p : (string * list IngressRule) * (string * list Outcome)) =>
               set_security_group (fst (fst p)) (fst (snd p)) s) created s
  = record_groups created s.
Proof.
  revert s. induction created as [|p created IH]; intros s; simpl.
  - destruct s; reflexivity.
  - rewrite IH. reflexivity.
Qed.

Lemma rules_tolerated_default (item : string * list IngressRule) :
  exists created, rules_tolerated item created.
Proof.
  exists ("", map (fun _ => Returned VUnit) (snd item)). unfold rules_tolerated.
  cbn. induction (snd item); constructor; auto.
Qed.

Lemma _apply_security_groups_runs w :
  match AWSNetworkBuilder._apply_security_groups aws config w with
  | (Ok _, w') =>
      files w' = files w /\
      exists groups,
        Forall2 rules_tolerated (get_default (security_groups config) []) groups
        /\ trace w' = trace w ++ groups_events (vpc_id (st w))
               (combine (get_default (security_groups config) []) groups)
        /\ st w' = record_groups
               (combine (get_default (security_groups config) []) groups) (st w)
  | (Raise e, w') =>
      files w' = files w /\
      exists new groups,
        Forall2 rules_tolerated (get_default (security_groups config) []) groups
        /\ trace w' = trace w ++ new
        /\ interrupted e new (groups_events (vpc_id (st w))
               (combine (get_default (security_groups config) []) groups))
  end.
Proof.
  unfold AWSNetworkBuilder._apply_security_groups, groups_events.
  destruct (get_default (security_groups config) []) as [|item items] eqn:Hsg.
  - unfold_monad. split; [reflexivity|]. exists []. split; [constructor|].
    rewrite app_nil_r. split; [reflexivity|]. destruct (st w); reflexivity.
  - rewrite <- Hsg. clear Hsg item items.
    set (sgs := get_default (security_groups config) []).
    unfold_monad.
    match goal with |- context [for_each _ _ ?w0] =>
      pose proof (for_each_runs (AWSNetworkBuilder._apply_security_group aws)
                    (group_events (vpc_id (st w)))
                    (fun a i => set_security_group (fst a) (fst i))
                    (fun s => vpc_id s = vpc_id (st w))
                    rules_tolerated
                    (fun a i s H => H)
                    rules_tolerated_default
                    sgs) as H;
      assert (Hbody : forall a, In a sgs ->
                body_runs (AWSNetworkBuilder._apply_security_group aws)
                  (group_events (vpc_id (st w)))
                  (fun a i => set_security_group (fst a) (fst i))
                  (fun s => vpc_id s = vpc_id (st w))
                  rules_tolerated a);
      [ | specialize (H Hbody w0 eq_refl);
          destruct (for_each (AWSNetworkBuilder._apply_security_group aws) sgs w0)
            as [[[]|e] w1] ]
    end.
    + intros a _ w0 Hv.
      pose proof (_apply_security_group_runs a w0) as Ha. rewrite Hv in Ha.
      destruct (AWSNetworkBuilder._apply_security_group aws a w0) as [[[]|e] w1];
        [exact Ha|].
      destruct Ha as (Hf & _ & Ha). split; [exact Hf|exact Ha].
    + cbn in H. destruct H as (Hf & l & Hl & Ht & Hs).
      split; [exact Hf|]. exists l. split; [exact Hl|].
      split; [exact Ht|]. rewrite Hs. apply fold_record_groups.
    + cbn in H. destruct H as (Hf & new & l & Hl & Ht & Hint).
      split; [exact Hf|]. exists new, l. auto.
Qed.

Lemma _export_state_runs w :
  match AWSNetworkBuilder._export_state aws config w with
  | (Ok _, w') =>
      trace w' = trace w ++ export_events (vpc_name config)
      /\ st w' = st w
      /\ files w' = dict_set (AWSNetworkBuilder.state_file_of (vpc_name config))
                             (st w) (files w)
  | (Raise e, w') =>
      files w' = files w /\ st w' = st w /\
      exists new, trace w' = trace w ++ new
                  /\ interrupted e new (export_events (vpc_name config))
  end.
Proof.
  unfold AWSNetworkBuilder._export_state, json_dump, export_events, ok.
  unfold_monad.
  destruct (aws (trace w) (MakeDir "output")) as [e|[]] eqn:E1; cbn.
  - repeat split; auto. eexists. split; [reflexivity|]. apply interrupted_here.
  - destruct (aws _ (OpenForWriting _)) as [e|[]] eqn:E2; cbn.
    + repeat split; auto. eexists. split; [trace_eq|].
      apply interrupted_later, interrupted_here.
    + repeat split; auto. trace_eq.
Qed.

End Managers.

Lemma segment_extend evs tr more : segment evs tr -> segment evs (tr ++ more).
Proof.
  intros (before & after & ->). exists before, (after ++ more).
  rewrite <- !app_assoc. reflexivity.
Qed.

Lemma segment_last evs tr : segment evs (tr ++ evs).
Proof. exists tr, []. rewrite app_nil_r. reflexivity. Qed.

Lemma segment_middle evs tr more : segment evs (tr ++ evs ++ more).
Proof. exists tr, more. reflexivity. Qed.

Lemma in_dict_set {V} k (v : V) k0 v0 d :
  In (k, v) (dict_set k0 v0 d) -> (k = k0 /\ v = v0) \/ In (k, v) d.
Proof.
  induction d as [|[k' v'] d IH]; simpl.
  - intros [H|[]]. inversion H. auto.
  - destruct (String.eqb k0 k'); simpl.
    + intros [H|H]; [inversion H; auto|auto].
    + intros [H|H]; [auto|]. destruct (IH H); auto.
Qed.

Section Tracking.
Variable aws : Provider.
Variable config : Config.

(** The state is kept and the trace grows: what was tracked still is. *)
Lemma tracked_grow w w' more :
  st w' = st w -> trace w' = trace w ++ more ->
  tracked config w -> tracked config w'.
Proof.
  intros Hs Ht (T1 & T2 & T3 & T4 & T5 & T6).
  unfold tracked. rewrite Hs, Ht.
  repeat split.
  - intros vpc H. apply segment_extend, T1, H.
  - intros igw H. destruct (T2 igw H) as [v Hv]. exists v. apply segment_extend, Hv.
  - intros tier rt H. destruct (T3 tier rt H) as [v Hv]. exists v.
    apply segment_extend, Hv.
  - intros name data H. destruct (T4 name data H) as (v & spec & H1 & H2 & H3 & H4).
    exists v, spec. repeat split; auto. apply segment_extend, H4.
  - intros nat H. destruct (T5 nat H) as (s & a & Hv). exists s, a.
    apply segment_extend, Hv.
  - intros name sg H. destruct (T6 name sg H) as [v Hv]. exists v.
    apply segment_extend, Hv.
Qed.

Lemma tracked_interrupted w w' new e plan :
  st w' = st w -> trace w' = trace w ++ new -> interrupted e new plan ->
  tracked config w -> tracked config w'.
Proof. intros Hs Ht _. apply (tracked_grow w w' new Hs Ht). Qed.

Lemma _create_vpc_tracked w :
  tracked config w -> tracked config (snd (AWSNetworkBuilder._create_vpc aws config w)).
Proof.
  intros T. pose proof (_create_vpc_runs aws config w) as H.
  destruct (AWSNetworkBuilder._create_vpc aws config w) as [[[]|e] w']; cbn.
  - destruct H as (_ & vpc & Ht & Hs).
    assert (T' : tracked config (mkWorld (st w) (trace w') (log w') (files w')))
      by (eapply (tracked_grow w); [reflexivity|exact Ht|exact T]).
    destruct T' as (_ & T2 & T3 & T4 & T5 & T6). cbn in *.
    unfold tracked. rewrite Hs. cbn. repeat split; auto.
    intros v [= <-]. rewrite Ht. apply segment_last.
  - destruct H as (_ & Hs & new & vpc & Ht & _).
    eapply tracked_grow; eauto.
Qed.

Lemma _create_internet_gateway_tracked w :
  tracked config w ->
  tracked config (snd (AWSNetworkBuilder._create_internet_gateway aws config w)).
Proof.
  intros T. pose proof (_create_internet_gateway_runs aws config w) as H.
  destruct (AWSNetworkBuilder._create_internet_gateway aws config w) as [[[]|e] w']; cbn.
  - destruct H as (_ & igw & Ht & Hs).
    assert (T' : tracked config (mkWorld (st w) (trace w') (log w') (files w')))
      by (eapply (tracked_grow w); [reflexivity|exact Ht|exact T]).
    destruct T' as (T1 & _ & T3 & T4 & T5 & T6). cbn in *.
    unfold tracked. rewrite Hs. cbn. repeat split; auto.
    intros v [= <-]. eexists. rewrite Ht. apply segment_last.
  - destruct H as (_ & Hs & new & vpc & Ht & _).
    eapply tracked_grow; eauto.
Qed.

(** Recording a route table that was just created. *)
Lemma tracked_route_table w w' vpc tier rt more :
  st w' = set_route_table tier rt (st w) ->
  trace w' = trace w ++ more ->
  segment (route_table_events vpc (vpc_name config ++ "-" ++ tier ++ "-rt") rt)
          (trace w') ->
  tracked config w -> tracked config w'.
Proof.
  intros Hs Ht Hseg T.
  assert (T' : tracked config (mkWorld (st w) (trace w') (log w') (files w')))
    by (eapply (tracked_grow w); [reflexivity|exact Ht|exact T]).
  destruct T' as (T1 & T2 & T3 & T4 & T5 & T6). cbn in *.
  unfold tracked. rewrite Hs. cbn. repeat split; auto.
  intros t r Hin. apply in_dict_set in Hin. destruct Hin as [[-> ->]|Hin]; [|auto].
  exists vpc. exact Hseg.
Qed.

Lemma _create_route_tables_tracked w :
  tracked config w ->
  tracked config (snd (AWSNetworkBuilder._create_route_tables aws config w)).
Proof.
  intros T.
  unfold AWSNetworkBuilder._create_route_tables. unfold_monad.
  call (create_route_table_performs aws _ _) as (Hs & Hf & H).
  2: { destruct H as (new & pub & Ht & _). eapply tracked_grow; eauto. }
  destruct H as (pub & -> & Ht). unfold id.
  assert (T0 : tracked config w0) by (eapply tracked_grow; eauto).
  destruct (internet_gateway (gateways (st w0))) as [igw|]; cbn; [|exact T0].
  call (add_route_performs aws _ _ _ _) as (Hs2 & Hf2 & H2).
  2: { destruct H2 as (new & _ & Ht2 & _). eapply tracked_grow; eauto. }
  destruct H2 as (_ & _ & Ht2).
  match goal with |- context [VPCManager.create_route_table aws ?a ?b ?w1] =>
    assert (T1 : tracked config w1)
  end.
  1: { eapply (tracked_route_table w0 _ (vpc_id (st w)) "public" pub);
      [cbn; rewrite Hs2; reflexivity | cbn; exact Ht2 | | exact T0].
    cbn. rewrite Ht2, Ht. apply segment_extend, segment_last. }
  call (create_route_table_performs aws _ _) as (Hs3 & Hf3 & H3).
  2: { destruct H3 as (new & priv & Ht3 & _).
       eapply tracked_grow; [| |exact T1]; [exact Hs3|exact Ht3]. }
  destruct H3 as (priv & -> & Ht3). unfold id.
  eapply (tracked_route_table w2 _ _ "private" priv);
    [cbn; reflexivity | cbn; symmetry; apply app_nil_r | | ].
  - cbn. rewrite Ht3. apply segment_last.
  - eapply tracked_grow; [| |exact T1]; [exact Hs3|exact Ht3].
Qed.

Lemma _create_subnet_tracked spec w :
  In spec (subnets config) ->
  tracked config w ->
  tracked config (snd (AWSNetworkBuilder._create_subnet aws spec w)).
Proof.
  intros Hin T. pose proof (_create_subnet_runs aws spec w) as H.
  destruct (AWSNetworkBuilder._create_subnet aws spec w) as [[[]|e] w']; cbn.
  - destruct H as (_ & subnet & Ht & Hs).
    assert (T' : tracked config (mkWorld (st w) (trace w') (log w') (files w')))
      by (eapply (tracked_grow w); [reflexivity|exact Ht|exact T]).
    destruct T' as (T1 & T2 & T3 & T4 & T5 & T6). cbn in *.
    unfold tracked. rewrite Hs. cbn. repeat split; auto.
    intros name data Hd. apply in_dict_set in Hd.
    destruct Hd as [[-> ->]|Hd]; [|auto].
    exists (vpc_id (st w)), spec. repeat split; auto.
    rewrite Ht. unfold subnet_events. cbn. apply segment_middle.
  - destruct H as (_ & Hs & new & subnet & Ht & _).
    eapply tracked_grow; eauto.
Qed.

Lemma _create_subnets_tracked w :
  tracked config w ->
  tracked config (snd (AWSNetworkBuilder._create_subnets aws config w)).
Proof.
  intros T. unfold AWSNetworkBuilder._create_subnets. unfold_monad.
  apply (for_each_invariant (AWSNetworkBuilder._create_subnet aws) (tracked config)).
  - intros a w0 Ha. apply _create_subnet_tracked, Ha.
  - eapply (tracked_grow w); [reflexivity| |exact T]. cbn. symmetry.
    apply app_nil_r.
Qed.

Lemma _create_nat_gateway_tracked w private_rt :
  dict_get "private" (route_tables (st w)) = Some private_rt ->
  tracked config w ->
  tracked config (snd (AWSNetworkBuilder._create_nat_gateway aws config w)).
Proof.
  intros Hrt T. pose proof (_create_nat_gateway_runs aws config w private_rt Hrt) as H.
  destruct (AWSNetworkBuilder._create_nat_gateway aws config w) as [[[]|e] w']; cbn.
  - destruct H as (_ & H).
    destruct (nat_subnet_of config (state_subnets (st w))) as [subnet|].
    + destruct H as (allocation & eip & nat & Ht & Hs).
      assert (T' : tracked config (mkWorld (st w) (trace w') (log w') (files w')))
        by (eapply (tracked_grow w); [reflexivity|exact Ht|exact T]).
      destruct T' as (T1 & T2 & T3 & T4 & _ & T6). cbn in *.
      unfold tracked. rewrite Hs. cbn. repeat split; auto.
      intros d [= <-]. exists subnet, allocation. cbn.
      rewrite Ht. unfold nat_events. apply segment_middle.
    + destruct H as (Ht & Hs). eapply (tracked_grow w); [exact Hs| |exact T].
      rewrite Ht. symmetry. apply app_nil_r.
  - destruct H as (_ & Hs & subnet & new & allocation & eip & nat & _ & Ht & _).
    eapply tracked_grow; eauto.
Qed.

Lemma _apply_security_group_tracked item w :
  tracked config w ->
  tracked config (snd (AWSNetworkBuilder._apply_security_group aws item w)).
Proof.
  intros T. pose proof (_apply_security_group_runs aws item w) as H.
  destruct (AWSNetworkBuilder._apply_security_group aws item w) as [[[]|e] w']; cbn.
  - destruct H as (_ & created & _ & Ht & Hs).
    assert (T' : tracked config (mkWorld (st w) (trace w') (log w') (files w')))
      by (eapply (tracked_grow w); [reflexivity|exact Ht|exact T]).
    destruct T' as (T1 & T2 & T3 & T4 & T5 & _). cbn in *.
    destruct T as (_ & _ & _ & _ & _ & T6).
    unfold tracked. rewrite Hs. cbn. repeat split; auto.
    intros name sg Hd. apply in_dict_set in Hd.
    destruct Hd as [[-> ->]|Hd].
    + exists (vpc_id (st w)). rewrite Ht. unfold group_events. apply segment_middle.
    + destruct (T6 name sg Hd) as [v Hv]. exists v. rewrite Ht.
      apply segment_extend, Hv.
  - destruct H as (_ & Hs & new & created & _ & Ht & _).
    eapply tracked_grow; eauto.
Qed.

Lemma _apply_security_groups_tracked w :
  tracked config w ->
  tracked config (snd (AWSNetworkBuilder._apply_security_groups aws config w)).
Proof.
  intros T. unfold AWSNetworkBuilder._apply_security_groups.
  destruct (get_default (security_groups config) []) as [|item items].
  - unfold_monad. eapply (tracked_grow w); [reflexivity| |exact T]. cbn.
    symmetry. apply app_nil_r.
  - unfold bind, logger. cbv beta iota.
    apply (for_each_invariant (AWSNetworkBuilder._apply_security_group aws)
             (tracked config)).
    + intros a w0 _. apply _apply_security_group_tracked.
    + eapply (tracked_grow w); [reflexivity| |exact T]. cbn. symmetry.
      apply app_nil_r.
Qed.

Lemma _export_state_tracked w :
  tracked config w ->
  tracked config (snd (AWSNetworkBuilder._export_state aws config w)).
Proof.
  intros T. pose proof (_export_state_runs aws config w) as H.
  destruct (AWSNetworkBuilder._export_state aws config w) as [[[]|e] w']; cbn.
  - destruct H as (Ht & Hs & _). eapply tracked_grow; eauto.
  - destruct H as (_ & Hs & new & Ht & _). eapply tracked_grow; eauto.
Qed.

End Tracking.

Arguments AWSNetworkBuilder._create_vpc : simpl never.
Arguments AWSNetworkBuilder._create_internet_gateway : simpl never.
Arguments AWSNetworkBuilder._create_route_tables : simpl never.
Arguments AWSNetworkBuilder._create_subnets : simpl never.
Arguments AWSNetworkBuilder._create_nat_gateway : simpl never.
Arguments AWSNetworkBuilder._apply_security_groups : simpl never.
Arguments AWSNetworkBuilder._export_state : simpl never.
Arguments route_tables_events : simpl never.
Arguments subnets_events : simpl never.
Arguments groups_events : simpl never.
Arguments record_subnets : simpl never.
Arguments record_groups : simpl never.
Arguments AWSNetworkBuilder.state_file_of : simpl never.
Arguments nat_subnet_of : simpl never.

Section Deployment.
Variable ipv4_network : string -> bool.
Variable aws : Provider.
Variable config : Config.

Lemma fits_default :
  exists (subnet_ids : list string) groups,
    List.length subnet_ids = List.length (subnets config)
    /\ Forall2 rules_tolerated (get_default (security_groups config) []) groups.
Proof.
  exists (map (fun _ => "") (subnets config)).
  destruct (good_defaults rules_tolerated rules_tolerated_default
              (get_default (security_groups config) [])) as [groups Hg].
  exists groups. split; [apply length_map|exact Hg].
Qed.

(** What a deployment (not a dry run) does, from the state of a new
    builder. *)
Lemma deploy_runs ts w :
  st w = init_state ts ->
  match AWSNetworkBuilder.deploy ipv4_network aws config false w with
  | (Ok true, w') =>
      (tracked config w -> tracked config w') /\
      exists ids,
        fits config ids
        /\ trace w' = trace w ++ deploy_events config ids
        /\ st w' = deployed_state config ids ts
        /\ files w' = dict_set (AWSNetworkBuilder.state_file_of (vpc_name config))
                               (st w') (files w)
  | (Ok false, w') =>
      files w' = files w /\
      (tracked config w -> tracked config w') /\
      exists ids e new,
        fits config ids
        /\ trace w' = trace w ++ new
        /\ interrupted e new (deploy_events config ids)
  | (Raise _, _) => False
  end.
Proof.
  intros Hinit.
  destruct fits_default as (dsub & dgrp & Hdsub & Hdgrp).
  unfold AWSNetworkBuilder.deploy. unfold_monad.
  (* 1 *)
  match goal with |- context [AWSNetworkBuilder._create_vpc aws config ?w0] =>
    pose proof (_create_vpc_tracked aws config w0) as K1;
    pose proof (_create_vpc_runs aws config w0) as H1;
    destruct (AWSNetworkBuilder._create_vpc aws config w0) as [[[]|e] w1]
  end; cbn in H1, K1 |- *.
  2: { destruct H1 as (Hf & Hs & new & vpc & Ht & Hint).
       split; [exact Hf|].
       split; [intros T; apply K1, T|].
       exists (mkIds vpc "" "" "" dsub "" "" "" dgrp), e, new.
       split; [split; assumption|]. split; [exact Ht|].
       unfold deploy_events. cbn [id_vpc]. apply interrupted_app_l, Hint. }
  destruct H1 as (Hf1 & vpc & Ht1 & Hs1). rewrite Hinit in Hs1.
  (* 2 *)
  match goal with |- context [AWSNetworkBuilder._create_internet_gateway aws config ?w0] =>
    pose proof (_create_internet_gateway_tracked aws config w0) as K2;
    pose proof (_create_internet_gateway_runs aws config w0) as H2;
    destruct (AWSNetworkBuilder._create_internet_gateway aws config w0) as [[[]|e] w2]
  end; cbn in H2, K2 |- *.
  2: { destruct H2 as (Hf & Hs & new & igw & Ht & Hint).
       split; [congruence|].
       split; [intros T; apply K2, K1, T|].
       eexists (mkIds vpc igw "" "" dsub "" "" "" dgrp), e, _.
       split; [split; assumption|]. rewrite Ht, Ht1, <- app_assoc.
       split; [reflexivity|].
       unfold deploy_events. cbn [id_vpc id_igw]. rewrite Hs1 in Hint.
       apply interrupted_app_r, interrupted_app_l, Hint. }
  destruct H2 as (Hf2 & igw & Ht2 & Hs2). rewrite Hs1 in Ht2, Hs2. cbn in Ht2.
  (* 3 *)
  match goal with |- context [AWSNetworkBuilder._create_route_tables aws config ?w0] =>
    pose proof (_create_route_tables_tracked aws config w0) as K3;
    pose proof (_create_route_tables_runs aws config w0 igw) as H3;
    destruct (AWSNetworkBuilder._create_route_tables aws config w0) as [[[]|e] w3]
  end; cbn in H3, K3 |- *; rewrite Hs2 in H3; specialize (H3 eq_refl); cbn in H3.
  2: { destruct H3 as (Hf & new & pub & priv & Ht & Hint).
       split; [congruence|].
       split; [intros T; apply K3, K2, K1, T|].
       eexists (mkIds vpc igw pub priv dsub "" "" "" dgrp), e, _.
       split; [split; assumption|]. rewrite Ht, Ht2, Ht1, <- !app_assoc.
       split; [reflexivity|].
       unfold deploy_events. cbn [id_vpc id_igw id_public_rt id_private_rt].
       do 2 apply interrupted_app_r. apply interrupted_app_l, Hint. }
  destruct H3 as (Hf3 & pub & priv & Ht3 & Hs3).
  (* 4 *)
  match goal with |- context [AWSNetworkBuilder._create_subnets aws config ?w0] =>
    pose proof (_create_subnets_tracked aws config w0) as K4;
    pose proof (_create_subnets_runs aws config w0) as H4;
    destruct (AWSNetworkBuilder._create_subnets aws config w0) as [[[]|e] w4]
  end; cbn in H4, K4 |- *; rewrite Hs3 in H4; cbn in H4.
  2: { destruct H4 as (Hf & new & subs & Hl & Ht & Hint).
       split; [congruence|].
       split; [intros T; apply K4, K3, K2, K1, T|].
       eexists (mkIds vpc igw pub priv subs "" "" "" dgrp), e, _.
       split; [split; assumption|]. rewrite Ht, Ht3, Ht2, Ht1, <- !app_assoc.
       split; [reflexivity|].
       unfold deploy_events, created_subnets, planned_route_tables.
       cbn [id_vpc id_igw id_public_rt id_private_rt id_subnets].
       do 3 apply interrupted_app_r. apply interrupted_app_l, Hint. }
  destruct H4 as (Hf4 & subs & Hl4 & Ht4 & Hs4).
  assert (Hsub4 : state_subnets (st w4)
                  = subnets_after (combine (subnets config) subs) [])
    by (rewrite Hs4; reflexivity).
  assert (Hvpc4 : vpc_id (st w4) = Some vpc) by (rewrite Hs4; reflexivity).
  (* 5 *)
  match goal with |- context [AWSNetworkBuilder._create_nat_gateway aws config ?w0] =>
    pose proof (_create_nat_gateway_tracked aws config w0 priv) as K5;
    pose proof (_create_nat_gateway_runs aws config w0 priv) as H5;
    destruct (AWSNetworkBuilder._create_nat_gateway aws config w0) as [[[]|e] w5]
  end; cbn in H5, K5 |- *; rewrite Hsub4 in H5;
  (lapply H5; [clear H5; intros H5 | rewrite Hs4; reflexivity]);
  (lapply K5; [clear K5; intros K5 | rewrite Hs4; reflexivity]).
  2: { destruct H5 as (Hf & Hs & subnet & new & allocation & eip & nat & Hn & Ht & Hint).
       split; [congruence|].
       split; [intros T; apply K5, K4, K3, K2, K1, T|].
       eexists (mkIds vpc igw pub priv subs allocation eip nat dgrp), e, _.
       split; [split; assumption|]. rewrite Ht, Ht4, Ht3, Ht2, Ht1, <- !app_assoc.
       split; [reflexivity|].
       unfold deploy_events, nat_step_events, nat_subnet, planned_subnets,
         created_subnets, planned_route_tables.
       cbn [id_vpc id_igw id_public_rt id_private_rt id_subnets id_allocation
            id_eip id_nat].
       rewrite Hn.
       do 4 apply interrupted_app_r. apply interrupted_app_l, Hint. }
  destruct H5 as (Hf5 & H5).
  assert (H5' : exists allocation eip nat,
            trace w5 = trace w4
              ++ nat_step_events config
                   (mkIds vpc igw pub priv subs allocation eip nat dgrp)
            /\ st w5 = mkState (Some vpc)
                         (subnets_after (combine (subnets config) subs) []) []
                         [("public", pub); ("private", priv)]
                         (planned_gateways config
                            (mkIds vpc igw pub priv subs allocation eip nat dgrp))
                         ts).
  { unfold nat_step_events, planned_gateways, nat_subnet, planned_subnets,
      created_subnets.
    cbn [id_vpc id_igw id_public_rt id_private_rt id_subnets id_allocation
         id_eip id_nat].
    destruct (nat_subnet_of config (subnets_after (combine (subnets config) subs) [])).
    - destruct H5 as (allocation & eip & nat & Ht & Hs).
      exists allocation, eip, nat. split; [exact Ht|].
      rewrite Hs, Hs4. reflexivity.
    - destruct H5 as (Ht & Hs). exists "", "", "". rewrite app_nil_r.
      split; [exact Ht|]. rewrite Hs, Hs4. reflexivity. }
  clear H5. destruct H5' as (allocation & eip & nat & Ht5 & Hs5).
  (* 6 *)
  match goal with |- context [AWSNetworkBuilder._apply_security_groups aws config ?w0] =>
    pose proof (_apply_security_groups_tracked aws config w0) as K6;
    pose proof (_apply_security_groups_runs aws config w0) as H6;
    destruct (AWSNetworkBuilder._apply_security_groups aws config w0) as [[[]|e] w6]
  end; cbn in H6, K6 |- *; rewrite Hs5 in H6; cbn in H6.
  2: { destruct H6 as (Hf & new & groups & Hg & Ht & Hint).
       split; [congruence|].
       split; [intros T; apply K6, K5, K4, K3, K2, K1, T|].
       eexists (mkIds vpc igw pub priv subs allocation eip nat groups), e, _.
       split; [split; assumption|].
       rewrite Ht, Ht5, Ht4, Ht3, Ht2, Ht1, <- !app_assoc.
       split; [reflexivity|].
       unfold deploy_events, created_groups.
       do 5 apply interrupted_app_r. apply interrupted_app_l, Hint. }
  destruct H6 as (Hf6 & groups & Hg & Ht6 & Hs6).
  (* 7 *)
  match goal with |- context [AWSNetworkBuilder._export_state aws config ?w0] =>
    pose proof (_export_state_tracked aws config w0) as K7;
    pose proof (_export_state_runs aws config w0) as H7;
    destruct (AWSNetworkBuilder._export_state aws config w0) as [[[]|e] w7]
  end; cbn in H7, K7 |- *.
  2: { destruct H7 as (Hf & Hs & new & Ht & Hint).
       split; [congruence|].
       split; [intros T; apply K7, K6, K5, K4, K3, K2, K1, T|].
       eexists (mkIds vpc igw pub priv subs allocation eip nat groups), e, _.
       split; [split; assumption|].
       rewrite Ht, Ht6, Ht5, Ht4, Ht3, Ht2, Ht1, <- !app_assoc.
       split; [reflexivity|].
       unfold deploy_events, created_groups.
       do 6 apply interrupted_app_r. exact Hint. }
  destruct H7 as (Ht7 & Hs7 & Hf7).
  split; [intros T; apply K7, K6, K5, K4, K3, K2, K1, T|].
  exists (mkIds vpc igw pub priv subs allocation eip nat groups).
  split; [split; assumption|].
  split; [rewrite Ht7, Ht6, Ht5, Ht4, Ht3, Ht2, Ht1, <- !app_assoc; reflexivity|].
  split; [rewrite Hs7, Hs6; reflexivity|].
  rewrite Hf7, Hs7. congruence.
Qed.
End Deployment.

Arguments nat_gateway_deletion_events : simpl never.
Arguments igw_detach_delete_events : simpl never.
Arguments AWSNetworkBuilder._delete_nat_gateways : simpl never.
Arguments AWSNetworkBuilder._delete_internet_gateways : simpl never.
Arguments AWSNetworkBuilder._delete_subnets : simpl never.
Arguments AWSNetworkBuilder._delete_route_tables : simpl never.
Arguments AWSNetworkBuilder._delete_security_groups : simpl never.
Arguments AWSNetworkBuilder._delete_vpc : simpl never.
Arguments nat_deletion_events : simpl never.
Arguments igw_deletion_events : simpl never.
Arguments subnet_deletion_events : simpl never.
Arguments route_table_deletion_events : simpl never.
Arguments group_deletion_events : simpl never.
Arguments vpc_deletion_events : simpl never.

Section Teardown.
Variable aws : Provider.

Ltac ask :=
  match goal with
  | |- context [aws ?h ?c] =>
      let E := fresh "E" in
      destruct (aws h c) as [[]|] eqn:E; cbn
  end.

Ltac trace_eq := rewrite <- ?app_assoc; simpl; reflexivity.

Ltac stopped :=
  repeat first [ apply interrupted_here | apply interrupted_later ].

Ltac performed :=
  repeat split; try reflexivity;
  first [ eexists; split; [reflexivity | trace_eq]
        | eexists; eexists; split; [trace_eq | solve [stopped]] ].

Lemma delete_subnet_performs subnet :
  performs (VPCManager.delete_subnet aws subnet)
           (fun _ : unit => [ok (DeleteSubnet subnet)]) id.
Proof.
  intro w. unfold VPCManager.delete_subnet, ok.
  unfold_monad; repeat ask; performed.
  Unshelve. all: exact tt.
Qed.

Lemma delete_route_table_performs rt :
  performs (VPCManager.delete_route_table aws rt)
           (fun _ : unit => [ok (DeleteRouteTable rt)]) id.
Proof.
  intro w. unfold VPCManager.delete_route_table, ok.
  unfold_monad; repeat ask; performed.
  Unshelve. all: exact tt.
Qed.

Lemma delete_security_group_performs sg :
  performs (SecurityManager.delete_security_group aws sg)
           (fun _ : unit => [ok (DeleteSecurityGroup sg)]) id.
Proof.
  intro w. unfold SecurityManager.delete_security_group, ok.
  unfold_monad; repeat ask; performed.
  Unshelve. all: exact tt.
Qed.

Lemma delete_vpc_performs vpc :
  performs (VPCManager.delete_vpc aws vpc)
           (fun _ : unit => [ok (DeleteVpc vpc)]) id.
Proof.
  intro w. unfold VPCManager.delete_vpc, ok.
  unfold_monad; repeat ask; performed.
  Unshelve. all: exact tt.
Qed.

Lemma delete_internet_gateway_performs igw vpc :
  performs (GatewayManager.delete_internet_gateway aws igw vpc)
           (fun _ : unit => igw_detach_delete_events igw vpc) id.
Proof.
  intro w. unfold GatewayManager.delete_internet_gateway, igw_detach_delete_events, ok.
  unfold_monad; repeat ask; performed.
  Unshelve. all: exact tt.
Qed.

Lemma delete_nat_gateway_runs nat w :
  match GatewayManager.delete_nat_gateway aws nat w with
  | (Ok _, w') =>
      st w' = st w /\ files w' = files w /\
      exists response release,
        release_tolerated release = true
        /\ trace w' = trace w ++ nat_gateway_deletion_events nat response release
  | (Raise e, w') =>
      st w' = st w /\ files w' = files w /\
      exists new response release,
        release_tolerated release = true
        /\ trace w' = trace w ++ new
        /\ interrupted e new (nat_gateway_deletion_events nat response release)
  end.
Proof.
  unfold GatewayManager.delete_nat_gateway, nat_gateway_deletion_events, ok.
  unfold_monad.
  destruct (aws (trace w) (DescribeNatGateways nat)) as [[]|response] eqn:E; cbn.
  1-4: repeat split; try reflexivity;
       eexists _, [], (Returned VUnit);
       split; [reflexivity|split; [reflexivity|]];
       apply interrupted_here.
  destruct (aws _ (DeleteNatGateway nat)) as [[]|[]] eqn:E2; cbn.
  1-4: repeat split; try reflexivity;
       eexists _, response, (Returned VUnit);
       split; [reflexivity|split; [trace_eq|]];
       apply interrupted_later, interrupted_here.
  destruct (GatewayManager.allocation_of response) as [a|] eqn:Ea; cbn.
  2: { repeat split; try reflexivity. exists response, (Returned VUnit).
       rewrite Ea. split; [reflexivity|trace_eq]. }
  destruct (truthy a) eqn:Et; cbn.
  2: { repeat split; try reflexivity. exists response, (Returned VUnit).
       rewrite Ea, Et. split; [reflexivity|trace_eq]. }
  destruct (aws _ (ReleaseAddress a)) as [[]|[]] eqn:E3; cbn.
  all: repeat split; try reflexivity.
  all: first [ eexists response, _; rewrite Ea, Et; split; [|trace_eq]; reflexivity
             | eexists _, response, (Returned VUnit); rewrite Ea, Et;
               split; [reflexivity|split; [trace_eq|]];
               do 2 apply interrupted_later; apply interrupted_here ].
Qed.

Lemma performs_logged {A I} lvl msg (m : M A) (plan : I -> list Event) result :
  performs m plan result -> performs (logger lvl msg ;; m) plan result.
Proof.
  intros H w. unfold bind, logger. cbv beta iota.
  match goal with |- context [m ?w0] => specialize (H w0) end.
  destruct (m _) as [[a|e] w']; exact H.
Qed.

Lemma for_each_performs {A} (body : A -> M unit) (plan : A -> list Event) xs :
  (forall a, performs (body a) (fun _ : unit => plan a) id) ->
  performs (for_each body xs) (fun _ : unit => flat_map plan xs) id.
Proof.
  intros Hbody. induction xs as [|x xs IH]; intros w; simpl.
  - split; [reflexivity|]. split; [reflexivity|].
    exists tt. rewrite app_nil_r. split; reflexivity.
  - unfold bind. specialize (Hbody x w).
    destruct (body x w) as [[[]|e] w1].
    + destruct Hbody as (Hs & Hf & _ & _ & Ht).
      specialize (IH w1). destruct (for_each body xs w1) as [[[]|e] w2].
      * destruct IH as (Hs2 & Hf2 & _ & _ & Ht2).
        split; [congruence|]. split; [congruence|]. exists tt. split; [reflexivity|].
        rewrite Ht2, Ht, <- app_assoc. reflexivity.
      * destruct IH as (Hs2 & Hf2 & new & _ & Ht2 & Hint).
        split; [congruence|]. split; [congruence|]. eexists _, tt.
        rewrite Ht2, Ht, <- app_assoc. split; [reflexivity|].
        apply interrupted_app_r, Hint.
    + destruct Hbody as (Hs & Hf & new & _ & Ht & Hint).
      split; [congruence|]. split; [congruence|]. exists new, tt. split; [exact Ht|].
      apply interrupted_app_l, Hint.
Qed.

Variable state : DeployState.

Lemma _delete_nat_gateways_runs w :
  match AWSNetworkBuilder._delete_nat_gateways aws state w with
  | (Ok _, w') =>
      st w' = st w /\ files w' = files w /\
      exists response release,
        release_tolerated release = true
        /\ trace w' = trace w ++ nat_deletion_events state response release
  | (Raise e, w') =>
      st w' = st w /\ files w' = files w /\
      exists new response release,
        release_tolerated release = true
        /\ trace w' = trace w ++ new
        /\ interrupted e new (nat_deletion_events state response release)
  end.
Proof.
  unfold AWSNetworkBuilder._delete_nat_gateways, nat_deletion_events.
  destruct (nat_gateway_data (gateways state)) as [nat|].
  - unfold bind, logger. cbv beta iota.
    match goal with |- context [GatewayManager.delete_nat_gateway aws ?n ?w0] =>
      pose proof (delete_nat_gateway_runs n w0) as H;
      destruct (GatewayManager.delete_nat_gateway aws n w0) as [[[]|e] w']
    end; exact H.
  - cbn. split; [reflexivity|]. split; [reflexivity|].
    exists [], (Returned VUnit).
    split; [reflexivity|]. rewrite app_nil_r. reflexivity.
Qed.

Lemma performs_nothing :
  performs (ret tt) (fun _ : unit => @nil Event) id.
Proof.
  intros w. cbn. split; [reflexivity|]. split; [reflexivity|].
  exists tt. rewrite app_nil_r. split; reflexivity.
Qed.

Lemma _delete_internet_gateways_performs :
  performs (AWSNetworkBuilder._delete_internet_gateways aws state)
           (fun _ : unit => igw_deletion_events state) id.
Proof.
  unfold AWSNetworkBuilder._delete_internet_gateways, igw_deletion_events.
  destruct (internet_gateway (gateways state)) as [igw|].
  - apply performs_logged, delete_internet_gateway_performs.
  - apply performs_nothing.
Qed.

Lemma _delete_subnets_performs :
  performs (AWSNetworkBuilder._delete_subnets aws state)
           (fun _ : unit => subnet_deletion_events state) id.
Proof.
  unfold AWSNetworkBuilder._delete_subnets, subnet_deletion_events.
  rewrite <- flat_map_singleton.
  apply (for_each_performs _ (fun item => [ok (DeleteSubnet (sd_id (snd item)))])).
  intros item. apply performs_logged, delete_subnet_performs.
Qed.

Lemma _delete_route_tables_performs :
  performs (AWSNetworkBuilder._delete_route_tables aws state)
           (fun _ : unit => route_table_deletion_events state) id.
Proof.
  unfold AWSNetworkBuilder._delete_route_tables, route_table_deletion_events.
  rewrite <- flat_map_singleton.
  apply (for_each_performs _ (fun item : string * string =>
                                [ok (DeleteRouteTable (snd item))])).
  intros item. apply performs_logged, delete_route_table_performs.
Qed.

Lemma _delete_security_groups_performs :
  performs (AWSNetworkBuilder._delete_security_groups aws state)
           (fun _ : unit => group_deletion_events state) id.
Proof.
  unfold AWSNetworkBuilder._delete_security_groups, group_deletion_events.
  rewrite <- flat_map_singleton.
  apply (for_each_performs _ (fun item : string * string =>
                                [ok (DeleteSecurityGroup (snd item))])).
  intros item. apply performs_logged, delete_security_group_performs.
Qed.

Lemma _delete_vpc_performs :
  performs (AWSNetworkBuilder._delete_vpc aws state)
           (fun _ : unit => vpc_deletion_events state) id.
Proof.
  unfold AWSNetworkBuilder._delete_vpc, vpc_deletion_events.
  destruct (vpc_id state) as [vpc|]; [|apply performs_nothing].
  destruct (truthy vpc); cbn [when]; [|apply performs_nothing].
  apply performs_logged, delete_vpc_performs.
Qed.

(** What a teardown does with the state it loads. *)
Lemma teardown_runs state_file w :
  dict_get state_file (files w) = Some state ->
  match AWSNetworkBuilder.teardown aws state_file w with
  | (Ok true, w') =>
      st w' = st w /\ files w' = files w /\
      exists response release,
        release_tolerated release = true
        /\ trace w' = trace w ++ teardown_events state response release
  | (Ok false, w') =>
      st w' = st w /\ files w' = files w /\
      exists response release e new,
        release_tolerated release = true
        /\ trace w' = trace w ++ new
        /\ interrupted e new (teardown_events state response release)
  | (Raise _, _) => False
  end.
Proof.
  intros Hfile. unfold AWSNetworkBuilder.teardown, json_load, teardown_events.
  unfold_monad. rewrite Hfile. cbn.
  match goal with |- context [AWSNetworkBuilder._delete_nat_gateways aws state ?w0] =>
    pose proof (_delete_nat_gateways_runs w0) as H1;
    destruct (AWSNetworkBuilder._delete_nat_gateways aws state w0) as [[[]|e] w1]
  end; cbn in H1 |- *.
  2: { destruct H1 as (Hs & Hf & new & response & release & Hr & Ht & Hint).
       split; [exact Hs|]. split; [exact Hf|].
       exists response, release, e, new. split; [exact Hr|]. split; [exact Ht|].
       apply interrupted_app_l, Hint. }
  destruct H1 as (Hs1 & Hf1 & response & release & Hr & Ht1).
  call _delete_internet_gateways_performs as (Hs2 & Hf2 & H2).
  2: { destruct H2 as (new & _ & Ht & Hint).
       split; [congruence|]. split; [congruence|].
       eexists response, release, _, _. split; [exact Hr|].
       rewrite Ht, Ht1, <- !app_assoc. split; [reflexivity|].
       apply interrupted_app_r, interrupted_app_l, Hint. }
  destruct H2 as (_ & _ & Ht2).
  call _delete_subnets_performs as (Hs3 & Hf3 & H3).
  2: { destruct H3 as (new & _ & Ht & Hint).
       split; [congruence|]. split; [congruence|].
       eexists response, release, _, _. split; [exact Hr|].
       rewrite Ht, Ht2, Ht1, <- !app_assoc. split; [reflexivity|].
       do 2 apply interrupted_app_r. apply interrupted_app_l, Hint. }
  destruct H3 as (_ & _ & Ht3).
  call _delete_route_tables_performs as (Hs4 & Hf4 & H4).
  2: { destruct H4 as (new & _ & Ht & Hint).
       split; [congruence|]. split; [congruence|].
       eexists response, release, _, _. split; [exact Hr|].
       rewrite Ht, Ht3, Ht2, Ht1, <- !app_assoc. split; [reflexivity|].
       do 3 apply interrupted_app_r. apply interrupted_app_l, Hint. }
  destruct H4 as (_ & _ & Ht4).
  call _delete_security_groups_performs as (Hs5 & Hf5 & H5).
  2: { destruct H5 as (new & _ & Ht & Hint).
       split; [congruence|]. split; [congruence|].
       eexists response, release, _, _. split; [exact Hr|].
       rewrite Ht, Ht4, Ht3, Ht2, Ht1, <- !app_assoc. split; [reflexivity|].
       do 4 apply interrupted_app_r. apply interrupted_app_l, Hint. }
  destruct H5 as (_ & _ & Ht5).
  call _delete_vpc_performs as (Hs6 & Hf6 & H6).
  2: { destruct H6 as (new & _ & Ht & Hint).
       split; [congruence|]. split; [congruence|].
       eexists response, release, _, _. split; [exact Hr|].
       rewrite Ht, Ht5, Ht4, Ht3, Ht2, Ht1, <- !app_assoc. split; [reflexivity|].
       do 5 apply interrupted_app_r. exact Hint. }
  destruct H6 as (_ & _ & Ht6).
  split; [congruence|]. split; [congruence|].
  exists response, release. split; [exact Hr|].
  rewrite Ht6, Ht5, Ht4, Ht3, Ht2, Ht1, <- !app_assoc. reflexivity.
Qed.

End Teardown.

Lemma in_deletion_order_from_weaken least least' l :
  least' <= least ->
  in_deletion_order_from least l = true -> in_deletion_order_from least' l = true.
Proof.
  destruct l as [|c l]; simpl; [reflexivity|]. intros Hle.
  destruct (category_of c) as [k|]; [|discriminate].
  rewrite !andb_true_iff, !Nat.leb_le. intros [H1 H2]. split; [lia|exact H2].
Qed.

Lemma in_deletion_order_from_app r least l1 l2 :
  all_of_rank r l1 -> least <= r ->
  in_deletion_order_from r l2 = true ->
  in_deletion_order_from least (l1 ++ l2) = true.
Proof.
  intros H. revert least. induction H as [|c l1 (k & Hk & Hr) _ IH]; intros least Hle H2.
  - simpl. eapply in_deletion_order_from_weaken; eauto.
  - simpl. rewrite Hk, Hr. rewrite andb_true_iff, Nat.leb_le. split; [exact Hle|].
    apply IH; [lia|exact H2].
Qed.

(** [rank] numbers the categories as [deletion_order] lists them. *)
Lemma rank_in_deletion_order k :
  nth_error deletion_order (rank k) = Some k.
Proof. destruct k; reflexivity. Qed.

Lemma in_deletion_order_from_prefix least l1 l2 :
  in_deletion_order_from least (l1 ++ l2) = true ->
  in_deletion_order_from least l1 = true.
Proof.
  revert least. induction l1 as [|c l1 IH]; intros least; simpl; [reflexivity|].
  destruct (category_of c) as [k|]; [|discriminate].
  rewrite !andb_true_iff. intros [H1 H2]. split; [exact H1|]. apply IH, H2.
Qed.

Lemma interrupted_calls e new plan :
  interrupted e new plan -> exists rest, calls plan = calls new ++ rest.
Proof.
  intros (done & c & o & rest & -> & ->). exists (calls rest).
  unfold calls. rewrite !map_app, <- app_assoc. reflexivity.
Qed.

Lemma all_of_rank_map {A} (f : A -> Call) r (l : list A) :
  (forall a, exists k, category_of (f a) = Some k /\ rank k = r) ->
  all_of_rank r (calls (map (fun a => ok (f a)) l)).
Proof.
  intros H. unfold all_of_rank, calls. rewrite map_map. cbn.
  induction l; constructor; auto.
Qed.

Lemma teardown_events_in_order state response release :
  in_deletion_order (calls (teardown_events state response release)) = true.
Proof.
  unfold teardown_events, in_deletion_order, calls. rewrite !map_app.
  apply (in_deletion_order_from_app 0); [|lia|].
  { unfold nat_deletion_events, nat_gateway_deletion_events.
    destruct (nat_gateway_data (gateways state)) as [nat|]; [|constructor].
    cbn. repeat constructor; try (eexists; split; reflexivity).
    destruct (GatewayManager.allocation_of response) as [a|]; [|constructor].
    destruct (truthy a); repeat constructor. eexists; split; reflexivity. }
  apply (in_deletion_order_from_app 1); [|lia|].
  { unfold igw_deletion_events, igw_detach_delete_events.
    destruct (internet_gateway (gateways state)); cbn;
      repeat constructor; eexists; split; reflexivity. }
  apply (in_deletion_order_from_app 2); [|lia|].
  { apply (all_of_rank_map (fun item : string * SubnetData => DeleteSubnet (sd_id (snd item)))).
    intros a. eexists; split; reflexivity. }
  apply (in_deletion_order_from_app 3); [|lia|].
  { apply (all_of_rank_map (fun item : string * string => DeleteRouteTable (snd item))).
    intros a. eexists; split; reflexivity. }
  apply (in_deletion_order_from_app 4); [|lia|].
  { apply (all_of_rank_map (fun item : string * string => DeleteSecurityGroup (snd item))).
    intros a. eexists; split; reflexivity. }
  match goal with |- in_deletion_order_from _ ?l = true =>
    rewrite <- (app_nil_r l)
  end.
  apply (in_deletion_order_from_app 5); [|lia|reflexivity].
  unfold vpc_deletion_events. destruct (vpc_id state) as [v|]; [|constructor].
  destruct (truthy v); repeat constructor. eexists; split; reflexivity.
Qed.

(** C3.  Every teardown of a loaded state deletes by category in the fixed
    order NAT gateway, internet gateway, subnets, route tables, security
    groups, network: when it succeeds, its calls are exactly those of
    [teardown_events], category after category; when a call fails, the run
    stops at that call and no call of the rest of the plan, so none of any
    later category, is made; in both cases no call on an earlier category
    follows one on a later category. *)
Theorem teardown_deletes_in_fixed_order
    (aws : Provider) (state_file : string) (state : DeployState) (w : World) :
  dict_get state_file (files w) = Some state ->
  exists response release new,
    trace (snd (AWSNetworkBuilder.teardown aws state_file w)) = trace w ++ new
    /\ in_deletion_order (calls new) = true
    /\ ((fst (AWSNetworkBuilder.teardown aws state_file w) = Ok true
         /\ new = teardown_events state response release)
        \/ (fst (AWSNetworkBuilder.teardown aws state_file w) = Ok false
            /\ exists e, interrupted e new
                           (teardown_events state response release))).
Proof.
  intros Hfile. pose proof (teardown_runs aws state state_file w Hfile) as H.
  destruct (AWSNetworkBuilder.teardown aws state_file w) as [[[|]|e] w']; cbn;
    [| |contradiction].
  - destruct H as (_ & _ & response & release & _ & Ht).
    exists response, release, (teardown_events state response release).
    split; [exact Ht|]. split; [apply teardown_events_in_order|].
    left. split; reflexivity.
  - destruct H as (_ & _ & response & release & e & new & _ & Ht & Hint).
    exists response, release, new. split; [exact Ht|]. split.
    + destruct (interrupted_calls _ _ _ Hint) as [rest Hrest].
      pose proof (teardown_events_in_order state response release) as Ho.
      unfold in_deletion_order in *. rewrite Hrest in Ho.
      eapply in_deletion_order_from_prefix, Ho.
    + right. split; [reflexivity|]. exists e. exact Hint.
Qed.

Lemma find_public_subnet_first items :
  match AWSNetworkBuilder.find_public_subnet items with
  | Some subnet => first_public_subnet items subnet
  | None => ~ has_public_subnet items
  end.
Proof.
  induction items as [|[n d] items IH]; simpl.
  - intros (name & data & [] & _).
  - destruct (String.eqb (sd_type d) "public") eqn:E.
    + apply String.eqb_eq in E. exists [], n, d, items.
      repeat split; auto.
    + apply String.eqb_neq in E.
      destruct (AWSNetworkBuilder.find_public_subnet items) as [s|].
      * destruct IH as (before & name & data & after & -> & H1 & H2 & H3).
        exists ((n, d) :: before), name, data, after. repeat split; auto.
        intros n' d' [[= <- <-]|Hin]; [exact E|eapply H3, Hin].
      * intros (name & data & [[= <- <-]|Hin] & Hp); [contradiction|].
        apply IH. exists name, data. auto.
Qed.

Lemma first_public_has items subnet :
  first_public_subnet items subnet -> has_public_subnet items.
Proof.
  intros (before & name & data & after & -> & H1 & _). exists name, data.
  split; [|exact H1]. apply in_or_app. right. left. reflexivity.
Qed.

Lemma interrupted_head e new c o plan :
  interrupted e new ((c, o) :: plan) -> exists o' rest, new = (c, o') :: rest.
Proof.
  intros (done & c' & o' & rest & Hp & ->).
  destruct done as [|ev done]; simpl in *.
  - inversion Hp; subst. eauto.
  - inversion Hp; subst. eauto.
Qed.

Lemma interrupted_in_calls e new plan c :
  interrupted e new plan -> In c (calls new) -> In c (calls plan).
Proof.
  intros H Hin. destruct (interrupted_calls _ _ _ H) as [rest ->].
  apply in_or_app. left. exact Hin.
Qed.

Lemma truthy_nonempty s : s <> "" -> truthy s = true.
Proof. destruct s; [congruence|reflexivity]. Qed.

(** In a state whose subnets have identifiers, the NAT step calls the
    provider for an address, the first call of the creation of a NAT
    gateway, if and only if NAT is enabled in the configuration and the
    state has a subnet of tier public; a NAT gateway is only ever requested
    in the first public subnet of the state; when NAT is enabled and there
    is no public subnet the step returns after a warning, without any
    call. *)
Lemma nat_step_attempt (aws : Provider) (config : Config) (w : World) :
  (forall name data, In (name, data) (state_subnets (st w)) -> sd_id data <> "") ->
  exists new,
    trace (snd (AWSNetworkBuilder._create_nat_gateway aws config w)) = trace w ++ new
    /\ (In AllocateAddress (calls new)
        <-> nat_is_enabled config = true
            /\ has_public_subnet (state_subnets (st w)))
    /\ (forall subnet allocation,
          In (CreateNatGateway subnet allocation) (calls new) ->
          first_public_subnet (state_subnets (st w)) subnet)
    /\ (nat_is_enabled config = true ->
        ~ has_public_subnet (state_subnets (st w)) ->
        fst (AWSNetworkBuilder._create_nat_gateway aws config w) = Ok tt
        /\ new = []
        /\ st (snd (AWSNetworkBuilder._create_nat_gateway aws config w)) = st w
        /\ log (snd (AWSNetworkBuilder._create_nat_gateway aws config w))
           = log w ++ [(INFO, "Creating NAT Gateway...");
                       (WARNING, "⚠️ No public subnet found for NAT Gateway")]).
Proof.
  intros Hids.
  unfold AWSNetworkBuilder._create_nat_gateway.
  change (get_default (nat_enabled (get_default (nat_gateway config) (mkNatConfig None)))
                      false) with (nat_is_enabled config).
  destruct (nat_is_enabled config) eqn:En; unfold_monad.
  2: { exists []. rewrite app_nil_r. split; [reflexivity|].
       split; [split; [intros []|intros [? _]; discriminate]|].
       split; [intros ? ? []|discriminate]. }
  pose proof (find_public_subnet_first (state_subnets (st w))) as Hfind.
  destruct (AWSNetworkBuilder.find_public_subnet (state_subnets (st w)))
    as [subnet|]; cbn.
  2: { exists []. rewrite app_nil_r. split; [reflexivity|].
       split; [split; [intros []|intros [_ ?]; contradiction]|].
       split; [intros ? ? []|]. intros _ _. rewrite <- app_assoc. auto. }
  assert (Hsub : truthy subnet = true).
  { destruct Hfind as (before & name & data & after & Hi & _ & <- & _).
    apply truthy_nonempty, (Hids name). rewrite Hi.
    apply in_or_app. right. left. reflexivity. }
  rewrite Hsub. cbn.
  assert (Hnat : forall allocation eip nat s a,
            In (CreateNatGateway s a)
               (calls (nat_creation_events subnet (vpc_name config ++ "-nat")
                                           allocation eip nat)) ->
            s = subnet).
  { intros allocation eip nat s a. cbn.
    intros [H|[H|[H|[H|[]]]]]; inversion H; reflexivity. }
  match goal with |- context [GatewayManager.create_nat_gateway aws ?a ?b ?w0] =>
    pose proof (create_nat_gateway_runs aws a b w0) as H;
    destruct (GatewayManager.create_nat_gateway aws a b w0) as [[[nat eip]|e] w1]
  end; cbn in H |- *; destruct H as (Hs & Hf & H).
  - destruct H as (allocation & Ht).
    assert (Hgoal : forall w2 more,
              trace w2 = trace w1 ++ more ->
              (forall s a, In (CreateNatGateway s a) (calls more) -> False) ->
              exists new,
                trace w2 = trace w ++ new
                /\ (In AllocateAddress (calls new)
                    <-> true = true /\ has_public_subnet (state_subnets (st w)))
                /\ (forall s a, In (CreateNatGateway s a) (calls new) ->
                                first_public_subnet (state_subnets (st w)) s)).
    { intros w2 more Ht2 Hmore. eexists. rewrite Ht2, Ht, <- app_assoc.
      split; [reflexivity|]. split.
      - split; [intros _; split; [reflexivity|eapply first_public_has, Hfind]|].
        intros _. cbn. left. reflexivity.
      - intros s a Hin. unfold calls in Hin. rewrite map_app in Hin.
        apply in_app_or in Hin. destruct Hin as [Hin|Hin].
        + rewrite (Hnat _ _ _ _ _ Hin). exact Hfind.
        + exfalso. eapply Hmore, Hin. }
    destruct (dict_get "private" (route_tables (st w1))) as [private_rt|]; cbn.
    + call (add_route_performs aws _ _ _ _) as (Hs2 & Hf2 & H2).
      * destruct H2 as (_ & _ & Ht2).
        destruct (Hgoal _ _ Ht2) as (new & H1 & H3 & H4).
        { cbn. intros s al [H|[]]. discriminate. }
        exists new. split; [exact H1|]. split; [exact H3|]. split; [exact H4|].
        intros _ Hno. exfalso. eapply Hno, first_public_has, Hfind.
      * destruct H2 as (new2 & _ & Ht2 & Hint).
        destruct (Hgoal _ _ Ht2) as (new & H1 & H3 & H4).
        { intros s al Hin. apply (interrupted_in_calls _ _ _ _ Hint) in Hin.
          cbn in Hin. destruct Hin as [H|[]]. discriminate. }
        exists new. split; [exact H1|]. split; [exact H3|]. split; [exact H4|].
        intros _ Hno. exfalso. eapply Hno, first_public_has, Hfind.
    + destruct (Hgoal w1 []) as (new & H1 & H3 & H4).
      { symmetry. apply app_nil_r. }
      { intros ? ? []. }
      exists new. split; [exact H1|]. split; [exact H3|]. split; [exact H4|].
        intros _ Hno. exfalso. eapply Hno, first_public_has, Hfind.
  - destruct H as (new & allocation & eip & nat & Ht & Hint).
    exists new. split; [exact Ht|]. split; [split|split].
    + intros _. split; [reflexivity|eapply first_public_has, Hfind].
    + intros _. destruct (interrupted_head _ _ _ _ _ Hint) as (o' & rest & ->).
      left. reflexivity.
    + intros s a Hin. apply (interrupted_in_calls _ _ _ _ Hint) in Hin.
      rewrite (Hnat _ _ _ _ _ Hin). exact Hfind.
    + intros _ Hno. exfalso. eapply Hno, first_public_has, Hfind.
Qed.

(** With NAT enabled and a public subnet in the state, the NAT step makes
    the calls of the creation of a NAT gateway in the first public subnet,
    in their order, and then the default route of the private route table,
    up to the first call that fails. *)
Lemma nat_step_follows_plan (aws : Provider) (config : Config) (w : World) :
  (forall name data, In (name, data) (state_subnets (st w)) -> sd_id data <> "") ->
  nat_is_enabled config = true ->
  has_public_subnet (state_subnets (st w)) ->
  let run := AWSNetworkBuilder._create_nat_gateway aws config w in
  exists subnet allocation eip nat new,
    first_public_subnet (state_subnets (st w)) subnet
    /\ trace (snd run) = trace w ++ new
    /\ match dict_get "private" (route_tables (st w)) with
       | Some private_rt =>
           (fst run = Ok tt
            /\ new = nat_events subnet (vpc_name config ++ "-nat") private_rt
                       allocation eip nat)
           \/ (exists e,
                 fst run = Raise e
                 /\ interrupted e new
                      (nat_events subnet (vpc_name config ++ "-nat") private_rt
                         allocation eip nat))
       | None =>
           (fst run = Raise (KeyError "private")
            /\ new = nat_creation_events subnet (vpc_name config ++ "-nat")
                       allocation eip nat)
           \/ (exists e,
                 fst run = Raise e
                 /\ interrupted e new
                      (nat_creation_events subnet (vpc_name config ++ "-nat")
                         allocation eip nat))
       end.
Proof.
  intros Hids En Hpub. cbv zeta.
  unfold AWSNetworkBuilder._create_nat_gateway, AWSNetworkBuilder.subscript.
  change (get_default (nat_enabled (get_default (nat_gateway config) (mkNatConfig None)))
                      false) with (nat_is_enabled config).
  rewrite En. unfold_monad.
  pose proof (find_public_subnet_first (state_subnets (st w))) as Hfind.
  destruct (AWSNetworkBuilder.find_public_subnet (state_subnets (st w)))
    as [subnet|]; [|contradiction].
  assert (Hsub : truthy subnet = true).
  { destruct Hfind as (before & name & data & after & Hi & _ & <- & _).
    apply truthy_nonempty, (Hids name). rewrite Hi.
    apply in_or_app. right. left. reflexivity. }
  cbn. rewrite Hsub. cbn.
  match goal with |- context [GatewayManager.create_nat_gateway aws ?a ?b ?w0] =>
    pose proof (create_nat_gateway_runs aws a b w0) as H;
    destruct (GatewayManager.create_nat_gateway aws a b w0) as [[[nat eip]|e] w1]
  end; cbn in H |- *; destruct H as (Hs & Hf & H).
  - destruct H as (allocation & Ht). rewrite Hs.
    destruct (dict_get "private" (route_tables (st w))) as [private_rt|]; cbn.
    + call (add_route_performs aws _ _ _ _) as (Hs2 & Hf2 & H2).
      * destruct H2 as (_ & _ & Ht2).
        exists subnet, allocation, eip, nat. eexists.
        split; [exact Hfind|]. rewrite Ht2, Ht, route_to_nat, <- app_assoc.
        split; [reflexivity|]. left. split; reflexivity.
      * destruct H2 as (new & _ & Ht2 & Hint).
        exists subnet, allocation, eip, nat. eexists.
        split; [exact Hfind|]. rewrite Ht2, Ht, <- app_assoc.
        split; [reflexivity|]. right. eexists. split; [reflexivity|].
        rewrite route_to_nat in Hint. apply interrupted_app_r, Hint.
    + exists subnet, allocation, eip, nat. eexists.
      split; [exact Hfind|]. split; [exact Ht|]. left. split; reflexivity.
  - destruct H as (new & allocation & eip & nat & Ht & Hint).
    exists subnet, allocation, eip, nat, new.
    split; [exact Hfind|]. split; [exact Ht|].
    destruct (dict_get "private" (route_tables (st w))) as [private_rt|].
    + right. exists e. split; [reflexivity|]. apply interrupted_app_l, Hint.
    + right. exists e. split; [reflexivity|exact Hint].
Qed.

(** C4.  In a state whose subnets have identifiers, the NAT step attempts
    the creation of a NAT gateway (it calls the provider for an address,
    the first call of the creation) if and only if NAT is enabled in the
    configuration and the state has a subnet of tier public.  The attempt
    is the creation of a NAT gateway in the first public subnet of the
    state, in insertion order: the address is allocated, the gateway is
    requested in that subnet with the allocated address, named and waited
    for, and the private route table gets its default route to it; the
    events of the step are these, all of them when it returns and up to the
    call that failed when it raises (without a private route table it
    raises [KeyError] after the creation).  A NAT gateway is never
    requested in another subnet.  When NAT is enabled and there is no
    public subnet the step returns after a warning, without any call: the
    private route table gets no default route. *)
Theorem nat_gateway_attempted_iff_enabled_and_public
    (aws : Provider) (config : Config) (w : World) :
  (forall name data, In (name, data) (state_subnets (st w)) -> sd_id data <> "") ->
  let run := AWSNetworkBuilder._create_nat_gateway aws config w in
  exists new,
    trace (snd run) = trace w ++ new
    /\ (In AllocateAddress (calls new)
        <-> nat_is_enabled config = true
            /\ has_public_subnet (state_subnets (st w)))
    /\ (forall subnet allocation,
          In (CreateNatGateway subnet allocation) (calls new) ->
          first_public_subnet (state_subnets (st w)) subnet)
    /\ (nat_is_enabled config = true ->
        ~ has_public_subnet (state_subnets (st w)) ->
        fst run = Ok tt
        /\ new = []
        /\ st (snd run) = st w
        /\ log (snd run)
           = log w ++ [(INFO, "Creating NAT Gateway...");
                       (WARNING, "⚠️ No public subnet found for NAT Gateway")])
    /\ (nat_is_enabled config = true ->
        has_public_subnet (state_subnets (st w)) ->
        exists subnet allocation eip nat,
          first_public_subnet (state_subnets (st w)) subnet
          /\ match dict_get "private" (route_tables (st w)) with
             | Some private_rt =>
                 (fst run = Ok tt
                  /\ new = nat_events subnet (vpc_name config ++ "-nat") private_rt
                             allocation eip nat)
                 \/ (exists e,
                       fst run = Raise e
                       /\ interrupted e new
                            (nat_events subnet (vpc_name config ++ "-nat") private_rt
                               allocation eip nat))
             | None =>
                 (fst run = Raise (KeyError "private")
                  /\ new = nat_creation_events subnet (vpc_name config ++ "-nat")
                             allocation eip nat)
                 \/ (exists e,
                       fst run = Raise e
                       /\ interrupted e new
                            (nat_creation_events subnet (vpc_name config ++ "-nat")
                               allocation eip nat))
             end).
Proof.
  intros Hids. cbv zeta.
  destruct (nat_step_attempt aws config w Hids) as (new & Ht & Hiff & Hfirst & Hskip).
  exists new. split; [exact Ht|]. split; [exact Hiff|]. split; [exact Hfirst|].
  split; [exact Hskip|]. intros En Hpub.
  destruct (nat_step_follows_plan aws config w Hids En Hpub)
    as (subnet & allocation & eip & nat & new' & Hsub & Ht' & Hplan).
  cbv zeta in Ht', Hplan. rewrite Ht in Ht'. apply app_inv_head in Ht'. subst new'.
  exists subnet, allocation, eip, nat. split; [exact Hsub|exact Hplan].
Qed.

Section DryRun.

Variable ipv4_network : string -> bool.

Lemma validate_cidr_eq s : utils.validate_cidr ipv4_network s = ipv4_network s.
Proof. unfold utils.validate_cidr. destruct (ipv4_network s); reflexivity. Qed.

Lemma first_invalid (xs : list SubnetSpec) :
  Forall (cidr_ok ipv4_network) xs
  \/ exists valid bad rest,
       xs = valid ++ bad :: rest /\ Forall (cidr_ok ipv4_network) valid
       /\ ipv4_network (sub_cidr bad) = false.
Proof.
  induction xs as [|x xs IH]; [left; constructor|].
  destruct (ipv4_network (sub_cidr x)) eqn:E.
  - destruct IH as [IH|(valid & bad & rest & -> & Hv & Hb)].
    + left. constructor; assumption.
    + right. exists (x :: valid), bad, rest. repeat split; auto.
  - right. exists [], x, xs. repeat split; auto.
Qed.

Lemma check_all_valid xs w :
  Forall (cidr_ok ipv4_network) xs -> for_each_return (check_subnet ipv4_network) xs w = (Ok None, w).
Proof.
  induction 1 as [|x xs Hx _ IH]; simpl; [reflexivity|].
  unfold bind, check_subnet. rewrite validate_cidr_eq, Hx. cbn. exact IH.
Qed.

Lemma check_first_invalid valid bad rest w :
  Forall (cidr_ok ipv4_network) valid -> ipv4_network (sub_cidr bad) = false ->
  for_each_return (check_subnet ipv4_network) (valid ++ bad :: rest) w
  = (Ok (Some false),
     mkWorld (st w) (trace w)
             (log w ++ [(ERROR, ("❌ Invalid subnet CIDR: " ++ sub_cidr bad)%string)])
             (files w)).
Proof.
  intros Hv Hb. induction Hv as [|x xs Hx _ IH]; simpl.
  - unfold bind, check_subnet. rewrite validate_cidr_eq, Hb. reflexivity.
  - unfold bind at 1. unfold check_subnet at 1.
    rewrite validate_cidr_eq, Hx. cbn. exact IH.
Qed.

Lemma not_all_valid valid bad rest :
  ipv4_network (sub_cidr bad) = false -> ~ Forall (cidr_ok ipv4_network) (valid ++ bad :: rest).
Proof.
  intros Hb H. rewrite Forall_forall in H.
  assert (Hin : In bad (valid ++ bad :: rest)) by (apply in_or_app; right; left; reflexivity).
  specialize (H bad Hin). unfold cidr_ok in H. congruence.
Qed.

Lemma bind_logger {B} lvl msg (k : unit -> M B) w :
  bind (logger lvl msg) k w
  = k tt (mkWorld (st w) (trace w) (log w ++ [(lvl, msg)]) (files w)).
Proof. reflexivity. Qed.

Lemma bind_returns {A B} (m : M A) (k : A -> M B) w a w' :
  m w = (Ok a, w') -> bind m k w = k a w'.
Proof. intros H. unfold bind. rewrite H. reflexivity. Qed.

Lemma dry_run_invalid_network aws config w :
  ipv4_network (cidr config) = false ->
  AWSNetworkBuilder.deploy ipv4_network aws config true w
  = (Ok false,
     mkWorld (st w) (trace w)
       (dry_run_log w ++ [(ERROR, ("❌ Invalid VPC CIDR: " ++ cidr config)%string)])
       (files w)).
Proof.
  intros Ec. unfold AWSNetworkBuilder.deploy, AWSNetworkBuilder._dry_run_validation.
  rewrite validate_cidr_eq, Ec. cbn [negb].
  repeat (rewrite bind_logger; cbv beta iota). unfold ret, dry_run_log. cbn [st trace log files].
  rewrite <- !app_assoc. reflexivity.
Qed.

Lemma dry_run_all_valid aws config w :
  ipv4_network (cidr config) = true -> Forall (cidr_ok ipv4_network) (subnets config) ->
  AWSNetworkBuilder.deploy ipv4_network aws config true w
  = (Ok true,
     mkWorld (st w) (trace w)
       (dry_run_log w ++ [(INFO, "✅ Configuration is valid")]) (files w)).
Proof.
  intros Ec Hall.
  unfold AWSNetworkBuilder.deploy, AWSNetworkBuilder._dry_run_validation.
  fold (check_subnet ipv4_network). rewrite validate_cidr_eq, Ec. cbn [negb].
  repeat (rewrite bind_logger; cbv beta iota).
  erewrite bind_returns by (apply check_all_valid, Hall).
  cbv beta iota. rewrite bind_logger. unfold ret, dry_run_log. cbn [st trace log files].
  rewrite <- !app_assoc. reflexivity.
Qed.

Lemma dry_run_first_invalid aws config w valid bad rest :
  ipv4_network (cidr config) = true ->
  subnets config = valid ++ bad :: rest ->
  Forall (cidr_ok ipv4_network) valid -> ipv4_network (sub_cidr bad) = false ->
  AWSNetworkBuilder.deploy ipv4_network aws config true w
  = (Ok false,
     mkWorld (st w) (trace w)
       (dry_run_log w
        ++ [(ERROR, ("❌ Invalid subnet CIDR: " ++ sub_cidr bad)%string)])
       (files w)).
Proof.
  intros Ec Hsub Hv Hb.
  unfold AWSNetworkBuilder.deploy, AWSNetworkBuilder._dry_run_validation.
  fold (check_subnet ipv4_network). rewrite validate_cidr_eq, Ec, Hsub. cbn [negb].
  repeat (rewrite bind_logger; cbv beta iota).
  erewrite bind_returns by (apply check_first_invalid; assumption).
  unfold ret, dry_run_log. cbn [st trace log files].
  rewrite <- !app_assoc. reflexivity.
Qed.

(** C5.  A dry run makes no call to the provider and leaves the state and
    the files alone; it returns success exactly when the CIDR of the network
    and the CIDR of every subnet are valid IPv4 networks; at the first
    subnet whose CIDR is invalid it logs that one error and returns failure,
    whatever the subnets after it are. *)
Theorem dry_run_validates_cidrs (aws : Provider) (config : Config) (w : World) :
  let run := AWSNetworkBuilder.deploy ipv4_network aws config true w in
  trace (snd run) = trace w /\ st (snd run) = st w /\ files (snd run) = files w
  /\ (fst run = Ok true \/ fst run = Ok false)
  /\ (fst run = Ok true
      <-> ipv4_network (cidr config) = true /\ Forall (cidr_ok ipv4_network) (subnets config))
  /\ (forall valid bad rest,
        ipv4_network (cidr config) = true ->
        subnets config = valid ++ bad :: rest ->
        Forall (cidr_ok ipv4_network) valid ->
        ipv4_network (sub_cidr bad) = false ->
        fst run = Ok false
        /\ log (snd run)
           = dry_run_log w
             ++ [(ERROR, ("❌ Invalid subnet CIDR: " ++ sub_cidr bad)%string)]).
Proof.
  cbv zeta.
  assert (Hfirst : forall valid bad rest,
            ipv4_network (cidr config) = true ->
            subnets config = valid ++ bad :: rest ->
            Forall (cidr_ok ipv4_network) valid ->
            ipv4_network (sub_cidr bad) = false ->
            fst (AWSNetworkBuilder.deploy ipv4_network aws config true w) = Ok false
            /\ log (snd (AWSNetworkBuilder.deploy ipv4_network aws config true w))
               = dry_run_log w
                 ++ [(ERROR, ("❌ Invalid subnet CIDR: " ++ sub_cidr bad)%string)]).
  { intros valid bad rest Ec Hsub Hv Hb.
    rewrite (dry_run_first_invalid aws config w valid bad rest Ec Hsub Hv Hb).
    split; reflexivity. }
  destruct (ipv4_network (cidr config)) eqn:Ec.
  - destruct (first_invalid (subnets config))
      as [Hall|(valid & bad & rest & Hsub & Hv & Hb)].
    + rewrite (dry_run_all_valid aws config w Ec Hall) in *. cbn in *.
      do 3 (split; [reflexivity|]). split; [left; reflexivity|].
      split; [split; auto|exact Hfirst].
    + rewrite (dry_run_first_invalid aws config w valid bad rest Ec Hsub Hv Hb) in *.
      cbn in *.
      do 3 (split; [reflexivity|]). split; [right; reflexivity|].
      split; [split; [discriminate|]|exact Hfirst].
      intros [_ Hall]. exfalso. rewrite Hsub in Hall.
      eapply not_all_valid; eauto.
  - rewrite (dry_run_invalid_network aws config w Ec) in *. cbn in *.
    do 3 (split; [reflexivity|]). split; [right; reflexivity|].
    split; [split; [discriminate|intros [? _]; discriminate]|exact Hfirst].
Qed.

End DryRun.

Section Rules.

Variable aws : Provider.

(** C9.  [add_ingress_rule] raises exactly when the provider call fails
    with an error that is not a duplicate-rule [ClientError], and then it
    raises that error; called twice with the same parameters against a
    provider that accepts the rule and then reports it as a duplicate, it
    returns both times and logs exactly one warning. *)
Theorem add_ingress_rule_swallows_duplicates
    (sg protocol : string) (from_port to_port : Z) (cidr_ip : string) (w : World) :
  let request := AuthorizeSecurityGroupIngress sg protocol from_port to_port cidr_ip in
  let add := SecurityManager.add_ingress_rule aws sg protocol from_port to_port
               cidr_ip in
  (forall e, fst (add w) = Raise e
             <-> aws (trace w) request = inl e /\ duplicate_rule_error e = false)
  /\ (forall msg,
        aws (trace w) request = inr tt ->
        aws (trace w ++ [(request, Returned VUnit)]) request = inl (ClientError msg) ->
        contains "InvalidPermission.Duplicate" msg = true ->
        fst ((add ;; add) w) = Ok tt
        /\ count_warnings (log (snd ((add ;; add) w))) = S (count_warnings (log w))
        /\ log (snd ((add ;; add) w))
           = log w
             ++ [(INFO, ("Added ingress rule: " ++ protocol ++ " "
                         ++ str_of_int from_port ++ "-" ++ str_of_int to_port
                         ++ " from " ++ cidr_ip)%string);
                 (WARNING, "Rule already exists, skipping...")]).
Proof.
  cbv zeta. split.
  - intros e. unfold SecurityManager.add_ingress_rule. unfold_monad.
    destruct (aws (trace w) _) as [[msg| | |]|[]]; cbn.
    1: destruct (contains "InvalidPermission.Duplicate" msg) eqn:D; cbn.
    all: split; [intros [= <-]; auto | intros [[= <-] Hd]; cbn in Hd; congruence].
  - intros msg H1 H2 Hd. unfold SecurityManager.add_ingress_rule. unfold_monad.
    rewrite H1. cbn.
    match goal with |- context [aws ?h ?c] =>
      replace (aws h c) with (@inl Exn (ret_type c) (ClientError msg))
        by (symmetry; exact H2)
    end.
    cbn. rewrite Hd. cbn.
    split; [reflexivity|]. split; [|rewrite <- app_assoc; reflexivity].
    unfold count_warnings. rewrite !filter_app. cbn. rewrite !length_app. cbn. lia.
Qed.

(** C10.  When [add_route] is given a non-empty [gateway_id] and a non-empty
    [nat_gateway_id], its request holds the [GatewayId] target only; the
    request of any call holds at most one of the two targets. *)
Theorem add_route_sends_one_target (rt destination : string) (w : World) :
  (forall gateway nat,
     gateway <> "" -> nat <> "" ->
     exists o,
       trace (snd (VPCManager.add_route aws rt destination (Some gateway) (Some nat) w))
       = trace w ++ [(CreateRoute rt destination (Some gateway) None, o)])
  /\ (forall gateway_id nat_gateway_id,
        exists target_gateway target_nat o,
          trace (snd (VPCManager.add_route aws rt destination gateway_id
                        nat_gateway_id w))
          = trace w ++ [(CreateRoute rt destination target_gateway target_nat, o)]
          /\ (target_gateway = None \/ target_nat = None)).
Proof.
  assert (Hrun : forall gateway_id nat_gateway_id,
            exists o,
              trace (snd (VPCManager.add_route aws rt destination gateway_id
                            nat_gateway_id w))
              = trace w
                ++ [(CreateRoute rt destination
                       (fst (VPCManager.route_params gateway_id nat_gateway_id))
                       (snd (VPCManager.route_params gateway_id nat_gateway_id)), o)]).
  { intros g n. unfold VPCManager.add_route. unfold_monad.
    destruct (aws (trace w) _) as [[]|[]]; cbn; eexists; reflexivity. }
  split.
  - intros gateway nat Hg Hn. destruct (Hrun (Some gateway) (Some nat)) as [o Ho].
    exists o. rewrite Ho. unfold VPCManager.route_params. cbn.
    destruct gateway; [congruence|reflexivity].
  - intros g n. destruct (Hrun g n) as [o Ho].
    exists (fst (VPCManager.route_params g n)), (snd (VPCManager.route_params g n)), o.
    split; [exact Ho|]. unfold VPCManager.route_params.
    destruct (truthy_opt g); [right; reflexivity|].
    destruct (truthy_opt n); left; reflexivity.
Qed.

End Rules.

(** *** Python dicts *)

Lemma dict_get_set_same {V} k (v : V) d : dict_get k (dict_set k v d) = Some v.
Proof.
  induction d as [|[k' v'] d IH]; simpl.
  - rewrite String.eqb_refl. reflexivity.
  - destruct (String.eqb k k') eqn:E; simpl; rewrite ?String.eqb_refl, ?E; auto.
Qed.

Lemma dict_get_absent {V} k (d : dict V) : ~ In k (keys d) -> dict_get k d = None.
Proof.
  induction d as [|[k' v'] d IH]; simpl; [reflexivity|]. intros H.
  destruct (String.eqb k k') eqn:E.
  - apply String.eqb_eq in E. exfalso. apply H. left. congruence.
  - apply IH. intros Hin. apply H. right. exact Hin.
Qed.

Lemma dict_set_fresh {V} k (v : V) d :
  ~ In k (keys d) -> dict_set k v d = d ++ [(k, v)].
Proof.
  induction d as [|[k' v'] d IH]; simpl; [reflexivity|]. intros H.
  destruct (String.eqb k k') eqn:E.
  - apply String.eqb_eq in E. exfalso. apply H. left. congruence.
  - rewrite IH; [reflexivity|]. intros Hin. apply H. right. exact Hin.
Qed.

Lemma keys_dict_set {V} k (v : V) d name :
  In name (keys (dict_set k v d)) <-> name = k \/ In name (keys d).
Proof.
  induction d as [|[k' v'] d IH]; simpl.
  - split; [intros [H|[]]; auto|intros [H|[]]; auto].
  - destruct (String.eqb k k') eqn:E; simpl.
    + apply String.eqb_eq in E. subst k'. split; [intros [H|H]|intros [H|[H|H]]]; auto.
    + rewrite IH. split; [intros [H|[H|H]]|intros [H|[H|H]]]; auto.
Qed.

Lemma NoDup_keys_dict_set {V} k (v : V) d :
  NoDup (keys d) -> NoDup (keys (dict_set k v d)).
Proof.
  induction d as [|[k' v'] d IH]; simpl; intros H.
  - constructor; [intros []|constructor].
  - inversion H as [|? ? Hnot Hd]; subst.
    destruct (String.eqb k k') eqn:E; simpl.
    + apply String.eqb_eq in E. subst k'. constructor; assumption.
    + constructor; [|apply IH, Hd].
      intros Hin. apply keys_dict_set in Hin. destruct Hin as [->|Hin].
      * rewrite String.eqb_refl in E. discriminate.
      * contradiction.
Qed.

Lemma map_fst_combine {A B} (l : list A) (l' : list B) :
  List.length l' = List.length l -> map fst (combine l l') = l.
Proof.
  revert l'. induction l as [|a l IH]; intros [|b l'] H; simpl in *;
    try discriminate; [reflexivity|]. f_equal. apply IH. lia.
Qed.

(** *** The [subnets] mapping *)

Lemma subnets_after_cons p created d :
  subnets_after (p :: created) d
  = subnets_after created (dict_set (sub_name (fst p)) (subnet_data p) d).
Proof. reflexivity. Qed.

Lemma keys_subnets_after created d name :
  In name (keys (subnets_after created d))
  <-> In name (keys d) \/ In name (map (fun p => sub_name (fst p)) created).
Proof.
  revert d. induction created as [|p created IH]; intros d.
  - simpl. tauto.
  - rewrite subnets_after_cons, IH, keys_dict_set. simpl.
    intuition (subst; auto).
Qed.

Lemma NoDup_keys_subnets_after created d :
  NoDup (keys d) -> NoDup (keys (subnets_after created d)).
Proof.
  revert d. induction created as [|p created IH]; intros d H; [exact H|].
  rewrite subnets_after_cons. apply IH, NoDup_keys_dict_set, H.
Qed.

Lemma subnets_after_distinct created d :
  NoDup (keys d ++ map (fun p => sub_name (fst p)) created) ->
  subnets_after created d = d ++ map subnet_item created.
Proof.
  revert d. induction created as [|p created IH]; intros d H.
  - simpl. rewrite app_nil_r. reflexivity.
  - rewrite subnets_after_cons.
    assert (Hfresh : ~ In (sub_name (fst p)) (keys d)).
    { intros Hin. simpl in H. apply NoDup_remove_2 in H. apply H.
      apply in_or_app. left. exact Hin. }
    rewrite (dict_set_fresh _ _ _ Hfresh), IH.
    + rewrite <- app_assoc. reflexivity.
    + unfold keys. rewrite map_app. simpl. rewrite <- app_assoc. exact H.
Qed.

Lemma in_subnets_after created d name data :
  In (name, data) (subnets_after created d) ->
  In (name, data) d \/ exists p, In p created /\ (name, data) = subnet_item p.
Proof.
  revert d. induction created as [|p created IH]; intros d H; [left; exact H|].
  rewrite subnets_after_cons in H. apply IH in H.
  destruct H as [H|(q & Hq & Heq)].
  - apply in_dict_set in H. destruct H as [[-> ->]|H]; [|left; exact H].
    right. exists p. split; [left; reflexivity|reflexivity].
  - right. exists q. split; [right; exact Hq|exact Heq].
Qed.

(** *** The [security_groups] mapping *)

Lemma groups_after_cons p created d :
  groups_after (p :: created) d
  = groups_after created (dict_set (fst (fst p)) (fst (snd p)) d).
Proof. reflexivity. Qed.

Lemma groups_after_distinct created d :
  NoDup (keys d ++ map (fun p => fst (fst p)) created) ->
  groups_after created d = d ++ map group_item created.
Proof.
  revert d. induction created as [|p created IH]; intros d H.
  - simpl. rewrite app_nil_r. reflexivity.
  - rewrite groups_after_cons.
    assert (Hfresh : ~ In (fst (fst p)) (keys d)).
    { intros Hin. simpl in H. apply NoDup_remove_2 in H. apply H.
      apply in_or_app. left. exact Hin. }
    rewrite (dict_set_fresh _ _ _ Hfresh), IH.
    + rewrite <- app_assoc. reflexivity.
    + unfold keys. rewrite map_app. simpl. rewrite <- app_assoc. exact H.
Qed.

Lemma tracked_new_builder config ts tr lg fs :
  tracked config (new_builder ts tr lg fs).
Proof.
  unfold tracked. cbn. repeat split; try discriminate; intros; contradiction.
Qed.

(** *** What each step writes of the state *)




Section Frames.

Variable aws : Provider.
Variable config : Config.









End Frames.




Section DeploymentClaims.

Variable ipv4_network : string -> bool.
Variable aws : Provider.
Variable config : Config.

(** C1.  A deployment that is not a dry run, started by a new builder,
    makes the calls of [deploy_events] in their order: network; internet
    gateway, created then attached; public route table, then its default
    route to the internet gateway, then private route table; the subnets in
    configuration order, each associated with the route table of its tier;
    the NAT gateway in the first public subnet and then the default route of
    the private route table to it, when NAT is enabled and there is a public
    subnet; the security groups with their ingress rules; the state file.
    When it returns success its events are exactly these, and the last step
    has persisted the state: the state file of the network name,
    [output/<vpc_name>-state.json], holds the state of the builder, which is
    the state that these events build.  When it returns failure it followed
    the events up to a call that failed, and stopped there, and the state
    files are as they were. *)
Theorem deploy_performs_steps_in_fixed_order
    (ts : string) (tr : list Event) (lg : list (Level * string))
    (fs : dict DeployState) :
  let run := AWSNetworkBuilder.deploy ipv4_network aws config false
               (new_builder ts tr lg fs) in
  exists ids new,
    fits config ids
    /\ trace (snd run) = tr ++ new
    /\ ((fst run = Ok true
         /\ new = deploy_events config ids
         /\ st (snd run) = deployed_state config ids ts
         /\ files (snd run)
            = dict_set (AWSNetworkBuilder.state_file_of (vpc_name config))
                       (st (snd run)) fs)
        \/ (fst run = Ok false
            /\ (exists e, interrupted e new (deploy_events config ids))
            /\ files (snd run) = fs)).
Proof.
  cbv zeta.
  pose proof (deploy_runs ipv4_network aws config ts (new_builder ts tr lg fs) eq_refl)
    as H.
  destruct (AWSNetworkBuilder.deploy ipv4_network aws config false _)
    as [[[|]|e] w']; cbn in *; [| |contradiction].
  - destruct H as (_ & ids & Hfit & Ht & Hs & Hf).
    exists ids, (deploy_events config ids).
    split; [exact Hfit|]. split; [exact Ht|]. left.
    split; [reflexivity|]. split; [reflexivity|]. split; [exact Hs|exact Hf].
  - destruct H as (Hf & _ & ids & e & new & Hfit & Ht & Hint). exists ids, new.
    split; [exact Hfit|]. split; [exact Ht|]. right. split; [reflexivity|].
    split; [exists e; exact Hint|exact Hf].
Qed.




End DeploymentClaims.

(** *** Which identifiers the events of a deployment return *)

Ltac in_events H :=
  cbn in H;
  repeat match type of H with
         | _ \/ _ => destruct H as [H|H]
         | False => contradiction
         | (_, _) = (_, _) => inversion H; subst; clear H
         end.

Lemma got_in_vpc_events c i cidr_block name hostnames support tags vpc :
  In (got c i) (vpc_events cidr_block name hostnames support tags vpc) ->
  c = CreateVpc cidr_block /\ i = vpc.
Proof.
  unfold vpc_events, got, ok. intros H.
  destruct hostnames, support; in_events H; auto.
Qed.

Lemma got_in_igw_events c i vpc name igw :
  In (got c i) (igw_events vpc name igw) -> c = CreateInternetGateway /\ i = igw.
Proof. unfold igw_events, got, ok. intros H. in_events H; auto. Qed.

Lemma got_in_route_tables_events c i vpc name igw public_rt private_rt :
  In (got c i) (route_tables_events vpc name igw public_rt private_rt) ->
  c = CreateRouteTable vpc /\ (i = public_rt \/ i = private_rt).
Proof.
  unfold route_tables_events, route_table_events, gateway_route, got, ok.
  intros H. in_events H; auto.
Qed.

Lemma got_in_subnet_events c i vpc rts spec subnet :
  In (got c i) (subnet_events vpc rts spec subnet) ->
  c = CreateSubnet vpc (sub_cidr spec) (sub_az spec) /\ i = subnet.
Proof.
  unfold subnet_events, subnet_creation_events, association_events, got, ok.
  intros H. destruct (String.eqb (sub_type spec) "public");
    destruct (dict_get (sub_type spec) rts) as [rt|]; [destruct (truthy rt)| |destruct (truthy rt)|];
    in_events H; auto.
Qed.

Lemma got_in_subnets_events c i vpc rts created :
  In (got c i) (subnets_events vpc rts created) ->
  exists p, In p created
            /\ c = CreateSubnet vpc (sub_cidr (fst p)) (sub_az (fst p))
            /\ i = snd p.
Proof.
  unfold subnets_events. intros H. apply in_flat_map in H.
  destruct H as (p & Hp & H). exists p. split; [exact Hp|].
  eapply got_in_subnet_events, H.
Qed.

Lemma got_in_nat_events c i subnet name private_rt allocation eip nat :
  In (got c i) (nat_events subnet name private_rt allocation eip nat) ->
  c = CreateNatGateway subnet allocation /\ i = nat.
Proof.
  unfold nat_events, nat_creation_events, nat_route, got, ok.
  intros H. in_events H; auto.
Qed.

Lemma got_in_group_events c i vpc item created :
  In (got c i) (group_events vpc item created) ->
  is_creation c = true ->
  c = CreateSecurityGroup (fst item) ("Security group for " ++ fst item) vpc
  /\ i = fst created.
Proof.
  unfold group_events, group_creation_events, rules_events, got, ok.
  intros H Hc. apply in_app_or in H. destruct H as [H|H].
  - in_events H; auto.
  - apply in_map_iff in H. destruct H as (ro & Heq & _).
    inversion Heq; subst. discriminate.
Qed.

Lemma got_in_groups_events c i vpc created :
  In (got c i) (groups_events vpc created) ->
  is_creation c = true ->
  exists p, In p created
            /\ c = CreateSecurityGroup (fst (fst p))
                     ("Security group for " ++ fst (fst p)) vpc
            /\ i = fst (snd p).
Proof.
  unfold groups_events. intros H Hc. apply in_flat_map in H.
  destruct H as (p & Hp & H). exists p. split; [exact Hp|].
  eapply got_in_group_events; eauto.
Qed.

Lemma got_in_export_events c i name : In (got c i) (export_events name) -> False.
Proof. unfold export_events, got, ok. intros H. in_events H. Qed.

Lemma planned_subnets_distinct config ids :
  List.length (id_subnets ids) = List.length (subnets config) ->
  NoDup (map sub_name (subnets config)) ->
  planned_subnets config ids = map subnet_item (created_subnets config ids).
Proof.
  intros Hl Hn. unfold planned_subnets.
  rewrite subnets_after_distinct; [reflexivity|]. simpl.
  unfold created_subnets.
  rewrite <- (map_map fst sub_name), map_fst_combine; assumption.
Qed.

Lemma planned_groups_distinct config ids :
  Forall2 rules_tolerated (get_default (security_groups config) []) (id_groups ids) ->
  NoDup (keys (get_default (security_groups config) [])) ->
  groups_after (created_groups config ids) []
  = map group_item (created_groups config ids).
Proof.
  intros Hf Hn. rewrite groups_after_distinct; [reflexivity|]. simpl.
  unfold created_groups.
  rewrite <- (map_map fst fst), map_fst_combine; [exact Hn|].
  symmetry. eapply Forall2_length_eq, Hf.
Qed.

(** On a complete deployment with distinct names, every identifier that a
    creation call returned is in the final state. *)
Lemma deployed_state_records config ids ts c i :
  fits config ids ->
  NoDup (map sub_name (subnets config)) ->
  NoDup (keys (get_default (security_groups config) [])) ->
  is_creation c = true ->
  In (got c i) (deploy_events config ids) ->
  recorded (deployed_state config ids ts) c i.
Proof.
  intros [Hl Hg] Hsub Hsg Hc Hin. unfold deploy_events in Hin.
  rewrite !in_app_iff in Hin.
  destruct Hin as [Hin|[Hin|[Hin|[Hin|[Hin|[Hin|Hin]]]]]].
  - apply got_in_vpc_events in Hin. destruct Hin as [-> ->]. reflexivity.
  - apply got_in_igw_events in Hin. destruct Hin as [-> ->]. reflexivity.
  - apply got_in_route_tables_events in Hin. destruct Hin as [-> [->| ->]]; cbn.
    + exists "public". left. reflexivity.
    + exists "private". right. left. reflexivity.
  - apply got_in_subnets_events in Hin. destruct Hin as (p & Hp & -> & ->). cbn.
    exists (sub_name (fst p)), (subnet_data p).
    rewrite (planned_subnets_distinct config ids Hl Hsub).
    split; [|repeat split].
    apply (in_map subnet_item) in Hp. exact Hp.
  - unfold nat_step_events in Hin. unfold deployed_state, planned_gateways.
    destruct (nat_subnet config ids) as [subnet|]; [|contradiction].
    apply got_in_nat_events in Hin. destruct Hin as [-> ->]. cbn.
    eexists. split; reflexivity.
  - apply got_in_groups_events in Hin; [|exact Hc].
    destruct Hin as (p & Hp & -> & ->). cbn.
    rewrite (planned_groups_distinct config ids Hg Hsg).
    apply (in_map group_item) in Hp. exact Hp.
  - exfalso. eapply got_in_export_events, Hin.
Qed.

Lemma in_dict_set_same {V} k (v : V) d : In (k, v) (dict_set k v d).
Proof.
  induction d as [|[k' v'] d IH]; simpl; [left; reflexivity|].
  destruct (String.eqb k k'); [left; reflexivity|right; exact IH].
Qed.

Lemma in_dict_set_other {V} k (v : V) k' v' d :
  k <> k' -> In (k, v) d -> In (k, v) (dict_set k' v' d).
Proof.
  intros Hk. induction d as [|[k0 v0] d IH]; simpl; [intros []|].
  destruct (String.eqb k' k0) eqn:E; intros [H|H].
  - apply String.eqb_eq in E. inversion H; subst. contradiction.
  - right. exact H.
  - left. exact H.
  - right. apply IH, H.
Qed.

Section StepClaims.

Variable aws : Provider.
Variable config : Config.

Lemma _create_vpc_records w :
  records_its_creations (AWSNetworkBuilder._create_vpc aws config) w.
Proof.
  unfold records_its_creations.
  pose proof (_create_vpc_runs aws config w) as H.
  destruct (AWSNetworkBuilder._create_vpc aws config w) as [[[]|e] w']; cbn;
    [|discriminate].
  destruct H as (_ & vpc & Ht & Hs). intros _ new c i Hnew Hc Hin.
  rewrite Ht in Hnew. apply app_inv_head in Hnew. subst new.
  apply got_in_vpc_events in Hin. destruct Hin as [-> ->]. rewrite Hs. reflexivity.
Qed.

Lemma _create_internet_gateway_records w :
  records_its_creations (AWSNetworkBuilder._create_internet_gateway aws config) w.
Proof.
  unfold records_its_creations.
  pose proof (_create_internet_gateway_runs aws config w) as H.
  destruct (AWSNetworkBuilder._create_internet_gateway aws config w)
    as [[[]|e] w']; cbn; [|discriminate].
  destruct H as (_ & igw & Ht & Hs). intros _ new c i Hnew Hc Hin.
  rewrite Ht in Hnew. apply app_inv_head in Hnew. subst new.
  apply got_in_igw_events in Hin. destruct Hin as [-> ->]. rewrite Hs. reflexivity.
Qed.

Lemma _create_route_tables_records w :
  records_its_creations (AWSNetworkBuilder._create_route_tables aws config) w.
Proof.
  unfold records_its_creations.
  destruct (internet_gateway (gateways (st w))) as [igw|] eqn:Higw.
  - pose proof (_create_route_tables_runs aws config w igw Higw) as H.
    destruct (AWSNetworkBuilder._create_route_tables aws config w)
      as [[[]|e] w']; cbn; [|discriminate].
    destruct H as (_ & pub & priv & Ht & Hs). intros _ new c i Hnew Hc Hin.
    rewrite Ht in Hnew. apply app_inv_head in Hnew. subst new.
    apply got_in_route_tables_events in Hin. destruct Hin as [-> [->| ->]];
      rewrite Hs; cbn.
    + exists "public". apply in_dict_set_other; [discriminate|].
      apply in_dict_set_same.
    + exists "private". apply in_dict_set_same.
  - unfold AWSNetworkBuilder._create_route_tables. unfold_monad.
    call (create_route_table_performs aws _ _) as (Hs & Hf & H);
      [|discriminate].
    rewrite Hs, Higw. cbn. discriminate.
Qed.

Lemma _create_subnet_records spec w :
  records_its_creations (AWSNetworkBuilder._create_subnet aws spec) w.
Proof.
  unfold records_its_creations.
  pose proof (_create_subnet_runs aws spec w) as H.
  destruct (AWSNetworkBuilder._create_subnet aws spec w) as [[[]|e] w']; cbn;
    [|discriminate].
  destruct H as (_ & subnet & Ht & Hs). intros _ new c i Hnew Hc Hin.
  rewrite Ht in Hnew. apply app_inv_head in Hnew. subst new.
  apply got_in_subnet_events in Hin. destruct Hin as [-> ->]. rewrite Hs. cbn.
  exists (sub_name spec), (subnet_data (spec, subnet)).
  split; [apply in_dict_set_same|repeat split].
Qed.

Lemma _create_nat_gateway_records w :
  records_its_creations (AWSNetworkBuilder._create_nat_gateway aws config) w.
Proof.
  unfold records_its_creations.
  destruct (dict_get "private" (route_tables (st w))) as [private_rt|] eqn:Hrt.
  - pose proof (_create_nat_gateway_runs aws config w private_rt Hrt) as H.
    destruct (AWSNetworkBuilder._create_nat_gateway aws config w)
      as [[[]|e] w']; cbn; [|discriminate].
    destruct H as (_ & H). intros _ new c i Hnew Hc Hin.
    destruct (nat_subnet_of config (state_subnets (st w))) as [subnet|].
    + destruct H as (allocation & eip & nat & Ht & Hs).
      rewrite Ht in Hnew. apply app_inv_head in Hnew. subst new.
      apply got_in_nat_events in Hin. destruct Hin as [-> ->]. rewrite Hs. cbn.
      eexists. split; reflexivity.
    + destruct H as (Ht & _). rewrite Ht in Hnew.
      rewrite <- (app_nil_r (trace w)) in Hnew at 1.
      apply app_inv_head in Hnew. subst new. contradiction.
  - unfold AWSNetworkBuilder._create_nat_gateway.
    destruct (negb _); unfold_monad.
    { intros _ new c i Hnew. rewrite <- (app_nil_r (trace w)) in Hnew at 1.
      apply app_inv_head in Hnew. subst new. intros _ []. }
    destruct (AWSNetworkBuilder.find_public_subnet (state_subnets (st w)))
      as [subnet|]; cbn.
    2: { intros _ new c i Hnew. rewrite <- (app_nil_r (trace w)) in Hnew at 1.
         apply app_inv_head in Hnew. subst new. intros _ []. }
    destruct (truthy subnet); cbn.
    2: { intros _ new c i Hnew. rewrite <- (app_nil_r (trace w)) in Hnew at 1.
         apply app_inv_head in Hnew. subst new. intros _ []. }
    match goal with |- context [GatewayManager.create_nat_gateway aws ?a ?b ?w0] =>
      pose proof (create_nat_gateway_runs aws a b w0) as H;
      destruct (GatewayManager.create_nat_gateway aws a b w0) as [[[nat eip]|e] w1]
    end; cbn in H |- *; [|discriminate].
    destruct H as (Hs & _). rewrite Hs, Hrt. cbn. discriminate.
Qed.

Lemma _apply_security_group_records item w :
  records_its_creations (AWSNetworkBuilder._apply_security_group aws item) w.
Proof.
  unfold records_its_creations.
  pose proof (_apply_security_group_runs aws item w) as H.
  destruct (AWSNetworkBuilder._apply_security_group aws item w)
    as [[[]|e] w']; cbn; [|discriminate].
  destruct H as (_ & created & _ & Ht & Hs). intros _ new c i Hnew Hc Hin.
  rewrite Ht in Hnew. apply app_inv_head in Hnew. subst new.
  apply got_in_group_events in Hin; [|exact Hc].
  destruct Hin as [-> ->]. rewrite Hs. cbn. apply in_dict_set_same.
Qed.

End StepClaims.

Section StateClaims.

Variable ipv4_network : string -> bool.
Variable aws : Provider.
Variable config : Config.

(** C6, amended.  Throughout a deployment an identifier is in the state only
    if the manager call that creates that resource ran to its end and
    returned it: a failed creation never populates the state.  Conversely,
    when the step that holds a creation call returns (the creation and the
    calls that follow it in the step: default route, association with a
    route table, ingress rules), the identifiers it returned are in the
    state; and after a complete deployment, with subnet names and
    security-group names that are pairwise distinct, every identifier
    returned by a creation call of the network, a subnet, the NAT gateway, a
    route table, the internet gateway or a security group is in the final
    state. *)
Theorem state_tracks_completed_creations
    (ts : string) (tr : list Event) (lg : list (Level * string))
    (fs : dict DeployState) :
  let run := AWSNetworkBuilder.deploy ipv4_network aws config false
               (new_builder ts tr lg fs) in
  tracked config (snd run)
  /\ (forall w,
        records_its_creations (AWSNetworkBuilder._create_vpc aws config) w
        /\ records_its_creations
             (AWSNetworkBuilder._create_internet_gateway aws config) w
        /\ records_its_creations
             (AWSNetworkBuilder._create_route_tables aws config) w
        /\ (forall spec,
              records_its_creations (AWSNetworkBuilder._create_subnet aws spec) w)
        /\ records_its_creations
             (AWSNetworkBuilder._create_nat_gateway aws config) w
        /\ (forall item,
              records_its_creations
                (AWSNetworkBuilder._apply_security_group aws item) w))
  /\ (fst run = Ok true ->
      NoDup (map sub_name (subnets config)) ->
      NoDup (keys (get_default (security_groups config) [])) ->
      forall new c i,
        trace (snd run) = tr ++ new ->
        is_creation c = true ->
        In (got c i) new ->
        recorded (st (snd run)) c i).
Proof.
  cbv zeta.
  assert (Hsteps : forall w,
        records_its_creations (AWSNetworkBuilder._create_vpc aws config) w
        /\ records_its_creations
             (AWSNetworkBuilder._create_internet_gateway aws config) w
        /\ records_its_creations
             (AWSNetworkBuilder._create_route_tables aws config) w
        /\ (forall spec,
              records_its_creations (AWSNetworkBuilder._create_subnet aws spec) w)
        /\ records_its_creations
             (AWSNetworkBuilder._create_nat_gateway aws config) w
        /\ (forall item,
              records_its_creations
                (AWSNetworkBuilder._apply_security_group aws item) w)).
  { intros w. split; [apply _create_vpc_records|].
    split; [apply _create_internet_gateway_records|].
    split; [apply _create_route_tables_records|].
    split; [intros spec; apply _create_subnet_records|].
    split; [apply _create_nat_gateway_records|].
    intros item. apply _apply_security_group_records. }
  pose proof (deploy_runs ipv4_network aws config ts (new_builder ts tr lg fs) eq_refl)
    as H.
  pose proof (tracked_new_builder config ts tr lg fs) as T0.
  destruct (AWSNetworkBuilder.deploy ipv4_network aws config false _)
    as [[[|]|e] w']; cbn in *; [| |contradiction].
  - destruct H as (T & ids & Hfit & Ht & Hs & _). split; [exact (T T0)|].
    split; [exact Hsteps|].
    intros _ Hsub Hsg new c i Hnew Hc Hin.
    rewrite Ht in Hnew. apply app_inv_head in Hnew. subst new.
    rewrite Hs. apply deployed_state_records; assumption.
  - destruct H as (_ & T & _). split; [exact (T T0)|].
    split; [exact Hsteps|]. discriminate.
Qed.

Lemma tier_without_route_table (rts : dict string) tier :
  tier <> "public" -> tier <> "private" ->
  (forall t rt, In (t, rt) rts -> t = "public" \/ t = "private") ->
  dict_get tier rts = None.
Proof.
  intros H1 H2 Hk. apply dict_get_absent. unfold keys. intros Hin.
  apply in_map_iff in Hin. destruct Hin as ([t rt] & Heq & Hin). cbn in Heq. subst t.
  destruct (Hk _ _ Hin); contradiction.
Qed.

Lemma no_association_in_creation vpc cidr_block az name tier subnet s r :
  ~ In (AssociateRouteTable s r)
       (calls (subnet_creation_events vpc cidr_block az name tier subnet)).
Proof.
  unfold subnet_creation_events, got, ok.
  destruct (String.eqb tier "public"); cbn; intros H;
    repeat (destruct H as [H|H]; [discriminate|]); exact H.
Qed.

(** C7, amended.  Every subnet of the state carries the tier of a subnet of
    the configuration with the same name, as the configuration gives it, so
    it is public or private when the configuration has only these two
    tiers; the tier is not checked: with route tables for the two tiers, a
    subnet whose tier is neither is created, tagged and stored under that
    tier all the same, only it is associated with no route table. *)
Theorem subnet_tier_copied_from_configuration
    (ts : string) (tr : list Event) (lg : list (Level * string))
    (fs : dict DeployState) :
  let run := AWSNetworkBuilder.deploy ipv4_network aws config false
               (new_builder ts tr lg fs) in
  (forall name data,
     In (name, data) (state_subnets (st (snd run))) ->
     exists spec, In spec (subnets config) /\ name = sub_name spec
                  /\ sd_type data = sub_type spec)
  /\ ((forall spec, In spec (subnets config) ->
                    sub_type spec = "public" \/ sub_type spec = "private") ->
      forall name data,
        In (name, data) (state_subnets (st (snd run))) ->
        sd_type data = "public" \/ sd_type data = "private")
  /\ (forall spec w,
        sub_type spec <> "public" -> sub_type spec <> "private" ->
        (forall tier rt, In (tier, rt) (route_tables (st w)) ->
                         tier = "public" \/ tier = "private") ->
        exists new,
          trace (snd (AWSNetworkBuilder._create_subnet aws spec w)) = trace w ++ new
          /\ (forall s r, ~ In (AssociateRouteTable s r) (calls new))
          /\ (fst (AWSNetworkBuilder._create_subnet aws spec w) = Ok tt ->
              exists subnet,
                new = subnet_creation_events (vpc_id (st w)) (sub_cidr spec)
                        (sub_az spec) (sub_name spec) (sub_type spec) subnet
                /\ dict_get (sub_name spec)
                     (state_subnets (st (snd (AWSNetworkBuilder._create_subnet
                                                aws spec w))))
                   = Some (mkSubnetData subnet (sub_cidr spec) (sub_az spec)
                                        (sub_type spec)))).
Proof.
  cbv zeta.
  assert (Hcopy : forall name data,
            In (name, data)
               (state_subnets (st (snd (AWSNetworkBuilder.deploy ipv4_network aws
                                          config false (new_builder ts tr lg fs))))) ->
            exists spec, In spec (subnets config) /\ name = sub_name spec
                         /\ sd_type data = sub_type spec).
  { pose proof (deploy_runs ipv4_network aws config ts (new_builder ts tr lg fs)
                  eq_refl) as H.
    pose proof (tracked_new_builder config ts tr lg fs) as T0.
    assert (T : tracked config
                  (snd (AWSNetworkBuilder.deploy ipv4_network aws config false
                          (new_builder ts tr lg fs)))).
    { destruct (AWSNetworkBuilder.deploy ipv4_network aws config false _)
        as [[[|]|e] w']; cbn in *; [| |contradiction].
      - destruct H as (T & _). exact (T T0).
      - destruct H as (_ & T & _). exact (T T0). }
    destruct T as (_ & _ & _ & T4 & _).
    intros name data Hin. destruct (T4 name data Hin) as (v & spec & H1 & H2 & H3 & _).
    exists spec. repeat split; auto. rewrite H3. reflexivity. }
  split; [exact Hcopy|]. split.
  - intros Htiers name data Hin. destruct (Hcopy name data Hin) as (spec & H1 & _ & H3).
    rewrite H3. apply Htiers, H1.
  - intros spec w H1 H2 Hk.
    pose proof (_create_subnet_runs aws spec w) as H.
    pose proof (tier_without_route_table _ _ H1 H2 Hk) as Hnone.
    unfold subnet_events, association_events in H. rewrite Hnone in H.
    destruct (AWSNetworkBuilder._create_subnet aws spec w) as [[[]|e] w']; cbn.
    + destruct H as (_ & subnet & Ht & Hs). rewrite app_nil_r in Ht.
      eexists. split; [exact Ht|]. split.
      * intros s r. apply no_association_in_creation.
      * intros _. exists subnet. split; [reflexivity|].
        rewrite Hs. cbn. apply dict_get_set_same.
    + destruct H as (_ & _ & new & subnet & Ht & Hint). rewrite app_nil_r in Hint.
      exists new. split; [exact Ht|]. split; [|discriminate].
      intros s r Hin. apply (interrupted_in_calls _ _ _ _ Hint) in Hin.
      eapply no_association_in_creation, Hin.
Qed.

(** C8, amended.  After a successful deployment the [subnets] mapping of the
    persisted state is what recording, in configuration order, each subnet
    of the configuration with the identifier its creation returned gives: it
    has exactly the names of the configuration, one entry per distinct name,
    each entry carrying the identifier returned by a creation call of a
    subnet of that name; when the names of the configuration are pairwise
    distinct it has one entry per subnet of the configuration, in the same
    order and the same count, with the identifier returned for that
    subnet. *)
Theorem persisted_subnets_match_configuration
    (ts : string) (tr : list Event) (lg : list (Level * string))
    (fs : dict DeployState) :
  let run := AWSNetworkBuilder.deploy ipv4_network aws config false
               (new_builder ts tr lg fs) in
  fst run = Ok true ->
  exists ids persisted new,
    List.length ids = List.length (subnets config)
    /\ trace (snd run) = tr ++ new
    /\ dict_get (AWSNetworkBuilder.state_file_of (vpc_name config))
                (files (snd run)) = Some persisted
    /\ state_subnets persisted = subnets_after (combine (subnets config) ids) []
    /\ (forall spec id,
          In (spec, id) (combine (subnets config) ids) ->
          In (got (CreateSubnet (vpc_id persisted) (sub_cidr spec) (sub_az spec)) id)
             new)
    /\ (forall name, In name (keys (state_subnets persisted))
                     <-> In name (map sub_name (subnets config)))
    /\ NoDup (keys (state_subnets persisted))
    /\ (forall name data,
          In (name, data) (state_subnets persisted) ->
          exists spec, In (spec, sd_id data) (combine (subnets config) ids)
                       /\ name = sub_name spec
                       /\ data = subnet_data (spec, sd_id data))
    /\ (NoDup (map sub_name (subnets config)) ->
        state_subnets persisted = map subnet_item (combine (subnets config) ids)
        /\ List.length (state_subnets persisted) = List.length (subnets config)).
Proof.
  cbv zeta.
  pose proof (deploy_runs ipv4_network aws config ts (new_builder ts tr lg fs) eq_refl)
    as H.
  destruct (AWSNetworkBuilder.deploy ipv4_network aws config false _)
    as [[[|]|e] w']; cbn in *; [|discriminate|contradiction].
  intros _. destruct H as (_ & ids & [Hl Hg] & Ht & Hs & Hf).
  exists (id_subnets ids), (deployed_state config ids ts), (deploy_events config ids).
  assert (Hnames : map (fun p : SubnetSpec * string => sub_name (fst p))
                       (combine (subnets config) (id_subnets ids))
                   = map sub_name (subnets config)).
  { rewrite <- (map_map fst sub_name), map_fst_combine; [reflexivity|exact Hl]. }
  split; [exact Hl|]. split; [exact Ht|].
  split; [rewrite Hf, Hs; apply dict_get_set_same|].
  split; [reflexivity|]. split; [|split; [|split; [|split]]].
  - intros spec id Hin. unfold deploy_events. rewrite !in_app_iff.
    do 3 right. left. unfold subnets_events. apply in_flat_map.
    exists (spec, id). split; [exact Hin|].
    unfold subnet_events, subnet_creation_events. cbn. left. reflexivity.
  - intros name.
    change (state_subnets (deployed_state config ids ts))
      with (subnets_after (combine (subnets config) (id_subnets ids)) []).
    rewrite keys_subnets_after, Hnames. cbn. tauto.
  - change (state_subnets (deployed_state config ids ts))
      with (subnets_after (combine (subnets config) (id_subnets ids)) []).
    apply NoDup_keys_subnets_after. constructor.
  - intros name data Hin. cbn in Hin. apply in_subnets_after in Hin.
    destruct Hin as [[]|([spec id] & Hp & Heq)]. inversion Heq; subst.
    exists spec. cbn. repeat split. exact Hp.
  - intros Hn. cbn. rewrite (planned_subnets_distinct config ids Hl Hn).
    split; [reflexivity|]. unfold created_subnets.
    rewrite length_map, length_combine. lia.
Qed.

End StateClaims.

(** * The end-to-end scenario *)

Example end_to_end_deployment :
  fst sample_run = Ok true
  /\ trace (snd sample_run) = deploy_events sample_config sample_ids
  /\ st (snd sample_run) = sample_state
  /\ files (snd sample_run) = [("output/test-state.json", sample_state)].
Proof. vm_compute. repeat split; reflexivity. Qed.

Example end_to_end_teardown :
  let run := AWSNetworkBuilder.teardown obliging "output/test-state.json"
               (snd sample_run) in
  fst run = Ok true
  /\ trace (snd run)
     = trace (snd sample_run)
       ++ [(DescribeNatGateways "nat-1", Returned (VNatGateways [[Some "eipalloc-1"]]));
           ok (DeleteNatGateway "nat-1");
           ok (ReleaseAddress "eipalloc-1");
           ok (DetachInternetGateway "igw-1" (Some "vpc-1"));
           ok (DeleteInternetGateway "igw-1");
           ok (DeleteSubnet "subnet-10.0.1.0/24");
           ok (DeleteSubnet "subnet-10.0.2.0/24");
           ok (DeleteRouteTable "rtb-8");
           ok (DeleteRouteTable "rtb-11");
           ok (DeleteSecurityGroup "sg-web");
           ok (DeleteVpc "vpc-1")].
Proof. vm_compute. split; reflexivity. Qed.

(** * Witnesses *)


Lemma teardown_order_witness :
  exists response release new,
    trace (snd (AWSNetworkBuilder.teardown subnet_deletions_fail
                  "output/test-state.json" (snd sample_run)))
    = trace (snd sample_run) ++ new
    /\ in_deletion_order (calls new) = true
    /\ ((fst (AWSNetworkBuilder.teardown subnet_deletions_fail
                "output/test-state.json" (snd sample_run)) = Ok true
         /\ new = teardown_events sample_state response release)
        \/ (fst (AWSNetworkBuilder.teardown subnet_deletions_fail
                   "output/test-state.json" (snd sample_run)) = Ok false
            /\ exists e, interrupted e new
                           (teardown_events sample_state response release))).
Proof.
  apply (teardown_deletes_in_fixed_order subnet_deletions_fail
           "output/test-state.json" sample_state (snd sample_run)).
  vm_compute. reflexivity.
Defined.

Lemma nat_gateway_attempt_witness :
  exists new,
    trace (snd (AWSNetworkBuilder._create_nat_gateway obliging sample_config
                  (snd sample_run)))
    = trace (snd sample_run) ++ new
    /\ In AllocateAddress (calls new)
    /\ (forall subnet allocation,
          In (CreateNatGateway subnet allocation) (calls new) ->
          first_public_subnet (state_subnets (st (snd sample_run))) subnet)
    /\ exists subnet allocation,
         first_public_subnet (state_subnets (st (snd sample_run))) subnet
         /\ In (CreateNatGateway subnet allocation) (calls new).
Proof.
  assert (Hpub : has_public_subnet (state_subnets (st (snd sample_run)))).
  { exists "pub-a",
      (mkSubnetData "subnet-10.0.1.0/24" "10.0.1.0/24" "us-east-1a" "public").
    split; [vm_compute; left; reflexivity|reflexivity]. }
  destruct (nat_gateway_attempted_iff_enabled_and_public obliging sample_config
              (snd sample_run)) as (new & H1 & H2 & H3 & _ & H5).
  - vm_compute. intros name data [H|[H|[]]]; inversion H; discriminate.
  - exists new. split; [exact H1|]. split; [|split; [exact H3|]].
    + apply H2. split; [reflexivity|exact Hpub].
    + destruct (H5 eq_refl Hpub) as (subnet & allocation & eip & nat & Hsub & Hplan).
      exists subnet, allocation. split; [exact Hsub|].
      assert (Hrt : dict_get "private" (route_tables (st (snd sample_run)))
                    = Some "rtb-11") by (vm_compute; reflexivity).
      rewrite Hrt in Hplan. destruct Hplan as [[_ ->]|(e & He & _)].
      * right. left. reflexivity.
      * vm_compute in He. discriminate He.
Defined.

Lemma dry_run_witness :
  let run := AWSNetworkBuilder.deploy starts_with_digit obliging invalid_config
               true (new_builder "t0" [] [] []) in
  fst run = Ok false
  /\ log (snd run)
     = [(INFO, "🚀 Starting AWS Secure Network Builder deployment...");
        (INFO, "🔍 Running in DRY-RUN mode - no resources will be created");
        (INFO, "Validating configuration...");
        (ERROR, "❌ Invalid subnet CIDR: not-a-cidr")]
  /\ trace (snd run) = [].
Proof.
  cbv zeta.
  destruct (dry_run_validates_cidrs starts_with_digit obliging invalid_config
              (new_builder "t0" [] [] [])) as (Ht & _ & _ & _ & _ & H).
  destruct (H [mkSubnetSpec "a" "10.0.1.0/24" "us-east-1a" "private"]
              (mkSubnetSpec "b" "not-a-cidr" "us-east-1a" "private")
              [mkSubnetSpec "c" "also-bad" "us-east-1a" "private"]) as (H1 & H2).
  - reflexivity.
  - reflexivity.
  - repeat constructor.
  - reflexivity.
  - split; [exact H1|]. split; [exact H2|exact Ht].
Defined.

Lemma tracked_creations_witness :
  recorded (st (snd sample_run))
           (CreateSubnet (Some "vpc-1") "10.0.1.0/24" "us-east-1a")
           "subnet-10.0.1.0/24".
Proof.
  unfold sample_run.
  destruct (state_tracks_completed_creations starts_with_digit obliging sample_config
              "t0" [] [] []) as (_ & _ & H).
  eapply H.
  - vm_compute. reflexivity.
  - vm_compute. constructor; [intros [H0|[]]; discriminate|].
    constructor; [intros []|constructor].
  - vm_compute. constructor; [intros []|constructor].
  - apply eq_sym, app_nil_l.
  - reflexivity.
  - vm_compute. do 13 right. left. reflexivity.
Defined.

Lemma subnet_tier_witness :
  sd_type (mkSubnetData "subnet-10.0.1.0/24" "10.0.1.0/24" "us-east-1a" "public")
  = "public"
  \/ sd_type (mkSubnetData "subnet-10.0.1.0/24" "10.0.1.0/24" "us-east-1a" "public")
     = "private".
Proof.
  destruct (subnet_tier_copied_from_configuration starts_with_digit obliging
              sample_config "t0" [] [] []) as (_ & H & _).
  apply (H) with (name := "pub-a").
  - vm_compute. intros spec [<-|[<-|[]]]; auto.
  - vm_compute. left. reflexivity.
Defined.

Lemma persisted_subnets_witness :
  exists ids persisted new,
    List.length ids = 2
    /\ trace (snd sample_run) = [] ++ new
    /\ dict_get "output/test-state.json" (files (snd sample_run)) = Some persisted
    /\ state_subnets persisted = subnets_after (combine (subnets sample_config) ids) [].
Proof.
  destruct (persisted_subnets_match_configuration starts_with_digit obliging
              sample_config "t0" [] [] [])
    as (ids & persisted & new & H1 & H2 & H3 & H4 & _).
  - vm_compute. reflexivity.
  - exists ids, persisted, new. repeat split; assumption.
Defined.

Lemma duplicate_rule_witness :
  let add := SecurityManager.add_ingress_rule duplicate_reporting "sg-web" "tcp"
               443 443 "0.0.0.0/0" in
  fst ((add ;; add) (new_builder "t0" [] [] [])) = Ok tt
  /\ count_warnings (log (snd ((add ;; add) (new_builder "t0" [] [] [])))) = 1.
Proof.
  cbv zeta.
  destruct (add_ingress_rule_swallows_duplicates duplicate_reporting "sg-web" "tcp"
              443 443 "0.0.0.0/0" (new_builder "t0" [] [] [])) as (_ & H).
  destruct (H "An error occurred (InvalidPermission.Duplicate) when calling the AuthorizeSecurityGroupIngress operation: the specified rule already exists")
    as (H1 & H2 & _).
  - reflexivity.
  - reflexivity.
  - vm_compute. reflexivity.
  - split; [exact H1|exact H2].
Defined.

Lemma one_target_witness :
  exists o,
    trace (snd (VPCManager.add_route obliging "rtb-8" "0.0.0.0/0" (Some "igw-1")
                  (Some "nat-1") (new_builder "t0" [] [] [])))
    = [] ++ [(CreateRoute "rtb-8" "0.0.0.0/0" (Some "igw-1") None, o)].
Proof.
  destruct (add_route_sends_one_target obliging "rtb-8" "0.0.0.0/0"
              (new_builder "t0" [] [] [])) as (H & _).
  apply (H "igw-1" "nat-1"); discriminate.
Defined.

(** * Counterexamples *)

(** The creation of subnet [pub-a] runs to its end and returns an
    identifier, the association with the route table then fails: the
    identifier is not in the state. *)
Lemma created_subnet_missing_from_state :
  let run := AWSNetworkBuilder.deploy starts_with_digit associations_fail
               sample_config false (new_builder "t0" [] [] []) in
  segment (subnet_creation_events (Some "vpc-1") "10.0.1.0/24" "us-east-1a"
             "pub-a" "public" "subnet-10.0.1.0/24") (trace (snd run))
  /\ ~ recorded (st (snd run))
         (CreateSubnet (Some "vpc-1") "10.0.1.0/24" "us-east-1a")
         "subnet-10.0.1.0/24".
Proof.
  cbv zeta. split.
  - exists (firstn 13 (trace (snd (AWSNetworkBuilder.deploy starts_with_digit
                                     associations_fail sample_config false
                                     (new_builder "t0" [] [] []))))),
      (skipn 16 (trace (snd (AWSNetworkBuilder.deploy starts_with_digit
                               associations_fail sample_config false
                               (new_builder "t0" [] [] []))))).
    vm_compute. reflexivity.
  - vm_compute. intros (name & data & [] & _).
Qed.

(** A subnet of tier [dmz] is created, tagged and stored in the state. *)
Lemma third_tier_subnet_in_state :
  let run := AWSNetworkBuilder.deploy starts_with_digit obliging dmz_config false
               (new_builder "t0" [] [] []) in
  fst run = Ok true
  /\ In (got (CreateSubnet (Some "vpc-1") "10.0.3.0/24" "us-east-1a")
             "subnet-10.0.3.0/24") (trace (snd run))
  /\ exists data,
       In ("dmz-a", data) (state_subnets (st (snd run)))
       /\ sd_type data <> "public" /\ sd_type data <> "private".
Proof.
  vm_compute. split; [reflexivity|]. split; [do 13 right; left; reflexivity|].
  eexists. split; [left; reflexivity|]. split; discriminate.
Qed.

(** Two subnets of the configuration with one name: the persisted state has
    one entry, and the identifier of the first subnet is lost. *)
Lemma twin_names_one_persisted_entry :
  let run := AWSNetworkBuilder.deploy starts_with_digit obliging twin_config false
               (new_builder "t0" [] [] []) in
  fst run = Ok true
  /\ List.length (subnets twin_config) = 2
  /\ exists persisted,
       dict_get "output/test-state.json" (files (snd run)) = Some persisted
       /\ List.length (state_subnets persisted) = 1
       /\ In (got (CreateSubnet (Some "vpc-1") "10.0.1.0/24" "us-east-1a")
                  "subnet-10.0.1.0/24") (trace (snd run))
       /\ forall name data, In (name, data) (state_subnets persisted) ->
                            sd_id data <> "subnet-10.0.1.0/24".
Proof.
  vm_compute. split; [reflexivity|]. split; [reflexivity|].
  eexists. split; [reflexivity|]. split; [reflexivity|].
  split; [do 13 right; left; reflexivity|].
  intros name data [H|[]]. inversion H. discriminate.
Qed.

(** * Further properties of the managers and of the orchestrator *)

(** ** Loading the configuration *)

Section LoadConfig.

Variable config_files : dict string.
Variable safe_load : string -> string + utils.Yaml.

Lemma check_fields_passes fields config :
  utils.check_fields fields config = None
  <-> forall f, In f fields -> utils.field_in f config = Some true.
Proof.
  induction fields as [|field rest IH]; simpl.
  - split; [intros _ f []|reflexivity].
  - destruct (utils.field_in field config) as [[]|] eqn:E.
    + rewrite IH. split.
      * intros H f [<-|Hf]; [exact E|apply H, Hf].
      * intros H f Hf. apply H. right. exact Hf.
    + split; [discriminate|]. intros H.
      specialize (H field (or_introl eq_refl)). congruence.
    + split; [discriminate|]. intros H.
      specialize (H field (or_introl eq_refl)). congruence.
Qed.

(** What [check_fields] raises on a container: the [ValueError] of the
    first field, in the order of the list, that the container lacks. *)
Lemma check_fields_first_missing fields config e :
  (forall f, utils.field_in f config <> None) ->
  utils.check_fields fields config = Some e ->
  exists before field after,
    fields = before ++ field :: after
    /\ e = utils.ValueError ("Missing required field in config: " ++ field)
    /\ utils.field_in field config = Some false
    /\ forall f, In f before -> utils.field_in f config = Some true.
Proof.
  intros Hc. induction fields as [|field rest IH]; simpl; [discriminate|].
  destruct (utils.field_in field config) as [[]|] eqn:E.
  - intros H. destruct (IH H) as (before & f & after & -> & -> & Hf & Hb).
    exists (field :: before), f, after. repeat split; auto.
    intros g [<-|Hg]; [exact E|apply Hb, Hg].
  - intros [= <-]. exists [], field, rest. repeat split; auto.
    intros f [].
  - exfalso. eapply Hc, E.
Qed.

(** X1.  [load_config] returns a document exactly when the file exists,
    the parser builds the document from its text, and each of the four
    required fields is [in] the document; the document is returned as the
    parser built it. *)
Theorem load_config_returns_checked_document (path : string) (doc : utils.Yaml) :
  utils.load_config config_files safe_load path = inr doc
  <-> exists text,
        dict_get path config_files = Some text
        /\ safe_load text = inr doc
        /\ forall f, In f utils.required_fields ->
                     utils.field_in f doc = Some true.
Proof.
  unfold utils.load_config. split.
  - destruct (dict_get path config_files) as [text|]; [|discriminate].
    destruct (safe_load text) as [msg|config] eqn:Ep; [discriminate|].
    destruct (utils.check_fields utils.required_fields config) as [e|] eqn:Ec;
      [discriminate|].
    intros [= <-]. exists text. split; [reflexivity|]. split; [exact Ep|].
    apply check_fields_passes, Ec.
  - intros (text & -> & -> & H).
    apply check_fields_passes in H. rewrite H. reflexivity.
Qed.

(** X2.  On a file whose document is a mapping, [load_config] either
    returns the mapping, which then has the four required keys, or raises
    the [ValueError] that names the first required field, in the order
    [vpc_name], [cidr], [region], [subnets], that is no key of the mapping;
    the values of the keys are not looked at. *)
Theorem load_config_names_first_missing_field
    (path text : string) (entries : list (utils.Yaml * utils.Yaml)) :
  dict_get path config_files = Some text ->
  safe_load text = inr (utils.YMap entries) ->
  let has_key f := existsb (utils.is_str f) (map fst entries) in
  (utils.load_config config_files safe_load path = inr (utils.YMap entries)
   /\ forall f, In f utils.required_fields -> has_key f = true)
  \/ exists before field after,
       utils.required_fields = before ++ field :: after
       /\ utils.load_config config_files safe_load path
          = inl (utils.ValueError ("Missing required field in config: " ++ field))
       /\ has_key field = false
       /\ forall f, In f before -> has_key f = true.
Proof.
  intros Hfile Hparse has_key. unfold utils.load_config.
  rewrite Hfile, Hparse.
  destruct (utils.check_fields utils.required_fields (utils.YMap entries))
    as [e|] eqn:Ec.
  - right. apply check_fields_first_missing in Ec; [|discriminate].
    destruct Ec as (before & field & after & Hr & -> & Hf & Hb).
    exists before, field, after. split; [exact Hr|]. split; [reflexivity|].
    split.
    + cbn in Hf. injection Hf as Hf. exact Hf.
    + intros f Hin. specialize (Hb f Hin). cbn in Hb. injection Hb as Hb. exact Hb.
  - left. split; [reflexivity|]. intros f Hin.
    pose proof (proj1 (check_fields_passes _ _) Ec f Hin) as H.
    cbn in H. injection H as H. exact H.
Qed.

(** X3.  On a file that parses, [load_config] raises [TypeError] exactly
    when the document is no container: null (an empty file), a boolean or
    an integer.  Such a document is never reported as a missing field. *)
Theorem load_config_type_error_iff_no_container
    (path text : string) (doc : utils.Yaml) :
  dict_get path config_files = Some text ->
  safe_load text = inr doc ->
  (utils.load_config config_files safe_load path = inl utils.TypeError
   <-> match doc with
       | utils.YNull | utils.YBool _ | utils.YInt _ => True
       | _ => False
       end).
Proof.
  intros Hfile Hparse. unfold utils.load_config. rewrite Hfile, Hparse.
  destruct doc.
  1-3: split; [trivial|reflexivity].
  all: match goal with |- context [utils.check_fields ?fs ?d] =>
         destruct (utils.check_fields fs d) as [e|] eqn:Ec
       end;
       [ apply check_fields_first_missing in Ec; [|discriminate];
         destruct Ec as (? & ? & ? & _ & -> & _)
       | ];
       (split; [discriminate|intros []]).
Qed.

End LoadConfig.

(** ** Egress rules *)

Section Egress.

Variable aws : Provider.

(** X4.  [add_egress_rule] raises exactly when the provider call fails
    with an error that is not a duplicate-rule [ClientError], and then it
    raises that error; its one request is the egress authorization of the
    rule; called twice against a provider that accepts the rule and then
    reports it as a duplicate, it returns both times and logs one
    warning. *)
Theorem add_egress_rule_swallows_duplicates
    (sg protocol : string) (from_port to_port : Z) (cidr_ip : string) (w : World) :
  let request := AuthorizeSecurityGroupEgress sg protocol from_port to_port cidr_ip in
  let add := SecurityManager.add_egress_rule aws sg protocol from_port to_port
               cidr_ip in
  (forall e, fst (add w) = Raise e
             <-> aws (trace w) request = inl e /\ duplicate_rule_error e = false)
  /\ (exists o, trace (snd (add w)) = trace w ++ [(request, o)])
  /\ (forall msg,
        aws (trace w) request = inr tt ->
        aws (trace w ++ [(request, Returned VUnit)]) request = inl (ClientError msg) ->
        contains "InvalidPermission.Duplicate" msg = true ->
        fst ((add ;; add) w) = Ok tt
        /\ log (snd ((add ;; add) w))
           = log w
             ++ [(INFO, ("Added egress rule: " ++ protocol ++ " "
                         ++ str_of_int from_port ++ "-" ++ str_of_int to_port
                         ++ " to " ++ cidr_ip)%string);
                 (WARNING, "Rule already exists, skipping...")]).
Proof.
  cbv zeta. split; [|split].
  - intros e. unfold SecurityManager.add_egress_rule. unfold_monad.
    destruct (aws (trace w) _) as [[msg| | |]|[]]; cbn.
    1: destruct (contains "InvalidPermission.Duplicate" msg) eqn:D; cbn.
    all: split; [intros [= <-]; auto | intros [[= <-] Hd]; cbn in Hd; congruence].
  - unfold SecurityManager.add_egress_rule. unfold_monad.
    destruct (aws (trace w) _) as [[msg| | |]|[]]; cbn.
    1: destruct (contains "InvalidPermission.Duplicate" msg) eqn:D; cbn.
    all: eexists; reflexivity.
  - intros msg H1 H2 Hd. unfold SecurityManager.add_egress_rule. unfold_monad.
    rewrite H1. cbn.
    match goal with |- context [aws ?h ?c] =>
      replace (aws h c) with (@inl Exn (ret_type c) (ClientError msg))
        by (symmetry; exact H2)
    end.
    cbn. rewrite Hd. cbn.
    split; [reflexivity|rewrite <- app_assoc; reflexivity].
Qed.

End Egress.

(** ** Deleting a NAT gateway *)

Section NatDeletion.

Variable aws : Provider.

Ltac in_new H :=
  cbn in H;
  repeat match type of H with
         | _ \/ _ => destruct H as [H|H]
         | False => contradiction
         | (_, _) = (_, _) => inversion H; subst; clear H
         end.

(** X5.  [delete_nat_gateway] raises only the error of the call it made
    last, and never the [ClientError] of a refused release of the address:
    that one is logged as a warning and the method returns.  When it
    returns, the deletion of the NAT gateway was accepted and a refused
    release is the only call that can have failed.  An address is released
    only after the description and the accepted deletion of the gateway,
    and it is the allocation of the first address of the first gateway
    described. *)
Theorem delete_nat_gateway_tolerates_refused_release (nat : string) (w : World) :
  let run := GatewayManager.delete_nat_gateway aws nat w in
  exists new,
    trace (snd run) = trace w ++ new
    /\ (forall e, fst run = Raise e ->
          exists done c,
            new = done ++ [(c, Failed e)]
            /\ (is_release c = true -> forall msg, e <> ClientError msg))
    /\ (fst run = Ok tt ->
          In (ok (DeleteNatGateway nat)) new
          /\ forall c e, In (c, Failed e) new ->
               is_release c = true
               /\ exists msg,
                    e = ClientError msg
                    /\ log (snd run)
                       = log w
                         ++ [(INFO, ("NAT Gateway " ++ nat ++ " deletion initiated")%string);
                             (WARNING, ("Could not release EIP: " ++ msg)%string)])
    /\ (forall a o, In (ReleaseAddress a, o) new ->
          exists response,
            new = [(DescribeNatGateways nat, Returned (VNatGateways response));
                   ok (DeleteNatGateway nat);
                   (ReleaseAddress a, o)]
            /\ GatewayManager.allocation_of response = Some a
            /\ a <> "").
Proof.
  cbv zeta. unfold GatewayManager.delete_nat_gateway, ok. unfold_monad.
  destruct (aws (trace w) (DescribeNatGateways nat)) as [e1|response] eqn:E1.
  { exists [(DescribeNatGateways nat, Failed e1)].
    destruct e1; cbn.
    all: split; [reflexivity|].
    all: split; [intros e [= <-]; eexists [], _; split; [reflexivity|discriminate]|].
    all: split; [discriminate|].
    all: intros a o H; in_new H. }
  cbn.
  destruct (aws _ (DeleteNatGateway nat)) as [e2|[]] eqn:E2.
  { exists [(DescribeNatGateways nat, Returned (VNatGateways response));
            (DeleteNatGateway nat, Failed e2)].
    destruct e2; cbn.
    all: split; [rewrite <- app_assoc; reflexivity|].
    all: split; [intros e [= <-]; eexists [_], _; split; [reflexivity|discriminate]|].
    all: split; [discriminate|].
    all: intros a o H; in_new H. }
  cbn.
  destruct (GatewayManager.allocation_of response) as [a|] eqn:Ea; cbn.
  2: { exists [(DescribeNatGateways nat, Returned (VNatGateways response));
               (DeleteNatGateway nat, Returned VUnit)].
       split; [rewrite <- app_assoc; reflexivity|].
       split; [discriminate|].
       split.
       - intros _. split; [right; left; reflexivity|].
         intros c e H; in_new H.
       - intros a o H; in_new H. }
  destruct (truthy a) eqn:Et; cbn.
  2: { exists [(DescribeNatGateways nat, Returned (VNatGateways response));
               (DeleteNatGateway nat, Returned VUnit)].
       split; [rewrite <- app_assoc; reflexivity|].
       split; [discriminate|].
       split.
       - intros _. split; [right; left; reflexivity|].
         intros c e H; in_new H.
       - intros a' o H; in_new H. }
  assert (Ha : a <> "") by (intros ->; discriminate).
  destruct (aws _ (ReleaseAddress a)) as [e3|[]] eqn:E3.
  - exists [(DescribeNatGateways nat, Returned (VNatGateways response));
            (DeleteNatGateway nat, Returned VUnit);
            (ReleaseAddress a, Failed e3)].
    destruct e3; cbn.
    all: split; [rewrite <- !app_assoc; reflexivity|].
    all: split;
      [ first [ discriminate
              | intros e [= <-]; eexists [_; _], _;
                split; [reflexivity|intros _ msg'; discriminate] ] |].
    all: split;
      [ first [ discriminate
              | intros _; split; [right; left; reflexivity|];
                intros c e H; in_new H;
                split; [reflexivity|];
                eexists; split; [reflexivity|];
                rewrite <- !app_assoc; reflexivity ] |].
    all: intros a' o H; in_new H; exists response; auto.
  - exists [(DescribeNatGateways nat, Returned (VNatGateways response));
            (DeleteNatGateway nat, Returned VUnit);
            (ReleaseAddress a, Returned VUnit)].
    cbn. split; [rewrite <- !app_assoc; reflexivity|].
    split; [discriminate|].
    split.
    + intros _. split; [right; left; reflexivity|].
      intros c e H; in_new H.
    + intros a' o H; in_new H. exists response. auto.
Qed.

End NatDeletion.

(** ** The state file, from deployment to teardown *)

Lemma dict_get_set_other {V} k k' (v : V) d :
  k <> k' -> dict_get k (dict_set k' v d) = dict_get k d.
Proof.
  intros Hk. induction d as [|[k0 v0] d IH]; simpl.
  - destruct (String.eqb k k') eqn:E; [apply String.eqb_eq in E; contradiction|].
    reflexivity.
  - destruct (String.eqb k' k0) eqn:E0; simpl.
    + apply String.eqb_eq in E0. subst k0.
      destruct (String.eqb k k') eqn:E; [apply String.eqb_eq in E; contradiction|].
      reflexivity.
    + destruct (String.eqb k k0); [reflexivity|exact IH].
Qed.

(** Without its state file, a teardown raises the error of opening it,
    before any call. *)
Lemma teardown_without_state_file aws state_file w :
  dict_get state_file (files w) = None ->
  let run := AWSNetworkBuilder.teardown aws state_file w in
  (exists msg, fst run = Raise (OSError msg))
  /\ trace (snd run) = trace w
  /\ st (snd run) = st w
  /\ files (snd run) = files w.
Proof.
  intros E. unfold AWSNetworkBuilder.teardown, json_load. unfold_monad.
  rewrite E. cbn.
  split; [eexists; reflexivity|]. repeat split; reflexivity.
Qed.

Section StateFile.

Variable ipv4_network : string -> bool.
Variable aws : Provider.
Variable config : Config.

(** X6.  [teardown] works on the state that it loads: it changes neither
    the state of the builder nor any state file (its effects are the calls
    to the provider and the lines of the log); the state file it read stays
    as it was.  When the state file does not exist, the error of opening it
    is raised to the caller, not turned into the result [False], and no
    call is made; when it holds a state, as [_export_state] writes it,
    [teardown] returns a Boolean. *)
Theorem teardown_keeps_state_and_files (state_file : string) (w : World) :
  let run := AWSNetworkBuilder.teardown aws state_file w in
  st (snd run) = st w
  /\ files (snd run) = files w
  /\ (dict_get state_file (files w) = None ->
        (exists msg, fst run = Raise (OSError msg))
        /\ trace (snd run) = trace w)
  /\ (forall state, dict_get state_file (files w) = Some state ->
        exists result, fst run = Ok result).
Proof.
  cbv zeta. destruct (dict_get state_file (files w)) as [state|] eqn:E.
  - pose proof (teardown_runs aws state state_file w E) as H.
    destruct (AWSNetworkBuilder.teardown aws state_file w) as [[[]|e] w'];
      cbn; [| |contradiction].
    all: destruct H as (Hs & Hf & _).
    all: split; [exact Hs|]; split; [exact Hf|]; split; [discriminate|].
    all: intros _ _; eexists; reflexivity.
  - destruct (teardown_without_state_file aws state_file w E)
      as (Hr & Ht & Hs & Hf).
    split; [exact Hs|]. split; [exact Hf|]. split; [|discriminate].
    intros _. split; [exact Hr|exact Ht].
Qed.

(** X7.  After a deployment that returned [True], the state file
    [output/<vpc_name>-state.json] holds the state the builder has at that
    moment, which is what a teardown loads from it; its timestamp is still
    that of the construction of the builder, and every other state file is
    as it was. *)
Theorem exported_state_loads_back
    (ts : string) (tr : list Event) (lg : list (Level * string))
    (fs : dict DeployState) :
  let run := AWSNetworkBuilder.deploy ipv4_network aws config false
               (new_builder ts tr lg fs) in
  let state_file := AWSNetworkBuilder.state_file_of (vpc_name config) in
  fst run = Ok true ->
  json_load state_file (snd run) = (Ok (st (snd run)), snd run)
  /\ timestamp (st (snd run)) = ts
  /\ forall path, path <> state_file ->
       dict_get path (files (snd run)) = dict_get path fs.
Proof.
  cbv zeta. intros Hok.
  pose proof (deploy_runs ipv4_network aws config ts (new_builder ts tr lg fs)
                eq_refl) as H.
  destruct (AWSNetworkBuilder.deploy ipv4_network aws config false
              (new_builder ts tr lg fs)) as [[[]|e] w'];
    cbn in Hok |- *; try discriminate.
  destruct H as (_ & ids & _ & _ & Hs & Hf). cbn in Hf.
  split; [|split].
  - unfold json_load. rewrite Hf, dict_get_set_same. reflexivity.
  - rewrite Hs. reflexivity.
  - intros path Hp. rewrite Hf. apply dict_get_set_other, Hp.
Qed.

End StateFile.

(** What a teardown deletes of a state, when all its calls are made. *)
Lemma recorded_is_deleted state c i d response release :
  recorded state c i ->
  deletion_of c i = Some d ->
  i <> "" ->
  In (ok d) (teardown_events state response release).
Proof.
  intros Hrec Hd Hi. unfold teardown_events.
  unfold nat_deletion_events, igw_deletion_events, subnet_deletion_events,
    route_table_deletion_events, group_deletion_events, vpc_deletion_events.
  rewrite !in_app_iff.
  destruct c; cbn in Hrec, Hd; try discriminate; injection Hd as <-.
  - (* network *)
    do 5 right. rewrite Hrec, (truthy_nonempty _ Hi). left. reflexivity.
  - (* subnet *)
    destruct Hrec as (name & data & Hin & <- & _).
    right. right. left.
    apply (in_map (fun item => ok (DeleteSubnet (sd_id (snd item))))) in Hin.
    exact Hin.
  - (* route table *)
    destruct Hrec as (tier & Hin).
    do 3 right. left.
    apply (in_map (fun item => ok (DeleteRouteTable (snd item)))) in Hin.
    exact Hin.
  - (* internet gateway *)
    right. left. rewrite Hrec. unfold igw_detach_delete_events.
    right. left. reflexivity.
  - (* NAT gateway *)
    destruct Hrec as (nat & Hn & <-). left. rewrite Hn.
    unfold nat_gateway_deletion_events. apply in_or_app. left.
    right. left. reflexivity.
  - (* security group *)
    do 4 right. left.
    apply (in_map (fun item => ok (DeleteSecurityGroup (snd item)))) in Hrec.
    exact Hrec.
Qed.

Section RoundTrip.

Variable ipv4_network : string -> bool.
Variable config : Config.

(** X8.  Deployment and teardown compose through the state file.  When a
    deployment returned [True] for a configuration with distinct subnet
    names and distinct security-group names, and a teardown of its state
    file, by any builder and against any provider, returned [True], then
    for every resource the deployment created (network, subnet, route
    table, internet gateway, NAT gateway, security group: every identifier
    a creation call returned) the teardown made the deletion call of that
    identifier, and the call returned. *)
Theorem teardown_deletes_what_deploy_created
    (aws aws' : Provider) (ts ts' : string) (tr tr' : list Event)
    (lg lg' : list (Level * string)) (fs : dict DeployState) :
  let deployed := AWSNetworkBuilder.deploy ipv4_network aws config false
                    (new_builder ts tr lg fs) in
  let torn := AWSNetworkBuilder.teardown aws'
                (AWSNetworkBuilder.state_file_of (vpc_name config))
                (new_builder ts' tr' lg' (files (snd deployed))) in
  fst deployed = Ok true ->
  fst torn = Ok true ->
  NoDup (map sub_name (subnets config)) ->
  NoDup (keys (get_default (security_groups config) [])) ->
  exists created deleted,
    trace (snd deployed) = tr ++ created
    /\ trace (snd torn) = tr' ++ deleted
    /\ forall c i d,
         In (got c i) created ->
         deletion_of c i = Some d ->
         i <> "" ->
         In (ok d) deleted.
Proof.
  cbv zeta. intros Hok Hok' Hsub Hsg.
  pose proof (deploy_runs ipv4_network aws config ts (new_builder ts tr lg fs)
                eq_refl) as H.
  destruct (AWSNetworkBuilder.deploy ipv4_network aws config false
              (new_builder ts tr lg fs)) as [[[]|e] w1];
    cbn [fst snd] in Hok, Hok' |- *; try discriminate.
  destruct H as (_ & ids & Hfit & Ht & Hs & Hf). cbn in Ht, Hf.
  assert (Hfile : dict_get (AWSNetworkBuilder.state_file_of (vpc_name config))
                    (files (new_builder ts' tr' lg' (files w1)))
                  = Some (deployed_state config ids ts)).
  { cbn. rewrite Hf, dict_get_set_same, Hs. reflexivity. }
  pose proof (teardown_runs aws' _ _ _ Hfile) as H'.
  destruct (AWSNetworkBuilder.teardown aws' _ _) as [[[]|e] w2];
    cbn [fst snd] in Hok' |- *; try discriminate.
  destruct H' as (_ & _ & response & release & _ & Ht'). cbn in Ht'.
  exists (deploy_events config ids),
         (teardown_events (deployed_state config ids ts) response release).
  split; [exact Ht|]. split; [exact Ht'|].
  intros c i d Hin Hd Hi.
  eapply recorded_is_deleted; [|exact Hd|exact Hi].
  apply deployed_state_records; try assumption.
  destruct c; cbn in Hd; try discriminate; reflexivity.
Qed.

(** X9.  A deployment that returned [False] leaves no state file of its
    own: when no state file of the network name existed before it, a
    teardown of that state file, by any builder and against any provider,
    raises the error of opening the file and makes no call, so that what
    the failed deployment created is deleted by no teardown. *)
Theorem failed_deployment_cannot_be_torn_down
    (aws aws' : Provider) (ts ts' : string) (tr tr' : list Event)
    (lg lg' : list (Level * string)) (fs : dict DeployState) :
  let deployed := AWSNetworkBuilder.deploy ipv4_network aws config false
                    (new_builder ts tr lg fs) in
  let state_file := AWSNetworkBuilder.state_file_of (vpc_name config) in
  let torn := AWSNetworkBuilder.teardown aws' state_file
                (new_builder ts' tr' lg' (files (snd deployed))) in
  fst deployed = Ok false ->
  dict_get state_file fs = None ->
  (exists msg, fst torn = Raise (OSError msg))
  /\ trace (snd torn) = tr'.
Proof.
  cbv zeta. intros Hfail Hnone.
  pose proof (deploy_runs ipv4_network aws config ts (new_builder ts tr lg fs)
                eq_refl) as H.
  destruct (AWSNetworkBuilder.deploy ipv4_network aws config false
              (new_builder ts tr lg fs)) as [[[]|e] w1];
    cbn [fst snd] in Hfail |- *; try discriminate.
  destruct H as (Hf & _). cbn in Hf.
  destruct (teardown_without_state_file aws'
              (AWSNetworkBuilder.state_file_of (vpc_name config))
              (new_builder ts' tr' lg' (files w1)))
    as (Hr & Ht & _).
  - cbn. rewrite Hf. exact Hnone.
  - split; [exact Hr|exact Ht].
Qed.

End RoundTrip.

(** ** What every call of a deployment rests on *)

Lemma each_call_after_nil ctx needs : each_call_after ctx needs [].
Proof. intros before ev after H. destruct before; discriminate. Qed.

Lemma each_call_after_cons ctx (needs : Call -> list Event -> Prop) ev evs :
  needs (fst ev) ctx ->
  each_call_after (ctx ++ [ev]) needs evs ->
  each_call_after ctx needs (ev :: evs).
Proof.
  intros Hev Hrest before ev' after H. destruct before as [|b before]; simpl in H.
  - injection H as <- <-. rewrite app_nil_r. exact Hev.
  - injection H as <- ->.
    specialize (Hrest before ev' after eq_refl).
    rewrite <- app_assoc in Hrest. exact Hrest.
Qed.

Lemma each_call_after_app ctx needs l1 l2 :
  each_call_after ctx needs l1 ->
  each_call_after (ctx ++ l1) needs l2 ->
  each_call_after ctx needs (l1 ++ l2).
Proof.
  revert ctx. induction l1 as [|ev l1 IH]; intros ctx H1 H2; simpl.
  - rewrite app_nil_r in H2. exact H2.
  - apply each_call_after_cons.
    + specialize (H1 [] ev l1 eq_refl). rewrite app_nil_r in H1. exact H1.
    + apply IH.
      * intros before ev' after ->.
        specialize (H1 (ev :: before) ev' after eq_refl).
        rewrite <- app_assoc. exact H1.
      * rewrite <- app_assoc. exact H2.
Qed.

Lemma each_call_after_flat_map {A} ctx needs (f : A -> list Event) xs :
  (forall more a, In a xs -> each_call_after (ctx ++ more) needs (f a)) ->
  each_call_after ctx needs (flat_map f xs).
Proof.
  revert ctx. induction xs as [|x xs IH]; intros ctx H; simpl.
  - apply each_call_after_nil.
  - apply each_call_after_app.
    + specialize (H [] x (or_introl eq_refl)). rewrite app_nil_r in H. exact H.
    + apply IH. intros more a Ha. rewrite <- app_assoc. apply H. right. exact Ha.
Qed.

(** A run that was interrupted made the calls of its plan, up to the one
    that failed, after the same events. *)
Lemma each_call_after_interrupted ctx needs e new plan :
  each_call_after ctx needs plan ->
  interrupted e new plan ->
  each_call_after ctx needs new.
Proof.
  intros Hplan (done & c & o & rest & -> & ->) before ev after H.
  destruct after as [|a after].
  - apply app_inj_tail in H. destruct H as [<- <-].
    apply (Hplan done (c, o) rest eq_refl).
  - assert (Hd : exists after', done = before ++ ev :: after').
    { destruct (exists_last (l := a :: after)) as (after' & last & Hl);
        [discriminate|].
      rewrite Hl in H.
      rewrite app_comm_cons, app_assoc in H. apply app_inj_tail in H.
      destruct H as [-> _]. exists after'. reflexivity. }
    destruct Hd as (after' & ->).
    apply (Hplan before ev (after' ++ (c, o) :: rest)).
    rewrite <- app_assoc. reflexivity.
Qed.

Lemma each_call_after_in ctx (P : Call -> Prop) evs c :
  each_call_after ctx (fun c _ => P c) evs -> In c (calls evs) -> P c.
Proof.
  intros H Hin. unfold calls in Hin. apply in_map_iff in Hin.
  destruct Hin as (ev & <- & Hin). apply in_split in Hin.
  destruct Hin as (before & after & ->). apply (H before ev after eq_refl).
Qed.

Section DeploymentCalls.

Variable ipv4_network : string -> bool.
Variable aws : Provider.
Variable config : Config.

(** What holds of the calls of every complete plan holds of the calls of
    every deployment, complete or not. *)
Lemma deploy_each_call_after needs ts tr lg fs :
  (forall ids, fits config ids ->
               each_call_after [] needs (deploy_events config ids)) ->
  exists new,
    trace (snd (AWSNetworkBuilder.deploy ipv4_network aws config false
                  (new_builder ts tr lg fs))) = tr ++ new
    /\ each_call_after [] needs new.
Proof.
  intros Hplan.
  pose proof (deploy_runs ipv4_network aws config ts (new_builder ts tr lg fs)
                eq_refl) as H.
  destruct (AWSNetworkBuilder.deploy ipv4_network aws config false
              (new_builder ts tr lg fs)) as [[[]|e] w']; cbn [fst snd];
    [| |contradiction].
  - destruct H as (_ & ids & Hfit & Ht & _). cbn in Ht.
    exists (deploy_events config ids). split; [exact Ht|]. apply Hplan, Hfit.
  - destruct H as (_ & _ & ids & e & new & Hfit & Ht & Hint). cbn in Ht.
    exists new. split; [exact Ht|].
    eapply each_call_after_interrupted; [apply Hplan, Hfit|exact Hint].
Qed.

End DeploymentCalls.

(** Walks through a list of events given by its elements. *)
Ltac walk solve_needs :=
  cbn [app];
  repeat first [ apply each_call_after_nil
               | apply each_call_after_cons; [solve_needs|] ].

(** Looks for an event in a list of events. *)
Ltac find_in :=
  first [ left; reflexivity
        | right; find_in
        | apply in_or_app; left; find_in
        | apply in_or_app; right; find_in ].

(** Splits a list of events given as a concatenation. *)
Ltac segments :=
  lazymatch goal with
  | |- each_call_after _ _ (_ ++ _) => apply each_call_after_app; [|segments]
  | _ => idtac
  end.

(** *** Nothing is deleted *)

Lemma deploy_events_build config ids :
  each_call_after [] builds (deploy_events config ids).
Proof.
  unfold deploy_events. segments.
  - unfold vpc_events, got, ok.
    destruct (get_default (enable_dns_hostnames config) true),
             (get_default (enable_dns_support config) true);
      walk ltac:(split; reflexivity).
  - unfold igw_events, got, ok. walk ltac:(split; reflexivity).
  - unfold route_tables_events, route_table_events, gateway_route, got, ok.
    walk ltac:(split; reflexivity).
  - unfold subnets_events. apply each_call_after_flat_map. intros more p _.
    unfold subnet_events, subnet_creation_events, association_events, got, ok.
    destruct (String.eqb (sub_type (fst p)) "public");
      destruct (dict_get (sub_type (fst p)) (planned_route_tables ids)) as [rt|];
      [destruct (truthy rt)| |destruct (truthy rt)|];
      walk ltac:(split; reflexivity).
  - unfold nat_step_events. destruct (nat_subnet config ids).
    + unfold nat_events, nat_creation_events, nat_route, got, ok.
      walk ltac:(split; reflexivity).
    + apply each_call_after_nil.
  - unfold groups_events. apply each_call_after_flat_map. intros more p _.
    unfold group_events, group_creation_events, got, ok.
    apply each_call_after_app; [walk ltac:(split; reflexivity)|].
    unfold rules_events.
    generalize (combine (snd (fst p)) (snd (snd p))). intros l.
    match goal with |- each_call_after ?ctx _ _ => generalize ctx end.
    induction l as [|ro l IH]; intros ctx; simpl.
    + apply each_call_after_nil.
    + apply each_call_after_cons; [split; reflexivity|apply IH].
  - unfold export_events, ok. walk ltac:(split; reflexivity).
Qed.

Section NeverDeletes.

Variable ipv4_network : string -> bool.
Variable aws : Provider.
Variable config : Config.

(** X10.  Whether it returns [True] or [False], a deployment makes none of
    the calls of a teardown (no description, deletion, detachment or
    release): what it created before a failure is not rolled back.  It
    authorizes no egress rule either. *)
Theorem deploy_never_deletes
    (ts : string) (tr : list Event) (lg : list (Level * string))
    (fs : dict DeployState) :
  exists new,
    trace (snd (AWSNetworkBuilder.deploy ipv4_network aws config false
                  (new_builder ts tr lg fs))) = tr ++ new
    /\ forall c, In c (calls new) ->
         category_of c = None /\ is_egress c = false.
Proof.
  destruct (deploy_each_call_after ipv4_network aws config builds ts tr lg fs)
    as (new & Ht & H).
  { intros ids _. apply deploy_events_build. }
  exists new. split; [exact Ht|]. intros c Hc.
  apply (each_call_after_in [] (fun c => category_of c = None /\ is_egress c = false)
           new c H Hc).
Qed.

End NeverDeletes.

(** *** Everything is created in the network of the deployment *)

Lemma created_vpc_in_events cidr_block name hostnames support tags vpc :
  In (got (CreateVpc cidr_block) vpc)
     (vpc_events cidr_block name hostnames support tags vpc).
Proof. unfold vpc_events. apply in_or_app. left. left. reflexivity. Qed.

Lemma deploy_events_in_created_vpc config ids :
  each_call_after [] (in_created_vpc config) (deploy_events config ids).
Proof.
  pose proof (created_vpc_in_events (cidr config) (vpc_name config)
                (get_default (enable_dns_hostnames config) true)
                (get_default (enable_dns_support config) true)
                (get_default (tags config) []) (id_vpc ids)) as Hvpc.
  set (vpc := vpc_events _ _ _ _ _ _) in *.
  unfold deploy_events. fold vpc.
  assert (Hbefore : each_call_after [] (in_created_vpc config) vpc).
  { subst vpc. unfold vpc_events, got, ok.
    destruct (get_default (enable_dns_hostnames config) true),
             (get_default (enable_dns_support config) true);
      walk ltac:(intros v Hv; discriminate Hv). }
  clearbody vpc.
  pose (in_vpc := fun c : Call =>
          forall v, vpc_argument c = Some v -> v = Some (id_vpc ids)).
  assert (Hneeds : forall c ctx,
            in_vpc c -> In (got (CreateVpc (cidr config)) (id_vpc ids)) ctx ->
            in_created_vpc config c ctx).
  { intros c ctx Hc Hin v Hv. exists (id_vpc ids). split; [apply Hc, Hv|exact Hin]. }
  assert (Hno : forall c, vpc_argument c = None -> in_vpc c).
  { intros c Hc v Hv. congruence. }
  assert (Hyes : forall c, vpc_argument c = Some (Some (id_vpc ids)) -> in_vpc c).
  { intros c Hc v Hv. congruence. }
  segments; [exact Hbefore|..].
  - unfold igw_events, got, ok.
    walk ltac:(apply Hneeds;
               [ first [apply Hno; reflexivity|apply Hyes; reflexivity]
               | repeat first [exact Hvpc|apply in_or_app; left] ]).
  - unfold route_tables_events, route_table_events, gateway_route, got, ok.
    walk ltac:(apply Hneeds;
               [ first [apply Hno; reflexivity|apply Hyes; reflexivity]
               | repeat first [exact Hvpc|apply in_or_app; left] ]).
  - unfold subnets_events. apply each_call_after_flat_map. intros more p _.
    unfold subnet_events, subnet_creation_events, association_events, got, ok.
    destruct (String.eqb (sub_type (fst p)) "public");
      destruct (dict_get (sub_type (fst p)) (planned_route_tables ids)) as [rt|];
      [destruct (truthy rt)| |destruct (truthy rt)|];
      walk ltac:(apply Hneeds;
                 [ first [apply Hno; reflexivity|apply Hyes; reflexivity]
                 | repeat first [exact Hvpc|apply in_or_app; left] ]).
  - unfold nat_step_events. destruct (nat_subnet config ids).
    + unfold nat_events, nat_creation_events, nat_route, got, ok.
      walk ltac:(apply Hneeds;
                 [ first [apply Hno; reflexivity|apply Hyes; reflexivity]
                 | repeat first [exact Hvpc|apply in_or_app; left] ]).
    + apply each_call_after_nil.
  - unfold groups_events. apply each_call_after_flat_map. intros more p _.
    unfold group_events, group_creation_events, got, ok.
    apply each_call_after_app;
      [walk ltac:(apply Hneeds;
                  [ first [apply Hno; reflexivity|apply Hyes; reflexivity]
                  | repeat first [exact Hvpc|apply in_or_app; left] ])|].
    unfold rules_events.
    generalize (combine (snd (fst p)) (snd (snd p))). intros l.
    match goal with |- each_call_after ?ctx _ _ => generalize ctx end.
    induction l as [|ro l IH]; intros ctx; simpl.
    + apply each_call_after_nil.
    + apply each_call_after_cons; [intros v Hv; discriminate Hv|apply IH].
  - unfold export_events, ok.
    walk ltac:(intros v Hv; discriminate Hv).
Qed.

Section InCreatedVpc.

Variable ipv4_network : string -> bool.
Variable aws : Provider.
Variable config : Config.

(** X11.  In a deployment, every call that names a network (the creation
    of a subnet, of a route table or of a security group, the attachment
    of the internet gateway) names the network that [CreateVpc] returned
    earlier in this deployment: no resource is created without a network
    or in another one. *)
Theorem deploy_stays_in_created_vpc
    (ts : string) (tr : list Event) (lg : list (Level * string))
    (fs : dict DeployState) :
  exists new,
    trace (snd (AWSNetworkBuilder.deploy ipv4_network aws config false
                  (new_builder ts tr lg fs))) = tr ++ new
    /\ each_call_after [] (in_created_vpc config) new.
Proof.
  apply deploy_each_call_after. intros ids _.
  apply deploy_events_in_created_vpc.
Qed.

End InCreatedVpc.

(** *** Public addresses *)

Lemma deploy_events_public_subnets config ids :
  each_call_after [] (public_subnet_created config) (deploy_events config ids).
Proof.
  unfold deploy_events. segments.
  - unfold vpc_events, got, ok.
    destruct (get_default (enable_dns_hostnames config) true),
             (get_default (enable_dns_support config) true);
      walk ltac:(exact I).
  - unfold igw_events, got, ok. walk ltac:(exact I).
  - unfold route_tables_events, route_table_events, gateway_route, got, ok.
    walk ltac:(exact I).
  - unfold subnets_events. apply each_call_after_flat_map. intros more p Hp.
    destruct p as [spec subnet]. apply in_combine_l in Hp. cbn [fst snd].
    unfold subnet_events, subnet_creation_events, association_events, got, ok.
    destruct (String.eqb (sub_type spec) "public") eqn:E;
      destruct (dict_get (sub_type spec) (planned_route_tables ids)) as [rt|];
      [destruct (truthy rt)| |destruct (truthy rt)|];
      walk ltac:(first
        [ exact I
        | exists spec, (Some (id_vpc ids));
          split; [exact Hp|];
          split; [apply String.eqb_eq, E|];
          apply in_or_app; right; left; reflexivity ]).
  - unfold nat_step_events. destruct (nat_subnet config ids).
    + unfold nat_events, nat_creation_events, nat_route, got, ok.
      walk ltac:(exact I).
    + apply each_call_after_nil.
  - unfold groups_events. apply each_call_after_flat_map. intros more p _.
    unfold group_events, group_creation_events, got, ok.
    apply each_call_after_app; [walk ltac:(exact I)|].
    unfold rules_events.
    generalize (combine (snd (fst p)) (snd (snd p))). intros l.
    match goal with |- each_call_after ?ctx _ _ => generalize ctx end.
    induction l as [|ro l IH]; intros ctx; simpl.
    + apply each_call_after_nil.
    + apply each_call_after_cons; [exact I|apply IH].
  - unfold export_events, ok. walk ltac:(exact I).
Qed.

(** *** Routes *)

Lemma deploy_events_default_routes config ids :
  each_call_after [] (default_route_to_created config) (deploy_events config ids).
Proof.
  unfold deploy_events. segments.
  - unfold vpc_events, got, ok.
    destruct (get_default (enable_dns_hostnames config) true),
             (get_default (enable_dns_support config) true);
      walk ltac:(exact I).
  - unfold igw_events, got, ok. walk ltac:(exact I).
  - unfold route_tables_events, route_table_events, gateway_route, got, ok.
    destruct (id_igw ids) as [|ch igw]; cbn [truthy];
      walk ltac:(first
        [ exact I
        | split; [reflexivity|]; left; find_in
        | split; [reflexivity|]; split;
          [ find_in | split; [eexists; find_in|find_in] ] ]).
  - unfold subnets_events. apply each_call_after_flat_map. intros more p _.
    unfold subnet_events, subnet_creation_events, association_events, got, ok.
    destruct (String.eqb (sub_type (fst p)) "public");
      destruct (dict_get (sub_type (fst p)) (planned_route_tables ids)) as [rt|];
      [destruct (truthy rt)| |destruct (truthy rt)|];
      walk ltac:(exact I).
  - unfold nat_step_events. destruct (nat_subnet config ids) as [subnet|].
    + unfold nat_events, nat_creation_events, nat_route, got, ok.
      destruct (id_nat ids) as [|ch nat]; cbn [truthy];
        walk ltac:(first
          [ exact I
          | split; [reflexivity|]; right; eexists _, _; find_in
          | split; [reflexivity|]; split;
            [ eexists _, _; find_in
            | split; [eexists; find_in|find_in] ] ]).
    + apply each_call_after_nil.
  - unfold groups_events. apply each_call_after_flat_map. intros more p _.
    unfold group_events, group_creation_events, got, ok.
    apply each_call_after_app; [walk ltac:(exact I)|].
    unfold rules_events.
    generalize (combine (snd (fst p)) (snd (snd p))). intros l.
    match goal with |- each_call_after ?ctx _ _ => generalize ctx end.
    induction l as [|ro l IH]; intros ctx; simpl.
    + apply each_call_after_nil.
    + apply each_call_after_cons; [exact I|apply IH].
  - unfold export_events, ok. walk ltac:(exact I).
Qed.

Section SafeCalls.

Variable ipv4_network : string -> bool.
Variable aws : Provider.
Variable config : Config.

(** X12.  In a deployment, a subnet is switched to public addresses on
    launch ([ModifySubnetAttribute]) only after [CreateSubnet] returned its
    identifier for a subnet of the configuration whose type is exactly
    [public]: no subnet of another type ever gets public addresses. *)
Theorem public_addresses_only_for_public_subnets
    (ts : string) (tr : list Event) (lg : list (Level * string))
    (fs : dict DeployState) :
  exists new,
    trace (snd (AWSNetworkBuilder.deploy ipv4_network aws config false
                  (new_builder ts tr lg fs))) = tr ++ new
    /\ each_call_after [] (public_subnet_created config) new.
Proof.
  apply deploy_each_call_after. intros ids _.
  apply deploy_events_public_subnets.
Qed.

(** X13.  Every route a deployment adds is a default route ([0.0.0.0/0])
    with at most one target.  A route to an internet gateway is added to
    the route table created and named [<vpc_name>-public-rt] and targets
    the internet gateway created earlier in this deployment; a route to a
    NAT gateway is added to the route table created and named
    [<vpc_name>-private-rt] and targets the NAT gateway created earlier; a
    route is sent without target only when the provider returned the empty
    identifier for the gateway. *)
Theorem routes_go_to_created_gateways
    (ts : string) (tr : list Event) (lg : list (Level * string))
    (fs : dict DeployState) :
  exists new,
    trace (snd (AWSNetworkBuilder.deploy ipv4_network aws config false
                  (new_builder ts tr lg fs))) = tr ++ new
    /\ each_call_after [] (default_route_to_created config) new.
Proof.
  apply deploy_each_call_after. intros ids _.
  apply deploy_events_default_routes.
Qed.

End SafeCalls.

(** *** Names *)

(** In a complete plan, every identifier that a creation call returns is
    given a [Name] tag. *)
Lemma deploy_events_name_resources config ids c i :
  is_creation c = true ->
  In (got c i) (deploy_events config ids) ->
  exists tag_list,
    In (ok (CreateTags i tag_list)) (deploy_events config ids)
    /\ dict_get "Name" tag_list <> None.
Proof.
  intros Hc Hin. unfold deploy_events in *.
  rewrite !in_app_iff in Hin.
  destruct Hin as [Hin|[Hin|[Hin|[Hin|[Hin|[Hin|Hin]]]]]].
  - apply got_in_vpc_events in Hin. destruct Hin as [-> ->].
    exists (("Name", vpc_name config) :: get_default (tags config) []).
    split; [|cbn; discriminate].
    apply in_or_app. left. unfold vpc_events, ok.
    destruct (get_default (enable_dns_hostnames config) true),
             (get_default (enable_dns_support config) true); find_in.
  - apply got_in_igw_events in Hin. destruct Hin as [-> ->].
    exists [("Name", (vpc_name config ++ "-igw")%string)]. split; [|cbn; discriminate].
    apply in_or_app. right. apply in_or_app. left. unfold igw_events, ok. find_in.
  - apply got_in_route_tables_events in Hin. destruct Hin as [-> [->| ->]].
    + exists [("Name", (vpc_name config ++ "-public-rt")%string)].
      split; [|cbn; discriminate].
      do 2 (apply in_or_app; right); apply in_or_app; left.
      unfold route_tables_events, route_table_events, ok; find_in.
    + exists [("Name", (vpc_name config ++ "-private-rt")%string)].
      split; [|cbn; discriminate].
      do 2 (apply in_or_app; right); apply in_or_app; left.
      unfold route_tables_events, route_table_events, ok; find_in.
  - apply got_in_subnets_events in Hin. destruct Hin as (p & Hp & -> & ->).
    exists [("Name", sub_name (fst p)); ("Type", sub_type (fst p))].
    split; [|cbn; discriminate].
    do 3 (apply in_or_app; right). apply in_or_app. left.
    unfold subnets_events. apply in_flat_map. exists p. split; [exact Hp|].
    unfold subnet_events, subnet_creation_events, ok.
    destruct (String.eqb (sub_type (fst p)) "public"); find_in.
  - unfold nat_step_events in *.
    destruct (nat_subnet config ids) as [subnet|]; [|contradiction].
    apply got_in_nat_events in Hin. destruct Hin as [-> ->].
    exists [("Name", (vpc_name config ++ "-nat")%string)]. split; [|cbn; discriminate].
    do 4 (apply in_or_app; right). apply in_or_app. left.
    unfold nat_events, nat_creation_events, ok. find_in.
  - apply got_in_groups_events in Hin; [|exact Hc].
    destruct Hin as (p & Hp & -> & ->).
    exists [("Name", fst (fst p))]. split; [|cbn; discriminate].
    do 5 (apply in_or_app; right). apply in_or_app. left.
    unfold groups_events. apply in_flat_map. exists p. split; [exact Hp|].
    unfold group_events, group_creation_events, ok. find_in.
  - exfalso. eapply got_in_export_events, Hin.
Qed.

Section Names.

Variable ipv4_network : string -> bool.
Variable aws : Provider.
Variable config : Config.

(** X14.  After a deployment that returned [True], every resource it
    created (every identifier a creation call returned: network, internet
    gateway, route tables, subnets, NAT gateway, security groups) was
    given a [Name] tag by a [CreateTags] call that returned. *)
Theorem created_resources_are_named
    (ts : string) (tr : list Event) (lg : list (Level * string))
    (fs : dict DeployState) :
  let run := AWSNetworkBuilder.deploy ipv4_network aws config false
               (new_builder ts tr lg fs) in
  fst run = Ok true ->
  exists new,
    trace (snd run) = tr ++ new
    /\ forall c i,
         is_creation c = true ->
         In (got c i) new ->
         exists tag_list,
           In (ok (CreateTags i tag_list)) new
           /\ dict_get "Name" tag_list <> None.
Proof.
  cbv zeta. intros Hok.
  pose proof (deploy_runs ipv4_network aws config ts (new_builder ts tr lg fs)
                eq_refl) as H.
  destruct (AWSNetworkBuilder.deploy ipv4_network aws config false
              (new_builder ts tr lg fs)) as [[[]|e] w'];
    cbn [fst snd] in Hok |- *; try discriminate.
  destruct H as (_ & ids & _ & Ht & _). cbn in Ht.
  exists (deploy_events config ids). split; [exact Ht|].
  intros c i. apply deploy_events_name_resources.
Qed.

End Names.

(** *** Ingress rules *)

Lemma each_call_after_map {A} ctx needs (f : A -> Event) l :
  (forall more a, In a l -> needs (fst (f a)) (ctx ++ more)) ->
  each_call_after ctx needs (map f l).
Proof.
  revert ctx. induction l as [|x l IH]; intros ctx H; simpl.
  - apply each_call_after_nil.
  - apply each_call_after_cons.
    + specialize (H [] x (or_introl eq_refl)). rewrite app_nil_r in H. exact H.
    + apply IH. intros more a Ha. rewrite <- app_assoc. apply H. right. exact Ha.
Qed.

Lemma deploy_events_ingress config ids :
  each_call_after [] (ingress_from_configuration config) (deploy_events config ids).
Proof.
  unfold deploy_events. segments.
  - unfold vpc_events, got, ok.
    destruct (get_default (enable_dns_hostnames config) true),
             (get_default (enable_dns_support config) true);
      walk ltac:(exact I).
  - unfold igw_events, got, ok. walk ltac:(exact I).
  - unfold route_tables_events, route_table_events, gateway_route, got, ok.
    walk ltac:(exact I).
  - unfold subnets_events. apply each_call_after_flat_map. intros more p _.
    unfold subnet_events, subnet_creation_events, association_events, got, ok.
    destruct (String.eqb (sub_type (fst p)) "public");
      destruct (dict_get (sub_type (fst p)) (planned_route_tables ids)) as [rt|];
      [destruct (truthy rt)| |destruct (truthy rt)|];
      walk ltac:(exact I).
  - unfold nat_step_events. destruct (nat_subnet config ids).
    + unfold nat_events, nat_creation_events, nat_route, got, ok.
      walk ltac:(exact I).
    + apply each_call_after_nil.
  - unfold groups_events. apply each_call_after_flat_map.
    intros more [[name rules] [sg outs]] Hp.
    apply in_combine_l in Hp.
    unfold group_events, group_creation_events, got, ok. cbn [fst snd].
    apply each_call_after_app; [walk ltac:(exact I)|].
    unfold rules_events. apply each_call_after_map.
    intros more' [rule o] Hro. apply in_combine_l in Hro.
    cbn [fst snd]. unfold ingress_call. cbn.
    exists name, rules, (Some (id_vpc ids)).
    split; [exact Hp|]. split; [destruct rule; exact Hro|].
    find_in.
  - unfold export_events, ok. walk ltac:(exact I).
Qed.

Section Ingress.

Variable ipv4_network : string -> bool.
Variable aws : Provider.
Variable config : Config.

(** X15.  In a deployment, every authorization of an ingress rule is that
    of a rule which the configuration lists for a security group, with its
    protocol, ports and CIDR unchanged, on the group that
    [CreateSecurityGroup] returned earlier in this deployment for that
    entry of the configuration: no other port is opened and no other group
    is touched. *)
Theorem ingress_rules_come_from_configuration
    (ts : string) (tr : list Event) (lg : list (Level * string))
    (fs : dict DeployState) :
  exists new,
    trace (snd (AWSNetworkBuilder.deploy ipv4_network aws config false
                  (new_builder ts tr lg fs))) = tr ++ new
    /\ each_call_after [] (ingress_from_configuration config) new.
Proof.
  apply deploy_each_call_after. intros ids _.
  apply deploy_events_ingress.
Qed.

End Ingress.

(** ** What a teardown touches *)

Lemma teardown_events_work_on_state state response release :
  each_call_after [] (works_on_state state)
    (teardown_events state response release).
Proof.
  unfold teardown_events. segments.
  - unfold nat_deletion_events.
    destruct (nat_gateway_data (gateways state)) as [data|] eqn:En;
      [|apply each_call_after_nil].
    unfold nat_gateway_deletion_events, ok.
    destruct (GatewayManager.allocation_of response) as [a|] eqn:Ea;
      [destruct (truthy a)|];
      walk ltac:(first [ exists data; split; [exact En|reflexivity]
                       | exists (nat_id data), response; split; [find_in|exact Ea] ]).
  - unfold igw_deletion_events.
    destruct (internet_gateway (gateways state)) as [igw|] eqn:Ei;
      [|apply each_call_after_nil].
    unfold igw_detach_delete_events, ok.
    walk ltac:(first [split; [exact Ei|reflexivity]|exact Ei]).
  - unfold subnet_deletion_events. apply each_call_after_map.
    intros more [name data] Hin. cbn. exists name, data. split; [exact Hin|reflexivity].
  - unfold route_table_deletion_events. apply each_call_after_map.
    intros more [tier rt] Hin. cbn. exists tier. exact Hin.
  - unfold group_deletion_events. apply each_call_after_map.
    intros more [name sg] Hin. cbn. exists name. exact Hin.
  - unfold vpc_deletion_events.
    destruct (vpc_id state) as [vpc|] eqn:Ev; [|apply each_call_after_nil].
    destruct (truthy vpc); [|apply each_call_after_nil].
    unfold ok. walk ltac:(exact Ev).
Qed.

Section TeardownCalls.

Variable aws : Provider.

(** X16.  A teardown touches only what its state file records: every
    deletion or detachment it calls, whether it returns [True] or [False],
    names an identifier that the state holds at the place of that kind of
    resource (a subnet of [subnets], a route table of [route_tables], a
    group of [security_groups], the internet gateway and the NAT gateway of
    [gateways], the network of [vpc_id]); the one identifier it takes from
    the provider is the allocation it releases, which is the allocation of
    the first address of the NAT gateway it described before. *)
Theorem teardown_touches_only_recorded_resources
    (state_file : string) (state : DeployState) (w : World) :
  dict_get state_file (files w) = Some state ->
  exists new,
    trace (snd (AWSNetworkBuilder.teardown aws state_file w)) = trace w ++ new
    /\ each_call_after [] (works_on_state state) new.
Proof.
  intros Hfile.
  pose proof (teardown_runs aws state state_file w Hfile) as H.
  destruct (AWSNetworkBuilder.teardown aws state_file w) as [[[]|e] w'];
    cbn [fst snd]; [| |contradiction].
  - destruct H as (_ & _ & response & release & _ & Ht).
    eexists. split; [exact Ht|]. apply teardown_events_work_on_state.
  - destruct H as (_ & _ & response & release & e & new & _ & Ht & Hint).
    exists new. split; [exact Ht|].
    eapply each_call_after_interrupted;
      [apply teardown_events_work_on_state|exact Hint].
Qed.

End TeardownCalls.

(** ** The command line *)

Section CommandLineProperties.

Variable aws : Provider.
Variable config_files : dict string.
Variable safe_load : string -> string + utils.Yaml.
Variable now : string.
Variable str : utils.Yaml -> string.
Variable session : utils.Yaml -> option SessionError.

(** What the construction of a builder leaves, whether it returns or not:
    the state of a new builder, the files as they were, and no call but the
    two of the set-up of the log. *)
Lemma builder_construction_keeps_the_world config_path verbose w0 :
  let built := __init__ aws config_files safe_load now str session config_path
                 verbose w0 in
  st (snd built) = init_state now
  /\ files (snd built) = files w0
  /\ exists new,
       trace (snd built) = trace w0 ++ new
       /\ forall c, In c (calls new) ->
            c = MakeDir "logs" \/ c = OpenForWriting "logs/builder.log".
Proof.
  cbv zeta. unfold __init__, setup_logging. unfold_monad.
  destruct (aws (trace w0) (MakeDir "logs")) as [e|[]]; cbn.
  { repeat split. eexists. split; [reflexivity|].
    intros c [<-|[]]. left. reflexivity. }
  destruct (aws _ (OpenForWriting "logs/builder.log")) as [e|[]]; cbn.
  { repeat split. eexists. split; [rewrite <- app_assoc; reflexivity|].
    intros c [<-|[<-|[]]]; auto. }
  assert (Hcalls : forall c,
            In c (calls [(MakeDir "logs", Returned VUnit);
                         (OpenForWriting "logs/builder.log", Returned VUnit)]) ->
            c = MakeDir "logs" \/ c = OpenForWriting "logs/builder.log").
  { intros c [<-|[<-|[]]]; auto. }
  destruct (utils.load_config config_files safe_load config_path) as [e|config];
    cbn.
  { repeat split. eexists. split; [rewrite <- app_assoc; reflexivity|exact Hcalls]. }
  destruct (yaml_subscript "region" config) as [region|]; cbn.
  2: { repeat split. eexists.
       split; [rewrite <- app_assoc; reflexivity|exact Hcalls]. }
  destruct (session region) as [[|e]|]; cbn.
  all: repeat split; eexists;
       (split; [rewrite <- app_assoc; reflexivity|exact Hcalls]).
Qed.

(** X17.  With [--teardown], [main] never deploys and does not look at
    [--dry-run]: the run is the same whatever the dry-run flag and whatever
    a deployment would do, so that [--teardown --dry-run] deletes as
    [--teardown] does.  Without a state file (none, or the empty string) it
    prints its two lines and exits with status 1, with nothing done: no
    builder is constructed. *)
Theorem main_teardown_ignores_dry_run
    (deploy deploy' : utils.Yaml -> bool -> M bool)
    (args : Args) (dry_run : bool) (w0 : World) :
  args_teardown args = true ->
  let run := main aws config_files safe_load now str session deploy args w0 in
  run = main aws config_files safe_load now str session deploy'
          (mkArgs (args_config args) dry_run (args_verbose args) true
                  (args_state_file args)) w0
  /\ (truthy_opt (args_state_file args) = false ->
        ending run = Exit 1
        /\ printed run
           = ["Error: --state-file required for teardown";
              "Example: python3 builder.py --teardown --state-file output/vpc-state.json"]
        /\ world run = w0).
Proof.
  intros Ht. cbv zeta. unfold main. rewrite Ht. cbn [args_teardown
    args_state_file args_config args_verbose].
  split; [reflexivity|].
  intros Hs. rewrite Hs. cbn. repeat split.
Qed.

(** X18.  With [--teardown] and a state file, [main] first constructs a
    builder from a configuration file: the one of [--config], or
    [configs/prod-vpc.yaml] when there is none.  When [load_config] raises
    on that file, the program ends with a traceback and status 1, and no
    call of a teardown is made: the only calls are those of the set-up of
    the log, and the files are as they were. *)
Theorem main_teardown_needs_configuration
    (deploy : utils.Yaml -> bool -> M bool)
    (args : Args) (e : utils.LoadError) (w0 : World) :
  args_teardown args = true ->
  truthy_opt (args_state_file args) = true ->
  let config_path :=
    if truthy_opt (args_config args)
    then get_default (args_config args) ""
    else "configs/prod-vpc.yaml" in
  utils.load_config config_files safe_load config_path = inl e ->
  let run := main aws config_files safe_load now str session deploy args w0 in
  (ending run = Traceback (LoadFailure e)
   \/ exists e', ending run = Traceback (Failure e'))
  /\ status_of (ending run) = 1%Z
  /\ files (world run) = files w0
  /\ exists new,
       trace (world run) = trace w0 ++ new
       /\ forall c, In c (calls new) ->
            c = MakeDir "logs" \/ c = OpenForWriting "logs/builder.log".
Proof.
  intros Ht Hs. cbv zeta. intros Hload. unfold main. rewrite Ht, Hs. cbn [negb].
  pose proof (builder_construction_keeps_the_world
                (if truthy_opt (args_config args)
                 then get_default (args_config args) ""
                 else "configs/prod-vpc.yaml") (args_verbose args) w0) as Hw.
  cbv zeta in Hw.
  assert (Hend : match fst (__init__ aws config_files safe_load now str session
                              (if truthy_opt (args_config args)
                               then get_default (args_config args) ""
                               else "configs/prod-vpc.yaml")
                              (args_verbose args) w0) with
                 | inl (Traceback (LoadFailure e0)) => e0 = e
                 | inl (Traceback (Failure _)) => True
                 | _ => False
                 end).
  { unfold __init__, setup_logging. unfold_monad.
    destruct (aws (trace w0) (MakeDir "logs")) as [e1|[]]; cbn; [exact I|].
    destruct (aws _ (OpenForWriting "logs/builder.log")) as [e2|[]]; cbn;
      [exact I|].
    rewrite Hload. reflexivity. }
  destruct (__init__ aws config_files safe_load now str session _ _ w0)
    as [[[status|[e0| |e0]]|config] w]; cbn in Hend, Hw |- *; try contradiction.
  - subst e0. destruct Hw as (_ & Hf & Hn).
    split; [left; reflexivity|]. split; [reflexivity|]. split; [exact Hf|exact Hn].
  - destruct Hw as (_ & Hf & Hn).
    split; [right; eexists; reflexivity|]. split; [reflexivity|].
    split; [exact Hf|exact Hn].
Qed.

(** A document that [load_config] returns has passed the test of the
    four fields. *)
Lemma loaded_document_has_fields path doc :
  utils.load_config config_files safe_load path = inr doc ->
  forall f, In f utils.required_fields -> utils.field_in f doc = Some true.
Proof.
  unfold utils.load_config.
  destruct (dict_get path config_files) as [text|]; [|discriminate].
  destruct (safe_load text) as [msg|config]; [discriminate|].
  destruct (utils.check_fields utils.required_fields config) as [e|] eqn:Ec;
    [discriminate|].
  intros [= <-]. apply check_fields_passes, Ec.
Qed.

(** A key that is [in] a mapping can be subscripted. *)
Lemma key_in_mapping_subscripts key entries :
  utils.field_in key (utils.YMap entries) = Some true ->
  yaml_subscript key (utils.YMap entries) <> None.
Proof.
  cbn. intros [= H]. induction entries as [|[k v] entries IH]; cbn in *.
  - discriminate.
  - destruct (utils.is_str key k); [discriminate|]. apply IH, H.
Qed.

(** X19.  The test of [load_config] does not make a document a usable
    configuration: a sequence or a string that holds the four field names
    passes it as a mapping with the four keys does.  Of the documents that
    [load_config] returns, [config['region']] succeeds on the mappings and
    on no other; on the others the construction of the builder ends, in
    deployment and in teardown mode alike, with an exception that nothing
    catches (status 1), before the session is made: no call but those of the
    set-up of the log is made, and neither a deployment, dry run or not, nor
    a teardown is started. *)
Theorem construction_needs_a_mapping
    (deploy : utils.Yaml -> bool -> M bool)
    (args : Args) (config_path : string) (config : utils.Yaml) (w0 : World) :
  (if args_teardown args
   then truthy_opt (args_state_file args) = true
        /\ config_path = (if truthy_opt (args_config args)
                          then get_default (args_config args) ""
                          else "configs/prod-vpc.yaml")
   else args_config args = Some config_path /\ config_path <> "") ->
  utils.load_config config_files safe_load config_path = inr config ->
  (yaml_subscript "region" config = None
   <-> forall entries, config <> utils.YMap entries)
  /\ ((forall entries, config <> utils.YMap entries) ->
      let run := main aws config_files safe_load now str session deploy args w0 in
      (ending run = Traceback SubscriptFailure
       \/ exists e, ending run = Traceback (Failure e))
      /\ status_of (ending run) = 1%Z
      /\ exists new,
           trace (world run) = trace w0 ++ new
           /\ forall c, In c (calls new) ->
                c = MakeDir "logs" \/ c = OpenForWriting "logs/builder.log").
Proof.
  intros Hargs Hload.
  assert (Hiff : yaml_subscript "region" config = None
                 <-> forall entries, config <> utils.YMap entries).
  { split.
    - intros Hnone entries ->.
      apply (key_in_mapping_subscripts "region" entries); [|exact Hnone].
      apply (loaded_document_has_fields _ _ Hload). cbn. auto.
    - intros Hno. destruct config; try reflexivity.
      exfalso. eapply Hno. reflexivity. }
  split; [exact Hiff|]. intros Hno. cbv zeta.
  apply Hiff in Hno.
  assert (Hmain : main aws config_files safe_load now str session deploy args w0
                  = let built := __init__ aws config_files safe_load now str session
                                   config_path (args_verbose args) w0 in
                    match fst built with
                    | inl e => mkRun e [] (snd built)
                    | inr document =>
                        if args_teardown args
                        then exit_with (AWSNetworkBuilder.teardown aws
                                          (get_default (args_state_file args) "")
                                          (snd built))
                        else exit_with (deploy document (args_dry_run args)
                                          (snd built))
                    end).
  { unfold main. cbv zeta. destruct (args_teardown args).
    - destruct Hargs as [Hs ->]. rewrite Hs. cbn [negb].
      destruct (__init__ _ _ _ _ _ _ _ _ w0) as [[e|document] w]; reflexivity.
    - destruct Hargs as [Hc Hne]. rewrite Hc. cbn [truthy_opt get_default].
      rewrite (truthy_nonempty _ Hne). cbn [negb].
      destruct (__init__ _ _ _ _ _ _ _ _ w0) as [[e|document] w]; reflexivity. }
  rewrite Hmain. cbv zeta.
  pose proof (builder_construction_keeps_the_world config_path (args_verbose args)
                w0) as Hw.
  cbv zeta in Hw. destruct Hw as (_ & _ & Hcalls).
  assert (Hend : fst (__init__ aws config_files safe_load now str session
                        config_path (args_verbose args) w0)
                 = inl (Traceback SubscriptFailure)
                 \/ exists e,
                      fst (__init__ aws config_files safe_load now str session
                             config_path (args_verbose args) w0)
                      = inl (Traceback (Failure e))).
  { unfold __init__, setup_logging. unfold_monad.
    destruct (aws (trace w0) (MakeDir "logs")) as [e1|[]]; cbn;
      [right; eexists; reflexivity|].
    destruct (aws _ (OpenForWriting "logs/builder.log")) as [e2|[]]; cbn;
      [right; eexists; reflexivity|].
    rewrite Hload, Hno. left. reflexivity. }
  destruct Hend as [Hend|[e Hend]]; rewrite Hend; cbn.
  - split; [left; reflexivity|]. split; [reflexivity|exact Hcalls].
  - split; [right; eexists; reflexivity|]. split; [reflexivity|exact Hcalls].
Qed.

End CommandLineProperties.

(** ** Instances of the further properties *)

Lemma load_config_missing_field_witness :
  utils.load_config sample_config_files sample_safe_load "configs/name-only.yaml"
  = inl (utils.ValueError "Missing required field in config: cidr").
Proof.
  destruct (load_config_names_first_missing_field sample_config_files
              sample_safe_load "configs/name-only.yaml" "vpc_name: demo"
              [(utils.YStr "vpc_name", utils.YStr "demo")] eq_refl eq_refl)
    as [[H _]|(before & field & after & Hr & H & Hk & Hb)].
  - vm_compute in H. discriminate H.
  - destruct before as [|f0 before].
    + injection Hr as <- _. vm_compute in Hk. discriminate Hk.
    + injection Hr as <- Hr. destruct before as [|f1 before].
      * injection Hr as <- _. exact H.
      * injection Hr as <- _.
        specialize (Hb "cidr" (or_intror (or_introl eq_refl))).
        vm_compute in Hb. discriminate Hb.
Defined.

Lemma load_config_empty_file_witness :
  utils.load_config sample_config_files sample_safe_load "configs/empty.yaml"
  = inl utils.TypeError.
Proof.
  apply (proj2 (load_config_type_error_iff_no_container sample_config_files
                  sample_safe_load "configs/empty.yaml" "" utils.YNull
                  eq_refl eq_refl)).
  exact I.
Defined.

Lemma duplicate_egress_rule_witness :
  let add := SecurityManager.add_egress_rule duplicate_egress_reporting "sg-web"
               "tcp" 443 443 "0.0.0.0/0" in
  fst ((add ;; add) (new_builder "t0" [] [] [])) = Ok tt
  /\ count_warnings (log (snd ((add ;; add) (new_builder "t0" [] [] [])))) = 1.
Proof.
  cbv zeta.
  destruct (add_egress_rule_swallows_duplicates duplicate_egress_reporting "sg-web"
              "tcp" 443 443 "0.0.0.0/0" (new_builder "t0" [] [] []))
    as (_ & _ & H).
  destruct (H "An error occurred (InvalidPermission.Duplicate) when calling the AuthorizeSecurityGroupEgress operation: the specified rule already exists")
    as (H1 & H2).
  - reflexivity.
  - reflexivity.
  - vm_compute. reflexivity.
  - split; [exact H1|]. rewrite H2. reflexivity.
Defined.

Lemma refused_release_witness :
  let run := GatewayManager.delete_nat_gateway releases_fail "nat-1"
               (new_builder "t0" [] [] []) in
  fst run = Ok tt
  /\ exists msg,
       In (ReleaseAddress "eipalloc-1", Failed (ClientError msg)) (trace (snd run))
       /\ log (snd run)
          = [(INFO, "NAT Gateway nat-1 deletion initiated");
             (WARNING, ("Could not release EIP: " ++ msg)%string)].
Proof.
  cbv zeta.
  destruct (delete_nat_gateway_tolerates_refused_release releases_fail "nat-1"
              (new_builder "t0" [] [] [])) as (new & Ht & _ & Hok & _).
  assert (Hrun : fst (GatewayManager.delete_nat_gateway releases_fail "nat-1"
                        (new_builder "t0" [] [] [])) = Ok tt)
    by (vm_compute; reflexivity).
  split; [exact Hrun|].
  destruct (Hok Hrun) as (_ & H).
  cbn [trace new_builder app] in Ht.
  destruct (H (ReleaseAddress "eipalloc-1")
              (ClientError "An error occurred (AuthFailure) when calling the ReleaseAddress operation"))
    as (_ & msg & Hmsg & Hlog).
  - rewrite <- Ht. vm_compute. find_in.
  - exists msg. split; [|exact Hlog].
    rewrite <- Hmsg. vm_compute. find_in.
Defined.

Lemma exported_state_witness :
  json_load "output/test-state.json" (snd sample_run)
  = (Ok (st (snd sample_run)), snd sample_run)
  /\ timestamp (st (snd sample_run)) = "t0".
Proof.
  unfold sample_run.
  destruct (exported_state_loads_back starts_with_digit obliging sample_config
              "t0" [] [] []) as (H1 & H2 & _).
  - vm_compute. reflexivity.
  - split; [exact H1|exact H2].
Defined.

Lemma teardown_after_deploy_witness :
  let torn := AWSNetworkBuilder.teardown obliging "output/test-state.json"
                (new_builder "t1" [] [] (files (snd sample_run))) in
  In (ok (DeleteSubnet "subnet-10.0.1.0/24")) (trace (snd torn))
  /\ In (ok (DeleteNatGateway "nat-1")) (trace (snd torn)).
Proof.
  cbv zeta. unfold sample_run.
  destruct (teardown_deletes_what_deploy_created starts_with_digit sample_config
              obliging obliging "t0" "t1" [] [] [] [] [])
    as (created & deleted & Hc & Hd & H).
  - vm_compute. reflexivity.
  - vm_compute. reflexivity.
  - vm_compute. constructor; [intros [H0|[]]; discriminate|].
    constructor; [intros []|constructor].
  - vm_compute. constructor; [intros []|constructor].
  - cbn [app] in Hc, Hd.
    change (AWSNetworkBuilder.state_file_of (vpc_name sample_config))
      with "output/test-state.json" in Hd.
    rewrite Hd. split.
    + apply (H (CreateSubnet (Some "vpc-1") "10.0.1.0/24" "us-east-1a")
               "subnet-10.0.1.0/24"); [|reflexivity|discriminate].
      rewrite <- Hc. vm_compute. find_in.
    + apply (H (CreateNatGateway "subnet-10.0.1.0/24" "eipalloc-1") "nat-1");
        [|reflexivity|discriminate].
      rewrite <- Hc. vm_compute. find_in.
Defined.

Lemma named_resources_witness :
  exists tag_list,
    In (ok (CreateTags "nat-1" tag_list)) (trace (snd sample_run))
    /\ dict_get "Name" tag_list <> None.
Proof.
  unfold sample_run.
  destruct (created_resources_are_named starts_with_digit obliging sample_config
              "t0" [] [] []) as (new & Hn & H).
  - vm_compute. reflexivity.
  - cbn [app] in Hn. rewrite Hn.
    apply (H (CreateNatGateway "subnet-10.0.1.0/24" "eipalloc-1") "nat-1");
      [reflexivity|].
    rewrite <- Hn. vm_compute. find_in.
Defined.

Lemma failed_deployment_witness :
  let deployed := AWSNetworkBuilder.deploy starts_with_digit subnets_fail
                    sample_config false (new_builder "t0" [] [] []) in
  let torn := AWSNetworkBuilder.teardown obliging "output/test-state.json"
                (new_builder "t1" [] [] (files (snd deployed))) in
  (exists msg, fst torn = Raise (OSError msg))
  /\ trace (snd torn) = [].
Proof.
  cbv zeta.
  apply (failed_deployment_cannot_be_torn_down starts_with_digit sample_config
           subnets_fail obliging "t0" "t1" [] [] [] [] []).
  - vm_compute. reflexivity.
  - reflexivity.
Defined.

Lemma teardown_calls_witness :
  exists new,
    trace (snd (AWSNetworkBuilder.teardown obliging "output/test-state.json"
                  (snd sample_run)))
    = trace (snd sample_run) ++ new
    /\ each_call_after [] (works_on_state sample_state) new.
Proof.
  apply (teardown_touches_only_recorded_resources obliging
           "output/test-state.json" sample_state (snd sample_run)).
  vm_compute. reflexivity.
Defined.

Lemma teardown_with_dry_run_witness :
  let run := main obliging sample_config_files sample_safe_load "t1" sample_str
               with_credentials sample_deploy
               (mkArgs (Some "configs/demo.yaml") true false true
                       (Some "output/test-state.json"))
               (snd sample_run) in
  ending run = Exit 0
  /\ In (ok (DeleteVpc "vpc-1")) (trace (world run)).
Proof.
  cbv zeta.
  destruct (main_teardown_ignores_dry_run obliging sample_config_files
              sample_safe_load "t1" sample_str with_credentials
              sample_deploy sample_deploy
              (mkArgs (Some "configs/demo.yaml") true false true
                      (Some "output/test-state.json"))
              false (snd sample_run)) as [Heq _].
  - reflexivity.
  - rewrite Heq. vm_compute. split; [reflexivity|find_in].
Defined.

Lemma teardown_without_configuration_witness :
  let run := main obliging sample_config_files sample_safe_load "t1" sample_str
               with_credentials sample_deploy
               (mkArgs None false false true (Some "output/test-state.json"))
               (snd sample_run) in
  status_of (ending run) = 1%Z
  /\ files (world run) = files (snd sample_run).
Proof.
  cbv zeta.
  destruct (main_teardown_needs_configuration obliging sample_config_files
              sample_safe_load "t1" sample_str with_credentials sample_deploy
              (mkArgs None false false true (Some "output/test-state.json"))
              (utils.FileNotFoundError
                 "Configuration file not found: configs/prod-vpc.yaml")
              (snd sample_run)) as (_ & H1 & H2 & _).
  - reflexivity.
  - reflexivity.
  - reflexivity.
  - split; [exact H1|exact H2].
Defined.

Lemma listing_passes_for_configuration_witness :
  let run := main obliging listing_files listing_safe_load "t0" sample_str
               with_credentials sample_deploy
               (mkArgs (Some "configs/listing.yaml") true false false None)
               (new_builder "" [] [] []) in
  utils.load_config listing_files listing_safe_load "configs/listing.yaml"
  = inr listing_document
  /\ status_of (ending run) = 1%Z.
Proof.
  cbv zeta.
  destruct (construction_needs_a_mapping obliging listing_files listing_safe_load
              "t0" sample_str with_credentials sample_deploy
              (mkArgs (Some "configs/listing.yaml") true false false None)
              "configs/listing.yaml" listing_document (new_builder "" [] [] []))
    as (_ & H).
  - cbn. split; [reflexivity|discriminate].
  - reflexivity.
  - destruct H as (_ & H1 & _); [intros entries; discriminate|].
    split; [reflexivity|exact H1].
Defined.
